(** * run.py: build, deploy and launch pipeline of the bespin kernel

    A shallow embedding of [kernel/run.py] and the properties of its
    three stages (build, deploy, run) together with the exit-code
    translation of the emulator's process status.

    Conventions of the embedding.
    - Python [str] values are [string]s; each character stands for one
      code point below 256.
    - Python [int] values are [Z]; [>>] is [Z.shiftr] (arithmetic shift,
      floor semantics on negative numbers, as in Python).
    - A [pathlib.Path] is the list of its components from the root; the
      operator [/] with a file or module name appends one component
      (module names are directory names below [usr/], i.e. single
      components).  The file system has directories and regular files
      only (no symbolic links, no permissions).
    - Side effects are threaded through a [World]: the file system, the
      working directory, the lines printed, the toolchain invocations made
      and the (mutable) global [CARGO_DEFAULT_ARGS].  Exceptions are the
      [Raise] outcome; [sys.exit n] is the exception [SystemExit n].
    - External programs (xargo, the tap set-up commands, qemu) are
      parameters collected in [Env].
    - [main] is the main routine up to its outcome; [run_script] is the
      script with what the interpreter does with an exception that
      leaves the main routine, the hook of the script included. *)

From stdpp Require Import base tactics option list strings pretty gmap fin_maps.
From Stdlib Require Import ZArith Lia Ascii String.

Local Open Scope Z_scope.
Local Open Scope string_scope.
Local Open Scope list_scope.

(* ===================================================================== *)
(** ** Strings *)
(* ===================================================================== *)

(** [sep in s] for a one-character separator. *)
Fixpoint contains_char (c : ascii) (s : string) : bool :=
  match s with
  | EmptyString => false
  | String a s' => if Ascii.eqb a c then true else contains_char c s'
  end.

(** Number of occurrences of a character, [s.count(c)]. *)
Fixpoint count_char (c : ascii) (s : string) : nat :=
  match s with
  | EmptyString => O
  | String a s' => ((if Ascii.eqb a c then 1 else 0) + count_char c s')%nat
  end.

(** [s.split(c)] with an explicit one-character separator: every
    occurrence of the separator cuts, empty pieces are kept. *)
Fixpoint split_char (c : ascii) (s : string) : list string :=
  match s with
  | EmptyString => [EmptyString]
  | String a s' =>
      if Ascii.eqb a c then EmptyString :: split_char c s'
      else match split_char c s' with
           | [] => [String a EmptyString]
           | p :: ps => String a p :: ps
           end
  end.

(** [str.isspace] on one character (code points below 256):
    TAB, LF, VT, FF, CR, FS, GS, RS, US, SPACE, NEL and NBSP. *)
Definition py_isspace (a : ascii) : bool :=
  let n := N_of_ascii a in
  ((9 <=? n) && (n <=? 13) || (28 <=? n) && (n <=? 32)
   || (n =? 133) || (n =? 160))%N.

(** [s.split()] without argument: cut at runs of whitespace, drop empty
    pieces.  [cur] is the token being read, in reverse. *)
Fixpoint py_split_aux (cur : list ascii) (s : string) : list string :=
  match s with
  | EmptyString =>
      match cur with
      | [] => []
      | _ => [string_of_list_ascii (rev cur)]
      end
  | String a s' =>
      if py_isspace a then
        match cur with
        | [] => py_split_aux [] s'
        | _ => string_of_list_ascii (rev cur) :: py_split_aux [] s'
        end
      else py_split_aux (a :: cur) s'
  end.

Definition py_split (s : string) : list string := py_split_aux [] s.

(** Characters that are not whitespace, and the shape of the pieces
    [s.split()] returns: not empty and free of whitespace. *)
Definition nonspace (a : ascii) : bool := negb (py_isspace a).

Definition is_token (t : string) : Prop :=
  t <> "" /\ forallb nonspace (list_ascii_of_string t) = true.

(** [sep.join(l)]. *)
Fixpoint join (sep : string) (l : list string) : string :=
  match l with
  | [] => ""
  | [x] => x
  | x :: l' => x +:+ sep +:+ join sep l'
  end.

(** [s.endswith(suffix)]. *)
Definition ends_with (suffix s : string) : bool :=
  let n := String.length s in
  let k := String.length suffix in
  (k <=? n)%nat && String.eqb (String.substring (n - k) k s) suffix.

(** Truth value of a string, of an optional string and of an optional
    integer ([None], the empty string and [0] are false). *)
Definition truthy_str (s : string) : bool := negb (String.eqb s "").

Definition truthy_opt_str (o : option string) : bool :=
  match o with
  | Some s => truthy_str s
  | None => false
  end.

Definition truthy_opt_int (o : option Z) : bool :=
  match o with
  | Some n => negb (Z.eqb n 0)
  | None => false
  end.

(** ['{}'.format(x)] for an optional string and for an integer. *)
Definition format_opt_str (o : option string) : string :=
  match o with
  | Some s => s
  | None => "None"
  end.

Definition format_int (n : Z) : string := pretty n.

(* ===================================================================== *)
(** ** Exit Code Translator *)
(* ===================================================================== *)

Definition BESPIN_EXIT_CODES : gmap Z string :=
  <[0 := "[SUCCESS]"]>
  (<[1 := "[FAIL] ReturnFromMain: main() function returned to arch_indepdendent part."]>
  (<[2 := "[FAIL] Encountered kernel panic."]>
  (<[3 := "[FAIL] Encountered OOM."]>
  (<[4 := "[FAIL] Encountered unexpected Interrupt."]>
  (<[5 := "[FAIL] General Protection Fault."]>
  (<[6 := "[FAIL] Unexpected Page Fault."]>
  (<[7 := "[FAIL] Unexpected process exit code when running a user-space test."]>
  (<[8 := "[FAIL] Unexpected exception during kernel initialization."]>
  (<[9 := "[FAIL] Got unrecoverable error (machine check, double fault)."]>
   ∅))))))))).

Definition unknown_status_line (bespin_exit_code : Z) : string :=
  "[FAIL] Kernel exited with unknown error status "
  +:+ format_int bespin_exit_code +:+ "... Update the script!".

(** [bespin_exit_code = execution.returncode >> 1] *)
Definition bespin_exit_code_of (returncode : Z) : Z := Z.shiftr returncode 1.

(** The line printed for a kernel exit code: the table entry when
    [BESPIN_EXIT_CODES.get] gives a true (non-empty) value, the
    unknown-status line otherwise. *)
Definition exit_code_line (bespin_exit_code : Z) : string :=
  match BESPIN_EXIT_CODES !! bespin_exit_code with
  | Some msg =>
      if truthy_str msg then msg else unknown_status_line bespin_exit_code
  | None => unknown_status_line bespin_exit_code
  end.

(** The translation done at the end of [run_qemu]: the code returned and
    the line printed for it. *)
Definition translate_exit_status (returncode : Z) : Z * string :=
  let bespin_exit_code := bespin_exit_code_of returncode in
  (bespin_exit_code, exit_code_line bespin_exit_code).

(** The names the specification gives to the table entries. *)
Inductive ExitOutcome : Type :=
| Success
| ReturnFromMain
| Panic
| OutOfMemory
| UnexpectedInterrupt
| GeneralProtectionFault
| PageFault
| UnexpectedTestExitCode
| InitException
| UnrecoverableError
| Unknown (code : Z).

(** The specification's table (post shift): 0 Success; 1 ReturnFromMain;
    2 Panic; 3 OutOfMemory; 4 UnexpectedInterrupt;
    5 GeneralProtectionFault; 6 PageFault; 7 UnexpectedTestExitCode;
    8 InitException; 9 UnrecoverableError; anything else Unknown. *)
Definition spec_outcome_of_code (code : Z) : ExitOutcome :=
  match code with
  | 0 => Success
  | 1 => ReturnFromMain
  | 2 => Panic
  | 3 => OutOfMemory
  | 4 => UnexpectedInterrupt
  | 5 => GeneralProtectionFault
  | 6 => PageFault
  | 7 => UnexpectedTestExitCode
  | 8 => InitException
  | 9 => UnrecoverableError
  | _ => Unknown code
  end.

Definition spec_translate (returncode : Z) : ExitOutcome :=
  spec_outcome_of_code (Z.shiftr returncode 1).

(** The diagnostic line of the script that stands for each outcome. *)
Definition outcome_line (o : ExitOutcome) : string :=
  match o with
  | Success => "[SUCCESS]"
  | ReturnFromMain =>
      "[FAIL] ReturnFromMain: main() function returned to arch_indepdendent part."
  | Panic => "[FAIL] Encountered kernel panic."
  | OutOfMemory => "[FAIL] Encountered OOM."
  | UnexpectedInterrupt => "[FAIL] Encountered unexpected Interrupt."
  | GeneralProtectionFault => "[FAIL] General Protection Fault."
  | PageFault => "[FAIL] Unexpected Page Fault."
  | UnexpectedTestExitCode =>
      "[FAIL] Unexpected process exit code when running a user-space test."
  | InitException => "[FAIL] Unexpected exception during kernel initialization."
  | UnrecoverableError =>
      "[FAIL] Got unrecoverable error (machine check, double fault)."
  | Unknown code => unknown_status_line code
  end.

(* ===================================================================== *)
(** ** Worlds, outcomes and the file system *)
(* ===================================================================== *)

Abbreviation path := (list string) (only parsing).

Inductive node : Type :=
| Dir
| File (content : string).

Abbreviation FS := (gmap (list string) node) (only parsing).

Inductive exn : Type :=
| ValueError
| ProcessExecutionError
| FileNotFoundError
| NotADirectoryError
| FileExistsError
| IsADirectoryError
| SameFileError
| UnicodeDecodeError
| SystemExit (code : Z).

Inductive Outcome (A : Type) : Type :=
| Ok (a : A)
| Raise (e : exn).

Arguments Ok {A} a.
Arguments Raise {A} e.

(** One run of the external toolchain: the working directory it runs in,
    the scoped [RUST_TARGET_PATH] and its argument list. *)
Record Invocation : Type := {
  inv_cwd : path;
  inv_rust_target_path : path;
  inv_args : list string
}.

Record World : Type := {
  w_fs : FS;
  w_cwd : option path;          (* [None]: the working directory was deleted *)
  w_stdout : list string;
  w_calls : list Invocation;
  CARGO_DEFAULT_ARGS : list string
}.

(** The external collaborators. *)
Record Env : Type := {
  SCRIPT_PATH : path;
  (* xargo: exit status zero?, and the file system it leaves *)
  run_xargo : Invocation -> FS -> bool * FS;
  (* whoami, id -gn and sudo tunctl all exit with status zero? *)
  run_tap_setup : bool;
  (* the shell running qemu: return code, captured stderr, file system *)
  run_shell : string -> FS -> Z * string * FS;
  (* bytes.decode('utf-8'), [None] when it raises *)
  decode_utf8 : string -> option string
}.

Definition M (A : Type) : Type := World -> Outcome A * World.

Definition ret {A} (a : A) : M A := fun w => (Ok a, w).

Definition raise {A} (e : exn) : M A := fun w => (Raise e, w).

Definition bind {A B} (m : M A) (k : A -> M B) : M B := fun w =>
  match m w with
  | (Ok a, w') => k a w'
  | (Raise e, w') => (Raise e, w')
  end.

Declare Scope py_scope.
Delimit Scope py_scope with py.
Notation "x <- c1 ;; c2" := (bind c1 (fun x => c2))
  (at level 100, c1 at next level, c2 at level 200) : py_scope.
Notation "c1 ;; c2" := (bind c1 (fun _ => c2))
  (at level 100, c2 at level 200) : py_scope.

Definition set_fs (f : FS) (w : World) : World :=
  {| w_fs := f; w_cwd := w_cwd w; w_stdout := w_stdout w;
     w_calls := w_calls w; CARGO_DEFAULT_ARGS := CARGO_DEFAULT_ARGS w |}.

Definition set_cwd (c : option path) (w : World) : World :=
  {| w_fs := w_fs w; w_cwd := c; w_stdout := w_stdout w;
     w_calls := w_calls w; CARGO_DEFAULT_ARGS := CARGO_DEFAULT_ARGS w |}.

Definition add_line (l : string) (w : World) : World :=
  {| w_fs := w_fs w; w_cwd := w_cwd w; w_stdout := w_stdout w ++ [l];
     w_calls := w_calls w; CARGO_DEFAULT_ARGS := CARGO_DEFAULT_ARGS w |}.

Definition add_call (i : Invocation) (w : World) : World :=
  {| w_fs := w_fs w; w_cwd := w_cwd w; w_stdout := w_stdout w;
     w_calls := w_calls w ++ [i]; CARGO_DEFAULT_ARGS := CARGO_DEFAULT_ARGS w |}.

Definition add_cargo_default_arg (a : string) (w : World) : World :=
  {| w_fs := w_fs w; w_cwd := w_cwd w; w_stdout := w_stdout w;
     w_calls := w_calls w; CARGO_DEFAULT_ARGS := CARGO_DEFAULT_ARGS w ++ [a] |}.

(** [print(line)] *)
Definition print (line : string) : M unit := fun w => (Ok tt, add_line line w).

(** [log(msg)]: the marker and the message on one line (colours left out). *)
Definition log (msg : string) : M unit := print (">>> " +:+ msg).

(** *** Paths *)

Definition parent (p : path) : path := removelast p.

Definition basename (p : path) : string := List.last p "".

(** [str(p)] *)
Definition path_str (p : path) : string := "/" +:+ join "/" p.

(** [p] without the leading [dir], when [p] lies at or below [dir]. *)
Fixpoint strip_prefix (dir p : path) : option path :=
  match dir, p with
  | [], _ => Some p
  | d :: dir', c :: p' => if String.eqb d c then strip_prefix dir' p' else None
  | _ :: _, [] => None
  end.

(** *** The file system *)

(** The root is a directory; everything else is looked up. *)
Definition stat (f : FS) (p : path) : option node :=
  match p with
  | [] => Some Dir
  | _ => f !! p
  end.

Definition path_exists (f : FS) (p : path) : bool :=
  match stat f p with
  | Some _ => true
  | None => false
  end.

Definition is_dir (f : FS) (p : path) : bool :=
  match stat f p with
  | Some Dir => true
  | _ => false
  end.

Definition is_file (f : FS) (p : path) : bool :=
  match stat f p with
  | Some (File _) => true
  | _ => false
  end.

(** The regular files only. *)
Definition file_only (o : option node) : option node :=
  match o with
  | Some (File c) => Some (File c)
  | _ => None
  end.

(** What is left when the tree at [p] is deleted. *)
Definition remove_tree (p : path) (f : FS) : FS :=
  filter (fun kv : list string * node => ~ p `prefix_of` kv.1) f.

(** [shutil.rmtree(p)] for an existing directory [p]: the tree goes, and
    a working directory inside it is gone with it. *)
Definition rmtree (p : path) : M unit := fun w =>
  let c := match w_cwd w with
           | Some d => if decide (p `prefix_of` d) then None else Some d
           | None => None
           end in
  (Ok tt, set_cwd c (set_fs (remove_tree p (w_fs w)) w)).

(** [Path.mkdir(parents=True, exist_ok=True)], walking down from [base]:
    an existing directory is kept, a missing one is made, a regular file
    in the way raises. *)
Fixpoint mkdir_from (base : path) (rest : list string) (f : FS) : Outcome FS :=
  match rest with
  | [] => Ok f
  | c :: rest' =>
      let p := base ++ [c] in
      match stat f p with
      | Some Dir => mkdir_from p rest' f
      | Some (File _) =>
          Raise (match rest' with [] => FileExistsError | _ => NotADirectoryError end)
      | None => mkdir_from p rest' (<[p := Dir]> f)
      end
  end.

Definition mkdir_parents (p : path) : M unit := fun w =>
  match mkdir_from [] p (w_fs w) with
  | Ok f => (Ok tt, set_fs f w)
  | Raise e => (Raise e, w)
  end.

(** Opening [p] for writing and storing [content]: the parent must be a
    directory and [p] must not be one. *)
Definition write_node (p : path) (content : string) (f : FS) : Outcome FS :=
  match p with
  | [] => Raise IsADirectoryError
  | _ =>
      match stat f (parent p) with
      | None => Raise FileNotFoundError
      | Some (File _) => Raise NotADirectoryError
      | Some Dir =>
          match stat f p with
          | Some Dir => Raise IsADirectoryError
          | _ => Ok (<[p := File content]> f)
          end
      end
  end.

(** [with open(p, 'w') as h: h.write(content)] *)
Definition write_file (p : path) (content : string) : M unit := fun w =>
  match write_node p content (w_fs w) with
  | Ok f => (Ok tt, set_fs f w)
  | Raise e => (Raise e, w)
  end.

(** [shutil.copy2(src, dst)]: into [dst] when it is a directory, onto
    [dst] otherwise. *)
Definition copy2 (src dst : path) : M unit := fun w =>
  let f := w_fs w in
  let dst' := if is_dir f dst then dst ++ [basename src] else dst in
  if path_exists f src && bool_decide (src = dst') then (Raise SameFileError, w)
  else
    match stat f src with
    | None => (Raise FileNotFoundError, w)
    | Some Dir => (Raise IsADirectoryError, w)
    | Some (File content) => write_file dst' content w
    end.

(** [os.getcwd()] *)
Definition getcwd : M path := fun w =>
  match w_cwd w with
  | Some d => if is_dir (w_fs w) d then (Ok d, w) else (Raise FileNotFoundError, w)
  | None => (Raise FileNotFoundError, w)
  end.

(** [os.chdir(p)] *)
Definition chdir (p : path) : M unit := fun w =>
  match stat (w_fs w) p with
  | Some Dir => (Ok tt, set_cwd (Some p) w)
  | Some (File _) => (Raise NotADirectoryError, w)
  | None => (Raise FileNotFoundError, w)
  end.

(** [with local.cwd(p): body]: change directory, run the body, and change
    back whether or not the body raised.  (plumbum reads the working
    directory on entering; the model keeps the order change, body, change
    back and reports a previous directory that is gone at the end.) *)
Definition with_cwd {A} (p : path) (body : M A) : M A := fun w =>
  let prev := w_cwd w in
  match chdir p w with
  | (Raise e, w1) => (Raise e, w1)
  | (Ok _, w1) =>
      let '(r, w2) := body w1 in
      match prev with
      | None => (Raise FileNotFoundError, w2)
      | Some d =>
          match chdir d w2 with
          | (Raise e, w3) => (Raise e, w3)
          | (Ok _, w3) => (r, w3)
          end
      end
  end.

(** The names directly below [dir]. *)
Definition children (f : FS) (dir : path) : list string :=
  omap (fun kv : list string * node =>
          match strip_prefix dir kv.1 with
          | Some [n] => Some n
          | _ => None
          end) (map_to_list f).

(** [dir.glob("*.bin")]: the entries directly below [dir] whose name ends
    with the extension. *)
Definition glob_bin (f : FS) (dir : path) : list path :=
  (fun n => dir ++ [n]) <$> List.filter (ends_with ".bin") (children f dir).

(* ===================================================================== *)
(** ** The script *)
(* ===================================================================== *)

(** The parsed command line ([parser.parse_args()]). *)
Record Args : Type := {
  verbose : bool;
  norun : bool;
  release : bool;
  kfeatures : list string;
  ufeatures : list string;
  mods : list string;
  cmd : option string;
  machine : string;
  qemu_settings : option string;
  qemu_nodes : option Z;
  qemu_cores : option Z;
  qemu_debug_cpu : bool;
  qemu_monitor : bool
}.

Definition ARCH : string := "x86_64".
Definition QEMU_TAP_NAME : string := "tap0".
Definition QEMU_TAP_ZONE : string := "172.31.0.20/24".

Definition UEFI_TARGET : string := ARCH +:+ "-uefi".
Definition KERNEL_TARGET : string := ARCH +:+ "-bespin".
Definition USER_TARGET : string := ARCH +:+ "-bespin-none".

(** [for x in l: body x] *)
Fixpoint for_each {A} (l : list A) (body : A -> M unit) : M unit :=
  match l with
  | [] => ret tt
  | x :: l' => (body x ;; for_each l' body)%py
  end.

(** *** Feature tokens of the user-space build *)

(** What one token of [args.ufeatures] adds to the arguments of the build
    of [module].  The two-name unpacking of [feature.split(':')] raises
    [ValueError] unless the split has exactly two pieces. *)
Definition feature_args (module feature : string) : Outcome (list string) :=
  if contains_char ":" feature then
    match split_char ":" feature with
    | [mod_part; feature_part] =>
        Ok (if String.eqb module mod_part then ["--features"; feature_part] else [])
    | _ => Raise ValueError
    end
  else Ok ["--features"; feature].

(** The inner loop of [build_userspace]: [build_args] after all tokens. *)
Fixpoint add_ufeatures (module : string) (features : list string)
    (build_args : list string) : Outcome (list string) :=
  match features with
  | [] => Ok build_args
  | feature :: rest =>
      match feature_args module feature with
      | Ok extra => add_ufeatures module rest (build_args ++ extra)
      | Raise e => Raise e
      end
  end.

(** The loop of [build_kernel] over [args.kfeatures]. *)
Definition add_kfeatures (features : list string) (build_args : list string)
    : list string :=
  fold_left (fun acc feature => acc ++ ["--features"; feature]) features build_args.

(** *** The emulator argument vector *)

Definition debug_release (args : Args) : string :=
  if release args then "release" else "debug".

(** The release and verbose switches extend the global default arguments
    before any stage runs. *)
Definition extend_cargo_default_args (args : Args) : M unit :=
  ((if release args
    then (fun w => (Ok tt, add_cargo_default_arg "--release" w)) else ret tt) ;;
   (if verbose args
    then (fun w => (Ok tt, add_cargo_default_arg "--verbose" w)) else ret tt))%py.

Section Script.

Context (env : Env).

Definition BOOTLOADER_PATH : path := parent (SCRIPT_PATH env) ++ ["bootloader"].
Definition TARGET_PATH : path := parent (SCRIPT_PATH env) ++ ["target"].
Definition KERNEL_PATH : path := SCRIPT_PATH env.
Definition LIBS_PATH : path := parent (SCRIPT_PATH env) ++ ["lib"].
Definition USR_PATH : path := parent (SCRIPT_PATH env) ++ ["usr"].

Definition uefi_build_path (args : Args) : path :=
  TARGET_PATH ++ [UEFI_TARGET; debug_release args].
Definition user_build_path (args : Args) : path :=
  TARGET_PATH ++ [USER_TARGET; debug_release args].
Definition kernel_build_path (args : Args) : path :=
  TARGET_PATH ++ [KERNEL_TARGET; debug_release args].
Definition esp_path (args : Args) : path := uefi_build_path args ++ ["esp"].
Definition esp_boot_path (args : Args) : path := esp_path args ++ ["EFI"; "Boot"].

(** The call of [xargo] inside [local.cwd] and [local.env]: the
    invocation is recorded; a non-zero exit raises. *)
Definition xargo (rust_target_path : path) (build_args : list string) : M unit :=
  fun w =>
    match w_cwd w with
    | None => (Raise FileNotFoundError, w)
    | Some d =>
        let inv := {| inv_cwd := d; inv_rust_target_path := rust_target_path;
                      inv_args := build_args |} in
        let '(ok, f) := run_xargo env inv (w_fs w) in
        let w' := add_call inv (set_fs f w) in
        if ok then (Ok tt, w') else (Raise ProcessExecutionError, w')
    end.

Definition build_bootloader (args : Args) : M unit :=
  (log "Build bootloader" ;;
   fun w =>
     let uefi_build_args :=
       ["build"; "--target"; UEFI_TARGET] ++ ["--package"; "bootloader"]
       ++ CARGO_DEFAULT_ARGS w in
     with_cwd BOOTLOADER_PATH (xargo BOOTLOADER_PATH uefi_build_args) w)%py.

Definition build_kernel (args : Args) : M unit :=
  (log "Build kernel" ;;
   with_cwd KERNEL_PATH
     (fun w =>
        let build_args := ["build"; "--target"; KERNEL_TARGET] in
        let build_args := add_kfeatures (kfeatures args) build_args in
        let build_args := build_args ++ CARGO_DEFAULT_ARGS w in
        xargo (KERNEL_PATH ++ ["src"; "arch"; ARCH]) build_args w))%py.

Definition build_user_libraries (args : Args) : M unit :=
  (log "Build user-space lib vibrio" ;;
   fun w =>
     let build_args :=
       ["build"; "--target"; USER_TARGET] ++ ["--features"; "rumprt"]
       ++ CARGO_DEFAULT_ARGS w in
     with_cwd (LIBS_PATH ++ ["vibrio"]) (xargo USR_PATH build_args) w)%py.

(** One round of the loop of [build_userspace].  The path
    [USR_PATH / module] is taken as [USR_PATH] with the one more
    component [module]: that is what the join gives for a module name
    that is a single plain path component ([plain_name] below). *)
Definition build_user_module (args : Args) (build_args_default : list string)
    (module : string) : M unit :=
  fun w =>
    if negb (path_exists (w_fs w) (USR_PATH ++ [module])) then
      log ("User module " +:+ module +:+ " not found, skipping.") w
    else
      with_cwd (USR_PATH ++ [module])
        (match add_ufeatures module (ufeatures args) build_args_default with
         | Raise e => raise e
         | Ok build_args =>
             (log ("Build user-module " +:+ module) ;;
              xargo USR_PATH build_args)%py
         end) w.

Definition build_userspace (args : Args) : M unit :=
  fun w =>
    let build_args_default :=
      ["build"; "--target"; USER_TARGET] ++ CARGO_DEFAULT_ARGS w in
    for_each (mods args) (build_user_module args build_args_default) w.

(** One round of the module loop of [deploy].  As in
    [build_user_module], [USER_BUILD_PATH / module] is the build
    directory with the one more component [module], the join for a
    module name that is a single plain path component. *)
Definition deploy_module (args : Args) (module : string) : M unit :=
  fun w =>
    if negb (is_file (w_fs w) (user_build_path args ++ [module])) then (Ok tt, w)
    else if negb (String.eqb module "rkapps") then
      copy2 (user_build_path args ++ [module]) (esp_path args) w
    else
      let to_copy :=
        List.filter (is_file (w_fs w)) (glob_bin (w_fs w) (user_build_path args)) in
      for_each to_copy (fun app => copy2 app (esp_path args)) w.

(** [deploy] up to and including the command-line file. *)
Definition deploy_fixed (args : Args) : M unit :=
  (log "Deploy binaries" ;;
   (fun w =>
      if path_exists (w_fs w) (esp_path args) && is_dir (w_fs w) (esp_path args)
      then rmtree (esp_path args) w else (Ok tt, w)) ;;
   mkdir_parents (esp_boot_path args) ;;
   d <- getcwd ;;
   copy2 (kernel_build_path args ++ ["bespin"]) d ;;
   copy2 (kernel_build_path args ++ ["bespin"]) (esp_path args ++ ["kernel"]) ;;
   copy2 (uefi_build_path args ++ ["bootloader.efi"])
         (esp_boot_path args ++ ["BootX64.efi"]) ;;
   write_file (esp_path args ++ ["cmdline.in"])
              ("./kernel " +:+ format_opt_str (cmd args)))%py.

Definition deploy (args : Args) : M unit :=
  (deploy_fixed args ;; for_each (mods args) (deploy_module args))%py.

(** The arguments that come before the memory size and the settings. *)
Definition qemu_base_args (args : Args) : list string :=
  let qemu_default_args := ["-no-reboot"] in
  let qemu_default_args := qemu_default_args ++ ["-enable-kvm"] in
  let qemu_default_args :=
    qemu_default_args ++ ["-cpu"; "host,migratable=no,+invtsc,+tsc,+x2apic,+fsgsbase"] in
  let qemu_default_args :=
    qemu_default_args ++ ["-display"; "none"; "-serial"; "stdio"] in
  let qemu_default_args :=
    qemu_default_args ++
    ["-drive"; "if=pflash,format=raw,file=" +:+ path_str BOOTLOADER_PATH
               +:+ "/OVMF_CODE.fd,readonly=on"] in
  let qemu_default_args :=
    qemu_default_args ++
    ["-drive"; "if=pflash,format=raw,file=" +:+ path_str BOOTLOADER_PATH
               +:+ "/OVMF_VARS.fd,readonly=on"] in
  let qemu_default_args :=
    qemu_default_args ++ ["-device"; "ahci,id=ahci,multifunction=on"] in
  let qemu_default_args :=
    qemu_default_args ++
    ["-drive"; "if=none,format=raw,file=fat:rw:" +:+ path_str (esp_path args)
               +:+ ",id=esp"] in
  let qemu_default_args :=
    qemu_default_args ++ ["-device"; "ide-drive,bus=ahci.0,drive=esp"] in
  let qemu_default_args :=
    qemu_default_args ++ ["-device"; "isa-debug-exit,iobase=0xf4,iosize=0x04"] in
  let qemu_default_args :=
    qemu_default_args ++ ["-net"; "nic,model=e1000,netdev=n0"] in
  let qemu_default_args :=
    qemu_default_args ++ ["-netdev"; "tap,id=n0,script=no,ifname=tap0"] in
  let qemu_default_args :=
    if qemu_debug_cpu args then qemu_default_args ++ ["-d"; "int,cpu_reset"]
    else qemu_default_args in
  let qemu_default_args :=
    if qemu_monitor args
    then qemu_default_args ++ ["-monitor"; "telnet:127.0.0.1:55555,server,nowait"]
    else qemu_default_args in
  qemu_default_args.

Definition qemu_default_args (args : Args) : list string :=
  let qemu_default_args := qemu_base_args args in
  if negb (truthy_opt_str (qemu_settings args))
  then qemu_default_args ++ ["-m"; "1024"]
  else qemu_default_args.

Definition qemu_args (args : Args) : list string :=
  let qemu_args := qemu_default_args args in
  match qemu_settings args with
  | Some settings =>
      if truthy_str settings then qemu_args ++ py_split settings else qemu_args
  | None => qemu_args
  end.

(** The inner [run_qemu]. *)
Definition run_qemu (args : Args) : M Z :=
  (log "Starting QEMU" ;;
   (* whoami, id -gn, sudo tunctl: any non-zero exit raises; the ifconfig
      command is only built, not run *)
   (if run_tap_setup env then ret tt else raise ProcessExecutionError) ;;
   let cmd := join " " ("qemu-system-x86_64" :: qemu_args args) in
   execution <- (fun w =>
                   let '(returncode, stderr, f) := run_shell env cmd (w_fs w) in
                   (Ok (returncode, stderr), set_fs f w)) ;;
   let '(returncode, stderr) := execution in
   let '(bespin_exit_code, line) := translate_exit_status returncode in
   print line ;;
   (if negb (Z.eqb bespin_exit_code 0) then
      log ("Invocation was: " +:+ cmd) ;;
      if truthy_str stderr then
        match decode_utf8 env stderr with
        | Some text => print ("STDERR: " +:+ text)
        | None => raise UnicodeDecodeError
        end
      else ret tt
    else ret tt) ;;
   ret bespin_exit_code)%py.

Definition run (args : Args) : M Z :=
  if String.eqb (machine args) "qemu" then run_qemu args
  else (log ("Machine " +:+ machine args +:+ " not supported") ;; ret 99)%py.

(** The configuration check at the start of the main routine. *)
Definition qemu_flag_given (args : Args) : bool :=
  qemu_debug_cpu args || truthy_opt_str (qemu_settings args) || qemu_monitor args
  || truthy_opt_int (qemu_cores args) || truthy_opt_int (qemu_nodes args).

(** The four build stages and the deployment, in order. *)
Definition build_and_deploy (args : Args) : M unit :=
  (build_bootloader args ;;
   build_kernel args ;;
   build_user_libraries args ;;
   build_userspace args ;;
   deploy args)%py.

(** The main routine up to the point where it returns or an exception
    leaves it: the outcome is [Ok], [SystemExit] or another exception.
    What the interpreter does with an exception that leaves it, the hook
    installed at line 305 included, is [run_script] below. *)
Definition main (args : Args) : M unit :=
  if negb (String.eqb (machine args) "qemu") && qemu_flag_given args then
    (log "Can't specify QEMU specific arguments for non-qemu hardware" ;;
     raise (SystemExit 99))%py
  else
    (extend_cargo_default_args args ;;
     build_and_deploy args ;;
     if negb (norun args) then (r <- run args ;; raise (SystemExit r)) else ret tt)%py.

(** [exception_type.__name__] *)
Definition exception_name (e : exn) : string :=
  match e with
  | ValueError => "ValueError"
  | ProcessExecutionError => "ProcessExecutionError"
  | FileNotFoundError => "FileNotFoundError"
  | NotADirectoryError => "NotADirectoryError"
  | FileExistsError => "FileExistsError"
  | IsADirectoryError => "IsADirectoryError"
  | SameFileError => "SameFileError"
  | UnicodeDecodeError => "UnicodeDecodeError"
  | SystemExit _ => "SystemExit"
  end.

(** [exception_handler]: one line on standard output.  [message] is
    [str(exception)], a text the exceptions of the model do not carry. *)
Definition exception_handler (e : exn) (message : string) : M unit :=
  print (exception_name e +:+ ": " +:+ message).

(** The script as the interpreter runs it.  [SystemExit] ends the process
    without a word.  Any other exception that leaves the main routine
    goes to [sys.excepthook]: without [--verbose] that is
    [exception_handler], installed before the first build stage (every
    exception other than [SystemExit] is raised after that point); with
    [--verbose] it is the interpreter's own hook, which writes the
    traceback to standard error and nothing to standard output.
    [message e] is the text of the exception. *)
Definition run_script (message : exn -> string) (args : Args) : M unit :=
  fun w =>
    match main args w with
    | (Ok a, w') => (Ok a, w')
    | (Raise (SystemExit code), w') => (Raise (SystemExit code), w')
    | (Raise e, w') =>
        if verbose args then (Raise e, w')
        else (Raise e, (exception_handler e (message e) w').2)
    end.

End Script.

(* ===================================================================== *)
(** ** Vocabulary of the statements *)
(* ===================================================================== *)

(** The same command line with another list of user-space features. *)
Definition with_ufeatures (l : list string) (args : Args) : Args :=
  {| verbose := verbose args; norun := norun args; release := release args;
     kfeatures := kfeatures args; ufeatures := l; mods := mods args;
     cmd := cmd args; machine := machine args;
     qemu_settings := qemu_settings args; qemu_nodes := qemu_nodes args;
     qemu_cores := qemu_cores args; qemu_debug_cpu := qemu_debug_cpu args;
     qemu_monitor := qemu_monitor args |}.

(** The working directory of the process is an existing directory. *)
Definition valid_cwd (w : World) : Prop :=
  exists d, w_cwd w = Some d /\ is_dir (w_fs w) d = true.

(** The file system is a tree: whatever exists lies in a directory. *)
Definition tree_fs (f : gmap (list string) node) : Prop :=
  forall (p : list string) (c : string),
    is_Some (f !! (p ++ [c])) -> is_dir f p = true.

(** A world the script can start in. *)
Definition wf_world (w : World) : Prop :=
  tree_fs (w_fs w)
  /\ (forall d, w_cwd w = Some d -> is_dir (w_fs w) d = true).

(** A computation that only adds to the record of toolchain invocations
    and never ends the process by [sys.exit]. *)
Definition tame {A} (m : M A) : Prop :=
  forall (w w' : World) (r : Outcome A),
    m w = (r, w') ->
    w_calls w `prefix_of` w_calls w' /\ (forall code, r <> Raise (SystemExit code)).

(** [w'] is [w] after the regular file [p] was created or overwritten
    with [content]. *)
Definition file_written (w w' : World) (p : list string) (content : string) : Prop :=
  exists (q : list string) (n : string),
    p = q ++ [n]
    /\ is_dir (w_fs w) q = true
    /\ w_fs w !! p <> Some Dir
    /\ w' = set_fs (<[p := File content]> (w_fs w)) w.

(** The names one round of the module loop of [deploy] copies from the
    user build directory [ub] into the ESP root: nothing when the module
    has no binary there, the module itself for an ordinary module, every
    regular file with the extension for rkapps. *)
Definition module_names (ub : list string) (f : gmap (list string) node)
    (module : string) : list string :=
  if negb (is_file f (ub ++ [module])) then []
  else if negb (String.eqb module "rkapps") then [module]
  else List.filter (fun n => is_file f (ub ++ [n]))
         (List.filter (ends_with ".bin") (children f ub)).

(** What the deployment always puts at and below the ESP directory. *)
Definition esp_skeleton (esp : list string) : list (list string) :=
  [ esp; esp ++ ["EFI"]; esp ++ ["EFI"; "Boot"];
    esp ++ ["EFI"; "Boot"; "BootX64.efi"]; esp ++ ["kernel"];
    esp ++ ["cmdline.in"] ].

(** A check of the tree shape that can be run. *)
Definition tree_fs_check (f : gmap (list string) node) : bool :=
  forallb (fun kv : list string * node => is_dir f (parent kv.1)) (map_to_list f).

(** The same command line with another selection of modules. *)
Definition with_mods (l : list string) (args : Args) : Args :=
  {| verbose := verbose args; norun := norun args; release := release args;
     kfeatures := kfeatures args; ufeatures := ufeatures args; mods := l;
     cmd := cmd args; machine := machine args;
     qemu_settings := qemu_settings args; qemu_nodes := qemu_nodes args;
     qemu_cores := qemu_cores args; qemu_debug_cpu := qemu_debug_cpu args;
     qemu_monitor := qemu_monitor args |}.

(** [n] is a name the module loop of this deployment may copy: a selected
    ordinary module, or a [.bin] name when rkapps is selected. *)
Definition deployed_by (args : Args) (n : string) : Prop :=
  (n ∈ mods args /\ n <> "rkapps")
  \/ ("rkapps" ∈ mods args /\ ends_with ".bin" n = true).

(** The toolchain invocations made between two worlds. *)
Definition new_calls (w w' : World) : list Invocation :=
  drop (List.length (w_calls w)) (w_calls w').

(** A module name that is a single plain path component: not empty, not
    [.] or [..], and without a slash.  For such a name [dir / name] is
    the entry [name] of [dir]. *)
Definition plain_name (name : string) : Prop :=
  name <> "" /\ name <> "." /\ name <> ".." /\ contains_char "/" name = false.




(* ===================================================================== *)
(** ** A sample checkout *)
(* ===================================================================== *)

(** A toolchain and an emulator that succeed and leave the files alone. *)
Definition sample_env : Env :=
  {| SCRIPT_PATH := ["repo"; "kernel"];
     run_xargo := fun _ f => (true, f);
     run_tap_setup := true;
     run_shell := fun _ f => (0, "", f);
     decode_utf8 := fun s => Some s |}.

(** A checkout whose build outputs are already in place. *)
Definition sample_fs : gmap (list string) node :=
  list_to_map
    [ (["repo"], Dir);
      (["repo"; "kernel"], Dir);
      (["repo"; "bootloader"], Dir);
      (["repo"; "lib"], Dir);
      (["repo"; "lib"; "vibrio"], Dir);
      (["repo"; "usr"], Dir);
      (["repo"; "usr"; "init"], Dir);
      (["repo"; "usr"; "rkapps"], Dir);
      (["repo"; "target"], Dir);
      (["repo"; "target"; "x86_64-uefi"], Dir);
      (["repo"; "target"; "x86_64-uefi"; "debug"], Dir);
      (["repo"; "target"; "x86_64-uefi"; "debug"; "bootloader.efi"], File "efi");
      (["repo"; "target"; "x86_64-bespin"], Dir);
      (["repo"; "target"; "x86_64-bespin"; "debug"], Dir);
      (["repo"; "target"; "x86_64-bespin"; "debug"; "bespin"], File "elf");
      (["repo"; "target"; "x86_64-bespin-none"], Dir);
      (["repo"; "target"; "x86_64-bespin-none"; "debug"], Dir);
      (["repo"; "target"; "x86_64-bespin-none"; "debug"; "init"], File "init-elf");
      (["repo"; "target"; "x86_64-bespin-none"; "debug"; "rkapps"], File "rk");
      (["repo"; "target"; "x86_64-bespin-none"; "debug"; "redis.bin"], File "redis");
      (["repo"; "target"; "x86_64-bespin-none"; "debug"; "nginx.bin"], File "nginx");
      (["repo"; "target"; "x86_64-bespin-none"; "debug"; "deps.bin"], Dir) ].

Definition sample_world : World :=
  {| w_fs := sample_fs; w_cwd := Some ["repo"; "kernel"]; w_stdout := [];
     w_calls := []; CARGO_DEFAULT_ARGS := ["--color"; "always"] |}.

(** [run.py -u f init:g zz:h -m init rkapps nope -c log=info] with the
    given machine, settings string and core count. *)
Definition sample_args (machine : string) (settings : option string)
    (cores : option Z) : Args :=
  {| verbose := false; norun := false; release := false;
     kfeatures := ["smoke"];
     ufeatures := ["f"; "init:g"; "zz:h"];
     mods := ["init"; "rkapps"; "nope"];
     cmd := Some "log=info";
     machine := machine;
     qemu_settings := settings;
     qemu_nodes := None;
     qemu_cores := cores;
     qemu_debug_cpu := false;
     qemu_monitor := false |}.

(** The same checkout when the build left no file named [rkapps]. *)
Definition sample_world_no_rkapps : World :=
  set_fs (delete ["repo"; "target"; "x86_64-bespin-none"; "debug"; "rkapps"] sample_fs)
         sample_world.


(** The three fixed toolchain invocations, for the default arguments
    [cargo] in force. *)
Definition bootloader_invocation (env : Env) (cargo : list string) : Invocation :=
  {| inv_cwd := BOOTLOADER_PATH env;
     inv_rust_target_path := BOOTLOADER_PATH env;
     inv_args := ["build"; "--target"; UEFI_TARGET; "--package"; "bootloader"] ++ cargo |}.

Definition kernel_invocation (env : Env) (args : Args) (cargo : list string)
    : Invocation :=
  {| inv_cwd := KERNEL_PATH env;
     inv_rust_target_path := KERNEL_PATH env ++ ["src"; "arch"; ARCH];
     inv_args := ["build"; "--target"; KERNEL_TARGET]
                 ++ flat_map (fun feature => ["--features"; feature]) (kfeatures args)
                 ++ cargo |}.

Definition vibrio_invocation (env : Env) (cargo : list string) : Invocation :=
  {| inv_cwd := LIBS_PATH env ++ ["vibrio"];
     inv_rust_target_path := USR_PATH env;
     inv_args := ["build"; "--target"; USER_TARGET; "--features"; "rumprt"] ++ cargo |}.

(** A computation that makes no toolchain call and leaves the global
    default arguments alone. *)
Definition quiet {A} (m : M A) : Prop :=
  forall (w w' : World) (r : Outcome A),
    m w = (r, w') ->
    w_calls w' = w_calls w /\ CARGO_DEFAULT_ARGS w' = CARGO_DEFAULT_ARGS w.

(** A computation that leaves the global default arguments alone. *)
Definition steady {A} (m : M A) : Prop :=
  forall (w w' : World) (r : Outcome A),
    m w = (r, w') -> CARGO_DEFAULT_ARGS w' = CARGO_DEFAULT_ARGS w.

(** A computation started in the working directory [d] ends there, or
    ends in an exception with [d] no longer a directory. *)
Definition scoped {A} (d : list string) (m : M A) : Prop :=
  forall (w w' : World) (r : Outcome A),
    w_cwd w = Some d ->
    m w = (r, w') ->
    w_cwd w' = Some d
    \/ (is_dir (w_fs w') d = false /\ exists e, r = Raise e).

(** The four build stages in the order of the main routine. *)
Definition build_stages (env : Env) (args : Args) : M unit :=
  (build_bootloader env args ;;
   build_kernel env args ;;
   build_user_libraries env args ;;
   build_userspace env args)%py.

(** Every toolchain call a computation makes carries the argument [a],
    provided [a] is among the global default arguments when it starts. *)
Definition calls_carry {A} (a : string) (m : M A) : Prop :=
  forall (w w' : World) (r : Outcome A),
    a ∈ CARGO_DEFAULT_ARGS w ->
    m w = (r, w') ->
    a ∈ CARGO_DEFAULT_ARGS w'
    /\ exists cs, w_calls w' = w_calls w ++ cs
                  /\ Forall (fun inv => a ∈ inv_args inv) cs.

(** The same command line with the release switch on. *)
Definition with_release (args : Args) : Args :=
  {| verbose := verbose args; norun := norun args; release := true;
     kfeatures := kfeatures args; ufeatures := ufeatures args; mods := mods args;
     cmd := cmd args; machine := machine args;
     qemu_settings := qemu_settings args; qemu_nodes := qemu_nodes args;
     qemu_cores := qemu_cores args; qemu_debug_cpu := qemu_debug_cpu args;
     qemu_monitor := qemu_monitor args |}.

(** The command string [run_qemu] hands to the shell. *)
Definition qemu_command (env : Env) (args : Args) : string :=
  join " " ("qemu-system-x86_64" :: qemu_args env args).

(** The lines [run_qemu] prints for the emulator's return code and
    captured standard error, [text] being the decoded standard error. *)
Definition qemu_report (env : Env) (args : Args) (returncode : Z) (stderr text : string)
    : list string :=
  [">>> Starting QEMU"; exit_code_line (Z.shiftr returncode 1)]
  ++ (if Z.eqb (Z.shiftr returncode 1) 0 then []
      else [">>> Invocation was: " +:+ qemu_command env args]
           ++ (if String.eqb stderr "" then [] else ["STDERR: " +:+ text])).

(** A byte string that is not valid UTF-8: the single byte 255. *)
Definition bad_utf8 : string := String "255"%char "".

(** A sample emulator whose standard error the decoder rejects. *)
Definition sample_env_panic : Env :=
  {| SCRIPT_PATH := ["repo"; "kernel"];
     run_xargo := fun _ f => (true, f);
     run_tap_setup := true;
     run_shell := fun _ f => (5, bad_utf8, f);
     decode_utf8 := fun s => if String.eqb s bad_utf8 then None else Some s |}.

(** A sample host on which the tap set-up fails. *)
Definition sample_env_no_tap : Env :=
  {| SCRIPT_PATH := ["repo"; "kernel"];
     run_xargo := fun _ f => (true, f);
     run_tap_setup := false;
     run_shell := fun _ f => (0, "", f);
     decode_utf8 := fun s => Some s |}.

(** The text of an exception in the sample runs. *)
Definition sample_message (e : exn) : string :=
  match e with
  | UnicodeDecodeError => "'utf-8' codec can't decode byte 0xff"
  | _ => "Unexpected exit code: 1"
  end.

(** A computation started with the working directory [c], or with none,
    changes no file-system entry outside [P] and leaves the working
    directory at [c] or gone, whatever its outcome. *)
Definition confined {A} (c : option (list string)) (P : list string -> Prop)
    (m : M A) : Prop :=
  forall (w w' : World) (r : Outcome A),
    w_cwd w = c \/ w_cwd w = None ->
    m w = (r, w') ->
    (forall q, ~ P q -> w_fs w' !! q = w_fs w !! q)
    /\ (w_cwd w' = c \/ w_cwd w' = None).

(** Where a deployment started in the working directory [c] may write:
    at and below the ESP directory, the ancestors of the ESP directory,
    and the file [bespin] in the working directory. *)
Definition deploy_area (env : Env) (args : Args) (c : option (list string))
    (q : list string) : Prop :=
  esp_path env args `prefix_of` q
  \/ q `prefix_of` esp_path env args
  \/ exists d, c = Some d /\ q = d ++ ["bespin"].

(** The first part of [deploy]: the ESP directory tree is removed when it
    exists and made again down to [EFI/Boot]. *)
Definition deploy_reset (env : Env) (args : Args) : M unit :=
  (log "Deploy binaries" ;;
   (fun w =>
      if path_exists (w_fs w) (esp_path env args) && is_dir (w_fs w) (esp_path env args)
      then rmtree (esp_path env args) w else (Ok tt, w)) ;;
   mkdir_parents (esp_boot_path env args))%py.

(** The second part: the kernel, the bootloader and the command line are
    put in place. *)
Definition deploy_copies (env : Env) (args : Args) : M unit :=
  (d <- getcwd ;;
   copy2 (kernel_build_path env args ++ ["bespin"]) d ;;
   copy2 (kernel_build_path env args ++ ["bespin"]) (esp_path env args ++ ["kernel"]) ;;
   copy2 (uefi_build_path env args ++ ["bootloader.efi"])
         (esp_boot_path env args ++ ["BootX64.efi"]) ;;
   write_file (esp_path env args ++ ["cmdline.in"])
              ("./kernel " +:+ format_opt_str (cmd args)))%py.

(** The sample checkout after a deployment, with the kernel binary
    removed from the build directory afterwards. *)
Definition sample_world_no_kernel : World :=
  set_fs (delete ["repo"; "target"; "x86_64-bespin"; "debug"; "bespin"]
            (w_fs (deploy sample_env (sample_args "qemu" None None) sample_world).2))
         sample_world.

(** The sample checkout after a deployment with another selection of
    modules. *)
Definition sample_world_stale : World :=
  (deploy sample_env (with_mods ["nope"] (sample_args "qemu" None None)) sample_world).2.

(** The toolchain calls [cs] made one after the other from the file
    system [f], nothing else writing in between: the exit statuses
    (zero?) in order, and the file system the last call leaves. *)
Fixpoint run_calls (env : Env) (cs : list Invocation) (f : gmap (list string) node)
    : list bool * gmap (list string) node :=
  match cs with
  | [] => ([], f)
  | inv :: cs' =>
      let '(ok, f1) := run_xargo env inv f in
      let '(oks, f2) := run_calls env cs' f1 in
      (ok :: oks, f2)
  end.

(** A computation that touches the file system through its toolchain
    calls only and stops at the first of them that exits with a non-zero
    status: that call is the last one it makes, and it ends in an
    exception. *)
Definition fail_fast (env : Env) {A} (m : M A) : Prop :=
  forall (w w' : World) (r : Outcome A),
    m w = (r, w') ->
    exists cs, w_calls w' = w_calls w ++ cs
      /\ w_fs w' = (run_calls env cs (w_fs w)).2
      /\ forall i, (run_calls env cs (w_fs w)).1 !! i = Some false ->
           S i = List.length cs /\ exists e, r = Raise e.

(** A computation for which a toolchain call that exits with a non-zero
    status is the end: it is the last call made, the computation ends in
    an exception, and the file system is as that call left it.  The
    statuses are those of the calls made, one after the other from the
    file system the computation started with. *)
Definition ends_at_failure (env : Env) {A} (m : M A) : Prop :=
  forall (w w' : World) (r : Outcome A),
    m w = (r, w') ->
    exists cs, w_calls w' = w_calls w ++ cs
      /\ forall i, (run_calls env cs (w_fs w)).1 !! i = Some false ->
           S i = List.length cs
           /\ (exists e, r = Raise e)
           /\ w_fs w' = (run_calls env cs (w_fs w)).2.

(** The same command line with other numbers of NUMA nodes and cores. *)
Definition with_topology (nodes cores : option Z) (args : Args) : Args :=
  {| verbose := verbose args; norun := norun args; release := release args;
     kfeatures := kfeatures args; ufeatures := ufeatures args; mods := mods args;
     cmd := cmd args; machine := machine args;
     qemu_settings := qemu_settings args; qemu_nodes := nodes;
     qemu_cores := cores; qemu_debug_cpu := qemu_debug_cpu args;
     qemu_monitor := qemu_monitor args |}.

(** A sample toolchain that fails in the kernel directory. *)
Definition sample_env_kernel_fails : Env :=
  {| SCRIPT_PATH := ["repo"; "kernel"];
     run_xargo := fun inv f => (negb (bool_decide (inv_cwd inv = ["repo"; "kernel"])), f);
     run_tap_setup := true;
     run_shell := fun _ f => (0, "", f);
     decode_utf8 := fun s => Some s |}.

(** What the fixed part of a deployment leaves at the path [k] below the
    ESP directory, for the kernel binary [kern] and the bootloader binary
    [boot]. *)
Definition esp_fixed_entry (args : Args) (kern boot : string) (k : list string)
    : option node :=
  if decide (k = []) then Some Dir
  else if decide (k = ["EFI"]) then Some Dir
  else if decide (k = ["EFI"; "Boot"]) then Some Dir
  else if decide (k = ["EFI"; "Boot"; "BootX64.efi"]) then Some (File boot)
  else if decide (k = ["kernel"]) then Some (File kern)
  else if decide (k = ["cmdline.in"])
       then Some (File ("./kernel " +:+ format_opt_str (cmd args)))
  else None.

(* ===================================================================== *)
(** ** Theorems *)
(* ===================================================================== *)

Example split_char_two : split_char ":" "init:print-test" = ["init"; "print-test"].
Proof. reflexivity. Qed.

Example split_char_three : split_char ":" "a:b:c" = ["a"; "b"; "c"].
Proof. reflexivity. Qed.

Example py_split_ex : py_split "  -m 2048	-smp  2 " = ["-m"; "2048"; "-smp"; "2"].
Proof. reflexivity. Qed.

Example ends_with_ex : ends_with ".bin" "redis.bin" = true /\ ends_with ".bin" "bin" = false
  /\ ends_with ".bin" ".bin" = true.
Proof. repeat split; reflexivity. Qed.

Example translate_0 : translate_exit_status 0 = (0, "[SUCCESS]").
Proof. vm_compute. reflexivity. Qed.

Example translate_m1 : translate_exit_status (-1) =
  (-1, "[FAIL] Kernel exited with unknown error status -1... Update the script!").
Proof. vm_compute. reflexivity. Qed.

(* --------------------------------------------------------------------- *)
(** *** Exit-code translation *)
(* --------------------------------------------------------------------- *)

Lemma BESPIN_EXIT_CODES_outside (code : Z) :
  ~ (0 <= code <= 9) -> BESPIN_EXIT_CODES !! code = None.
Proof.
  intros Hout. unfold BESPIN_EXIT_CODES.
  rewrite !lookup_insert_ne by lia. apply lookup_empty.
Qed.

Lemma BESPIN_EXIT_CODES_inside (code : Z) :
  0 <= code <= 9 -> BESPIN_EXIT_CODES !! code = Some (outcome_line (spec_outcome_of_code code)).
Proof.
  intros Hin.
  assert (code = 0 \/ code = 1 \/ code = 2 \/ code = 3 \/ code = 4 \/ code = 5
          \/ code = 6 \/ code = 7 \/ code = 8 \/ code = 9) as Hc by lia.
  repeat (destruct Hc as [-> | Hc]; [by vm_compute |]).
  subst code. by vm_compute.
Qed.

Lemma spec_outcome_outside (code : Z) :
  ~ (0 <= code <= 9) -> spec_outcome_of_code code = Unknown code.
Proof.
  intros Hout. destruct code as [| p | p]; [lia | | reflexivity].
  do 4 (try destruct p as [p | p |]); try reflexivity; lia.
Qed.

Lemma exit_code_line_spec (code : Z) :
  exit_code_line code = outcome_line (spec_outcome_of_code code).
Proof.
  unfold exit_code_line.
  destruct (decide (0 <= code <= 9)) as [Hin | Hout].
  - rewrite BESPIN_EXIT_CODES_inside by done.
    assert (code = 0 \/ code = 1 \/ code = 2 \/ code = 3 \/ code = 4 \/ code = 5
            \/ code = 6 \/ code = 7 \/ code = 8 \/ code = 9) as Hc by lia.
    repeat (destruct Hc as [-> | Hc]; [reflexivity |]).
    subst code. reflexivity.
  - rewrite BESPIN_EXIT_CODES_outside, spec_outcome_outside by done. reflexivity.
Qed.


(** C9. The translation does not see the lowest bit of the raw status:
    an even raw status [r] and [r + 1] give the same code and the same
    line; in particular raw status 1 is reported as Success. *)
Theorem exit_code_translation_ignores_low_bit (r : Z) :
  Z.even r = true ->
  translate_exit_status (r + 1) = translate_exit_status r
  /\ spec_translate (r + 1) = spec_translate r
  /\ translate_exit_status 1 = (0, "[SUCCESS]")
  /\ spec_translate 1 = Success.
Proof.
  intros Hev. apply Z.even_spec in Hev as [k ->].
  assert (Z.shiftr (2 * k + 1) 1 = Z.shiftr (2 * k) 1) as Hs.
  { rewrite !Z.shiftr_div_pow2 by lia. change (2 ^ 1) with 2.
    Z.div_mod_to_equations. lia. }
  unfold translate_exit_status, spec_translate, bespin_exit_code_of.
  rewrite Hs. repeat split; by vm_compute.
Qed.

Lemma exit_code_translation_ignores_low_bit_witness :
  translate_exit_status (18 + 1) = translate_exit_status 18
  /\ spec_translate (18 + 1) = spec_translate 18
  /\ translate_exit_status 1 = (0, "[SUCCESS]")
  /\ spec_translate 1 = Success.
Proof. apply (exit_code_translation_ignores_low_bit 18). reflexivity. Defined.

(* --------------------------------------------------------------------- *)
(** *** Strings *)
(* --------------------------------------------------------------------- *)

Lemma split_char_length (c : ascii) (s : string) :
  List.length (split_char c s) = S (count_char c s).
Proof.
  induction s as [| a s IH]; simpl; [done |].
  destruct (Ascii.eqb a c); simpl; [by rewrite IH |].
  destruct (split_char c s); simpl in *; lia.
Qed.

Lemma contains_char_count (c : ascii) (s : string) :
  contains_char c s = negb (Nat.eqb (count_char c s) 0).
Proof.
  induction s as [| a s IH]; simpl; [done |].
  destruct (Ascii.eqb a c); simpl; done.
Qed.

Lemma contains_char_app (c : ascii) (s1 s2 : string) :
  contains_char c (s1 +:+ s2) = contains_char c s1 || contains_char c s2.
Proof.
  induction s1 as [| a s1 IH]; simpl; [done |].
  destruct (Ascii.eqb a c); simpl; done.
Qed.

Lemma split_char_none (c : ascii) (s : string) :
  contains_char c s = false -> split_char c s = [s].
Proof.
  induction s as [| a s IH]; simpl; [done |].
  destruct (Ascii.eqb a c); [done |]. intros H. by rewrite IH.
Qed.

Lemma split_char_app_sep (c : ascii) (s1 s2 : string) :
  contains_char c s1 = false ->
  split_char c (s1 +:+ String c s2) = s1 :: split_char c s2.
Proof.
  induction s1 as [| a s1 IH]; simpl.
  - intros _. by rewrite Ascii.eqb_refl.
  - destruct (Ascii.eqb a c); [done |]. intros H. by rewrite IH.
Qed.

(* --------------------------------------------------------------------- *)
(** *** Feature tokens *)
(* --------------------------------------------------------------------- *)


Lemma feature_args_scoped (module mod_part feature_part : string) :
  contains_char ":" mod_part = false ->
  contains_char ":" feature_part = false ->
  feature_args module (mod_part +:+ ":" +:+ feature_part)
    = Ok (if String.eqb module mod_part then ["--features"; feature_part] else []).
Proof.
  intros Hm Hf. unfold feature_args.
  rewrite contains_char_app. simpl. rewrite orb_true_r.
  change (":" +:+ feature_part) with (String ":" feature_part).
  rewrite split_char_app_sep by done. by rewrite split_char_none.
Qed.

Lemma feature_args_many_colons (module feature : string) :
  (2 <= count_char ":" feature)%nat ->
  feature_args module feature = Raise ValueError.
Proof.
  intros H. unfold feature_args.
  rewrite contains_char_count.
  destruct (Nat.eqb_spec (count_char ":" feature) 0) as [H0 | _]; [lia |]. simpl.
  pose proof (split_char_length ":" feature) as Hl.
  destruct (split_char ":" feature) as [| a [| b [| c l]]]; simpl in Hl; try lia; done.
Qed.

Lemma add_ufeatures_app (module : string) (l1 l2 : list string) (acc : list string) :
  add_ufeatures module (l1 ++ l2) acc
  = match add_ufeatures module l1 acc with
    | Ok acc' => add_ufeatures module l2 acc'
    | Raise e => Raise e
    end.
Proof.
  revert acc. induction l1 as [| t l1 IH]; intros acc; simpl; [done |].
  destruct (feature_args module t); [apply IH | done].
Qed.

Lemma add_ufeatures_acc (module : string) (l : list string) (acc : list string) :
  add_ufeatures module l acc
  = match add_ufeatures module l [] with
    | Ok extra => Ok (acc ++ extra)
    | Raise e => Raise e
    end.
Proof.
  revert acc. induction l as [| t l IH]; intros acc; simpl.
  - by rewrite app_nil_r.
  - destruct (feature_args module t) as [extra | e]; [| done].
    rewrite (IH (acc ++ extra)), (IH extra).
    destruct (add_ufeatures module l []); [| done]. by rewrite app_assoc.
Qed.

Lemma add_ufeatures_raises (module : string) (l : list string) (acc : list string)
    (t : string) :
  t ∈ l -> (2 <= count_char ":" t)%nat ->
  add_ufeatures module l acc = Raise ValueError.
Proof.
  intros Hin Hc. revert acc.
  induction l as [| x l IH]; intros acc; [by apply elem_of_nil in Hin |].
  simpl. apply elem_of_cons in Hin as [<- | Hin].
  - by rewrite feature_args_many_colons.
  - destruct (feature_args module x) as [extra | e] eqn:Hx; [by apply IH |].
    unfold feature_args in Hx.
    destruct (contains_char ":" x); [| done].
    destruct (split_char ":" x) as [| a [| b [| c l']]]; congruence.
Qed.

(* --------------------------------------------------------------------- *)
(** *** The user-space build *)
(* --------------------------------------------------------------------- *)

Lemma for_each_ext {A} (l : list A) (f g : A -> M unit) :
  (forall x, x ∈ l -> forall w, f x w = g x w) ->
  forall w, for_each l f w = for_each l g w.
Proof.
  induction l as [| x l IH]; intros Hfg w; simpl; [done |].
  unfold bind. rewrite (Hfg x) by apply list_elem_of_here.
  destruct (g x w) as [[[] | e] w1]; [| done].
  apply IH. intros y Hy. apply Hfg. by apply list_elem_of_further.
Qed.

Lemma new_calls_app (w w' : World) (cs : list Invocation) :
  w_calls w' = w_calls w ++ cs -> new_calls w w' = cs.
Proof. intros H. unfold new_calls. rewrite H. apply drop_app_length. Qed.

(** The module names of the sample command line are plain. *)
Lemma sample_mods_plain (machine : string) (settings : option string)
    (cores : option Z) :
  Forall plain_name (mods (sample_args machine settings cores)).
Proof.
  repeat (apply Forall_cons; split; [by repeat split |]). apply Forall_nil_2.
Qed.

Section Build.

Context (env : Env).

(** One round of the module loop makes at most one toolchain call, for
    that module and with the arguments the feature loop computed. *)
Lemma build_user_module_calls (args : Args) (d : list string) (module : string)
    (w w' : World) (r : Outcome unit) :
  build_user_module env args d module w = (r, w') ->
  w_calls w' = w_calls w
  \/ exists build_args,
       add_ufeatures module (ufeatures args) d = Ok build_args
       /\ w_calls w' = w_calls w ++
            [{| inv_cwd := USR_PATH env ++ [module];
                inv_rust_target_path := USR_PATH env;
                inv_args := build_args |}].
Proof.
  unfold build_user_module, with_cwd, chdir, log, print, xargo, bind, raise.
  intros H.
  destruct (path_exists (w_fs w) (USR_PATH env ++ [module])); simpl in H;
    [| left; by simplify_eq].
  destruct (stat (w_fs w) (USR_PATH env ++ [module])) as [[| c] |];
    [| left; by simplify_eq | left; by simplify_eq].
  destruct (add_ufeatures module (ufeatures args) d) as [build_args | e] eqn:Hadd.
  - simpl in H.
    destruct (run_xargo env _ _) as [ok f] eqn:Hx.
    right. exists build_args. split; [done |].
    destruct ok, (w_cwd w) as [prev |]; simpl in H;
      repeat case_match; by simplify_eq.
  - left. simpl in H. destruct (w_cwd w); repeat case_match; by simplify_eq.
Qed.

Lemma for_each_build_calls (args : Args) (d : list string) (l : list string)
    (w w' : World) (r : Outcome unit) :
  for_each l (build_user_module env args d) w = (r, w') ->
  exists cs,
    w_calls w' = w_calls w ++ cs
    /\ Forall (fun inv =>
         exists module, module ∈ l
           /\ inv_cwd inv = USR_PATH env ++ [module]
           /\ add_ufeatures module (ufeatures args) d = Ok (inv_args inv)) cs.
Proof.
  revert w. induction l as [| x l IH]; intros w; simpl.
  - intros [= <- <-]. exists []. by rewrite app_nil_r.
  - unfold bind.
    destruct (build_user_module env args d x w) as [o w1] eqn:Hx.
    pose proof (build_user_module_calls _ _ _ _ _ _ Hx) as Hc.
    assert (exists c1, w_calls w1 = w_calls w ++ c1
              /\ Forall (fun inv =>
                   exists module, module ∈ x :: l
                     /\ inv_cwd inv = USR_PATH env ++ [module]
                     /\ add_ufeatures module (ufeatures args) d = Ok (inv_args inv)) c1)
      as (c1 & Hc1 & Hf1).
    { destruct Hc as [Hc | (ba & Hba & Hc)].
      - exists []. by rewrite app_nil_r.
      - eexists. split; [exact Hc |]. constructor; [| constructor].
        exists x. simpl. split; [apply list_elem_of_here | done]. }
    destruct o as [[] | e].
    + intros H. destruct (IH _ H) as (c2 & Hc2 & Hf2).
      exists (c1 ++ c2). split; [by rewrite Hc2, Hc1, app_assoc |].
      apply Forall_app. split; [done |].
      eapply Forall_impl; [exact Hf2 |].
      intros inv (m & Hm & ?). exists m. split; [by apply list_elem_of_further | done].
    + intros [= <- <-]. by exists c1.
Qed.

(** C3. A token [module:feature] whose module is not among the selected
    modules adds nothing to the arguments of any selected module's build,
    and the whole user-space build (invocations, printed lines, outcome)
    is the one obtained without the token: it is ignored, silently and
    without error. *)
Theorem unmatched_module_feature_ignored (args : Args) (w : World)
    (l1 l2 : list string) (mod_part feature_part : string) :
  contains_char ":" mod_part = false ->
  contains_char ":" feature_part = false ->
  ufeatures args = l1 ++ (mod_part +:+ ":" +:+ feature_part) :: l2 ->
  mod_part ∉ mods args ->
  Forall (fun module =>
            feature_args module (mod_part +:+ ":" +:+ feature_part) = Ok [])
         (mods args)
  /\ build_userspace env args w
     = build_userspace env (with_ufeatures (l1 ++ l2) args) w.
Proof.
  intros Hm Hf Hu Hnot.
  assert (forall module, module ∈ mods args ->
            feature_args module (mod_part +:+ ":" +:+ feature_part) = Ok []) as Hnone.
  { intros module Hin. rewrite feature_args_scoped by done.
    destruct (String.eqb_spec module mod_part) as [-> | _]; done. }
  split; [by apply Forall_forall |].
  unfold build_userspace. simpl.
  apply for_each_ext. intros module Hin w0.
  unfold build_user_module. simpl. rewrite Hu.
  rewrite !add_ufeatures_app. simpl.
  rewrite (Hnone module Hin).
  destruct (add_ufeatures module l1 _) as [acc |]; [| done].
  by rewrite app_nil_r.
Qed.

Lemma for_each_build_aborts (args : Args) (d : list string) (l : list string)
    (w : World) (token : string) :
  token ∈ ufeatures args ->
  (2 <= count_char ":" token)%nat ->
  Exists (fun module => is_dir (w_fs w) (USR_PATH env ++ [module]) = true) l ->
  exists e w',
    for_each l (build_user_module env args d) w = (Raise e, w')
    /\ w_calls w' = w_calls w
    /\ w_fs w' = w_fs w
    /\ (e = ValueError
        \/ Exists (fun module => is_file (w_fs w) (USR_PATH env ++ [module]) = true) l
        \/ ~ valid_cwd w).
Proof.
  intros Hin Hc. revert w. induction l as [| x l IH]; intros w Hex.
  { by apply Exists_nil in Hex. }
  simpl. unfold bind, build_user_module at 1.
  unfold path_exists, is_dir, is_file in *.
  destruct (stat (w_fs w) (USR_PATH env ++ [x])) as [[| c] |] eqn:Hst; simpl.
  - (* the source directory is there: the feature loop raises *)
    unfold with_cwd, chdir. rewrite Hst.
    rewrite (add_ufeatures_raises _ _ _ _ Hin Hc). unfold raise.
    destruct (w_cwd w) as [prev |] eqn:Hprev.
    + simpl. destruct (stat (w_fs w) prev) as [[| c] |] eqn:Hp.
      * do 2 eexists. split; [done |]. simpl. by repeat split; try left.
      * do 2 eexists. split; [done |]. simpl. repeat split; try done.
        right. right. intros (d0 & Hd & Hdir). unfold is_dir in Hdir.
        rewrite Hprev in Hd. injection Hd as <-. by rewrite Hp in Hdir.
      * do 2 eexists. split; [done |]. simpl. repeat split; try done.
        right. right. intros (d0 & Hd & Hdir). unfold is_dir in Hdir.
        rewrite Hprev in Hd. injection Hd as <-. by rewrite Hp in Hdir.
    + do 2 eexists. split; [done |]. simpl. repeat split; try done.
      right. right. intros (d0 & Hd & _). by rewrite Hprev in Hd.
  - (* a regular file of that name: changing directory raises *)
    unfold with_cwd, chdir. rewrite Hst.
    do 2 eexists. split; [done |]. repeat split; try done.
    right. left. apply Exists_cons_hd. unfold is_file. by rewrite Hst.
  - (* no such module: skipped with a notice *)
    unfold log, print.
    apply Exists_cons in Hex as [Hx | Hex]; [by rewrite Hst in Hx |].
    destruct (IH (add_line (">>> " +:+ ("User module " +:+ x +:+ " not found, skipping.")) w) Hex)
      as (e & w' & Hrun & Hcalls & Hfs & He).
    exists e, w'. split; [exact Hrun |]. repeat split; try done.
    destruct He as [He | [He | He]]; [by left | |].
    + right. left. by apply Exists_cons_tl.
    + right. right. intros (d0 & Hd & Hdir). apply He. by exists d0.
Qed.

(** C10. A token with two or more colons makes the user-space build
    raise as soon as the source directory of a selected module exists:
    the build ends with an exception before any toolchain call is made
    and without touching the file system.  The exception is the
    [ValueError] of the failed two-name unpacking, unless a selected
    module name is a regular file below the user directory or the
    working directory of the process is not a directory (then an error
    of changing directory is raised instead). *)
Theorem many_colons_abort_userspace_build (args : Args) (w : World) (token : string) :
  token ∈ ufeatures args ->
  (2 <= count_char ":" token)%nat ->
  Exists (fun module => is_dir (w_fs w) (USR_PATH env ++ [module]) = true) (mods args) ->
  exists e w',
    build_userspace env args w = (Raise e, w')
    /\ w_calls w' = w_calls w
    /\ w_fs w' = w_fs w
    /\ (e = ValueError
        \/ Exists (fun module => is_file (w_fs w) (USR_PATH env ++ [module]) = true)
                  (mods args)
        \/ ~ valid_cwd w).
Proof.
  intros Hin Hc Hex. unfold build_userspace.
  by eapply for_each_build_aborts.
Qed.

End Build.

(* --------------------------------------------------------------------- *)
(** *** The emulator argument vector *)
(* --------------------------------------------------------------------- *)

Lemma string_of_list_ascii_app (l1 l2 : list ascii) :
  string_of_list_ascii (l1 ++ l2) = string_of_list_ascii l1 +:+ string_of_list_ascii l2.
Proof. induction l1 as [| a l1 IH]; simpl; [done |]. by rewrite IH. Qed.

Lemma concat_empty_cons (x : string) (l : list string) :
  String.concat "" (x :: l) = x +:+ String.concat "" l.
Proof.
  destruct l as [| y l]; cbn [String.concat]; [| done].
  induction x as [| a x IH]; [done |].
  change (String a x +:+ "") with (String a (x +:+ "")). by rewrite <- IH.
Qed.

(** Gluing the pieces of [s.split()] gives [s] without its whitespace. *)
Lemma py_split_aux_concat (cur : list ascii) (s : string) :
  String.concat "" (py_split_aux cur s)
  = string_of_list_ascii (rev cur ++ List.filter nonspace (list_ascii_of_string s)).
Proof.
  revert cur. induction s as [| a s IH]; intros cur.
  - simpl. rewrite app_nil_r. by destruct cur.
  - cbn [py_split_aux list_ascii_of_string List.filter]. unfold nonspace at 1.
    destruct (py_isspace a) eqn:Ha; cbn [negb].
    + destruct cur as [| c cur].
      * by rewrite IH.
      * rewrite concat_empty_cons, IH, !string_of_list_ascii_app. reflexivity.
    + rewrite IH. cbn [rev]. rewrite <- app_assoc. reflexivity.
Qed.

Lemma py_split_aux_tokens (cur : list ascii) (s : string) :
  forallb nonspace cur = true ->
  Forall is_token (py_split_aux cur s).
Proof.
  assert (forall c cur, forallb nonspace (c :: cur) = true ->
            is_token (string_of_list_ascii (rev (c :: cur)))) as Htok.
  { intros c cur0 H. split.
    - cbn [rev]. rewrite string_of_list_ascii_app.
      destruct (string_of_list_ascii (rev cur0)); discriminate.
    - rewrite list_ascii_of_string_of_list_ascii, forallb_forall.
      intros x Hx. apply in_rev in Hx.
      rewrite forallb_forall in H. by apply H. }
  revert cur. induction s as [| a s IH]; intros cur Hcur.
  - simpl. destruct cur as [| c cur]; [constructor |].
    constructor; [by apply Htok | constructor].
  - cbn [py_split_aux]. destruct (py_isspace a) eqn:Ha.
    + destruct cur as [| c cur]; [by apply IH |].
      constructor; [by apply Htok | by apply IH].
    + apply IH. simpl. unfold nonspace at 1. by rewrite Ha.
Qed.

(** C8 (as the script has it). The emulator arguments are the default
    arguments followed by exactly one of two things: the whitespace
    tokens of the settings string when that string is given and not
    empty, or the fixed memory size [-m 1024] when no settings string is
    given or the given one is empty.  The tokens are the maximal
    whitespace-free pieces of the string, in order. *)
Theorem qemu_settings_or_default_memory (env : Env) (args : Args) :
  qemu_args env args
  = qemu_base_args env args
    ++ match qemu_settings args with
       | Some settings =>
           if String.eqb settings "" then ["-m"; "1024"] else py_split settings
       | None => ["-m"; "1024"]
       end
  /\ match qemu_settings args with
     | Some settings =>
         Forall is_token (py_split settings)
         /\ String.concat "" (py_split settings)
            = string_of_list_ascii (List.filter nonspace (list_ascii_of_string settings))
     | None => True
     end.
Proof.
  split.
  - unfold qemu_args, qemu_default_args, truthy_opt_str, truthy_str.
    destruct (qemu_settings args) as [settings |]; [| done].
    destruct (String.eqb settings ""); simpl; done.
  - destruct (qemu_settings args) as [settings |]; [| done].
    split; [by apply py_split_aux_tokens |].
    unfold py_split. by rewrite py_split_aux_concat.
Qed.

(** C8, the case that fails: an empty settings string is supplied
    ([-q ""]), and the default memory size is added all the same. *)
Lemma empty_settings_keep_default_memory :
  qemu_settings (sample_args "qemu" (Some "") None) = Some ""
  /\ qemu_args sample_env (sample_args "qemu" (Some "") None)
     = qemu_base_args sample_env (sample_args "qemu" (Some "") None) ++ ["-m"; "1024"]
  /\ ~ (forall (env : Env) (args : Args) (settings : string),
          qemu_settings args = Some settings ->
          qemu_args env args = qemu_base_args env args ++ py_split settings).
Proof.
  split; [reflexivity |]. split; [reflexivity |].
  intros H.
  specialize (H sample_env (sample_args "qemu" (Some "") None) "" eq_refl).
  vm_compute in H. discriminate H.
Qed.

(* --------------------------------------------------------------------- *)
(** *** The user-space build on the sample checkout *)
(* --------------------------------------------------------------------- *)

Lemma unmatched_module_feature_ignored_witness :
  Forall (fun module => feature_args module ("zz" +:+ ":" +:+ "h") = Ok [])
         (mods (sample_args "qemu" None None))
  /\ build_userspace sample_env (sample_args "qemu" None None) sample_world
     = build_userspace sample_env
         (with_ufeatures (["f"; "init:g"] ++ []) (sample_args "qemu" None None))
         sample_world.
Proof.
  apply (unmatched_module_feature_ignored sample_env (sample_args "qemu" None None)
           sample_world ["f"; "init:g"] [] "zz" "h").
  - reflexivity.
  - reflexivity.
  - reflexivity.
  - apply (bool_decide_unpack _). vm_compute. exact I.
Defined.

Lemma many_colons_abort_userspace_build_witness :
  exists e w',
    build_userspace sample_env
      (with_ufeatures ["f"; "a:b:c"] (sample_args "qemu" None None)) sample_world
    = (Raise e, w')
    /\ w_calls w' = w_calls sample_world
    /\ w_fs w' = w_fs sample_world
    /\ (e = ValueError
        \/ Exists (fun module =>
                     is_file (w_fs sample_world) (USR_PATH sample_env ++ [module]) = true)
                  (mods (with_ufeatures ["f"; "a:b:c"] (sample_args "qemu" None None)))
        \/ ~ valid_cwd sample_world).
Proof.
  apply (many_colons_abort_userspace_build sample_env
           (with_ufeatures ["f"; "a:b:c"] (sample_args "qemu" None None))
           sample_world "a:b:c").
  - apply (bool_decide_unpack _). vm_compute. exact I.
  - simpl. lia.
  - apply Exists_cons_hd. vm_compute. reflexivity.
Defined.

Example build_userspace_sample :
  (build_userspace sample_env (sample_args "qemu" None None) sample_world).1 = Ok tt
  /\ inv_args <$> new_calls sample_world
       (build_userspace sample_env (sample_args "qemu" None None) sample_world).2
     = [ ["build"; "--target"; "x86_64-bespin-none"; "--color"; "always";
          "--features"; "f"; "--features"; "g"];
         ["build"; "--target"; "x86_64-bespin-none"; "--color"; "always";
          "--features"; "f"] ].
Proof. split; vm_compute; reflexivity. Qed.

Example build_userspace_sample_many_colons :
  (build_userspace sample_env
     (with_ufeatures ["f"; "a:b:c"] (sample_args "qemu" None None)) sample_world).1
  = Raise ValueError.
Proof. vm_compute. reflexivity. Qed.

(* --------------------------------------------------------------------- *)
(** *** Stages only add invocations and never exit the process *)
(* --------------------------------------------------------------------- *)

Lemma tame_ret {A} (a : A) : tame (ret a).
Proof. intros w w' r [= <- <-]. done. Qed.

Lemma tame_bind {A B} (m : M A) (k : A -> M B) :
  tame m -> (forall a, tame (k a)) -> tame (bind m k).
Proof.
  intros Hm Hk w w' r. unfold bind.
  destruct (m w) as [[a | e] w1] eqn:Hmw.
  - intros Hkw. destruct (Hm _ _ _ Hmw) as [Hp _].
    destruct (Hk a _ _ _ Hkw) as [Hp' Hr]. split; [by etrans | done].
  - intros [= <- <-]. destruct (Hm _ _ _ Hmw) as [Hp Hr]. split; [done |].
    intros code [= ->]. by apply (Hr code).
Qed.

Lemma tame_print (line : string) : tame (print line).
Proof. intros w w' r [= <- <-]. done. Qed.

Lemma tame_log (msg : string) : tame (log msg).
Proof. apply tame_print. Qed.

Lemma tame_chdir (p : list string) : tame (chdir p).
Proof.
  intros w w' r. unfold chdir.
  destruct (stat (w_fs w) p) as [[| c] |]; intros [= <- <-]; done.
Qed.

Lemma tame_with_cwd {A} (p : list string) (body : M A) :
  tame body -> tame (with_cwd p body).
Proof.
  intros Hb w w' r. unfold with_cwd.
  destruct (chdir p w) as [[[] | e] w1] eqn:Hc.
  - destruct (tame_chdir _ _ _ _ Hc) as [Hp1 _].
    destruct (body w1) as [r2 w2] eqn:Hbody.
    destruct (Hb _ _ _ Hbody) as [Hp2 Hr2].
    destruct (w_cwd w) as [d |].
    + destruct (chdir d w2) as [[[] | e] w3] eqn:Hc3;
        destruct (tame_chdir _ _ _ _ Hc3) as [Hp3 Hr3]; intros [= <- <-].
      * split; [| exact Hr2]. etrans; [exact Hp1 |]. by etrans.
      * split; [etrans; [exact Hp1 |]; by etrans |].
        intros code [= ->]. by apply (Hr3 code).
    + intros [= <- <-]. split; [by etrans | done].
  - intros [= <- <-]. destruct (tame_chdir _ _ _ _ Hc) as [Hp1 Hr1].
    split; [done |]. intros code [= ->]. by apply (Hr1 code).
Qed.

Lemma tame_for_each {A} (l : list A) (body : A -> M unit) :
  (forall x, tame (body x)) -> tame (for_each l body).
Proof.
  intros Hb. induction l as [| x l IH]; simpl; [apply tame_ret |].
  apply tame_bind; [apply Hb | done].
Qed.

Lemma tame_rmtree (p : list string) : tame (rmtree p).
Proof. intros w w' r [= <- <-]. done. Qed.

Lemma tame_mkdir_parents (p : list string) : tame (mkdir_parents p).
Proof.
  intros w w' r. unfold mkdir_parents.
  destruct (mkdir_from [] p (w_fs w)) as [f | e] eqn:Hm; intros [= <- <-]; [done |].
  split; [done |]. intros code [= ->].
  clear -Hm. revert Hm. generalize (@nil string) as base. generalize (w_fs w) as f.
  induction p as [| c p IH]; intros f base; simpl; [done |].
  destruct (stat f (base ++ [c])) as [[| ?] |]; [apply IH | | apply IH].
  by destruct p.
Qed.

Lemma tame_write_file (p : list string) (content : string) : tame (write_file p content).
Proof.
  intros w w' r. unfold write_file, write_node.
  destruct p as [| c p]; [intros [= <- <-]; done |].
  destruct (stat (w_fs w) (parent (c :: p))) as [[| ?] |];
    [| intros [= <- <-]; done | intros [= <- <-]; done].
  destruct (stat (w_fs w) (c :: p)) as [[| ?] |]; intros [= <- <-]; done.
Qed.

Lemma tame_copy2 (src dst : list string) : tame (copy2 src dst).
Proof.
  intros w w' r. unfold copy2.
  destruct (_ && _); [intros [= <- <-]; done |].
  destruct (stat (w_fs w) src) as [[| content] |];
    [intros [= <- <-]; done | apply tame_write_file | intros [= <- <-]; done].
Qed.

Lemma tame_getcwd : tame getcwd.
Proof.
  intros w w' r. unfold getcwd.
  destruct (w_cwd w) as [d |]; [| intros [= <- <-]; done].
  destruct (is_dir (w_fs w) d); intros [= <- <-]; done.
Qed.

Lemma tame_extend_cargo_default_args (args : Args) :
  tame (extend_cargo_default_args args).
Proof.
  unfold extend_cargo_default_args. apply tame_bind.
  - destruct (release args); [| apply tame_ret]. intros w w' r [= <- <-]. done.
  - intros _. destruct (verbose args); [| apply tame_ret]. intros w w' r [= <- <-]. done.
Qed.

Lemma extend_cargo_default_args_ok (args : Args) (w : World) :
  exists w1, extend_cargo_default_args args w = (Ok tt, w1)
    /\ w_calls w1 = w_calls w /\ w_fs w1 = w_fs w /\ w_cwd w1 = w_cwd w
    /\ w_stdout w1 = w_stdout w
    /\ CARGO_DEFAULT_ARGS w1
       = CARGO_DEFAULT_ARGS w ++ (if release args then ["--release"] else [])
                              ++ (if verbose args then ["--verbose"] else []).
Proof.
  unfold extend_cargo_default_args, bind, ret.
  destruct (release args), (verbose args); simpl; eexists; (split; [done |]);
    simpl; rewrite <- ?app_assoc, ?app_nil_r; done.
Qed.

Section Stages.

Context (env : Env).

Lemma tame_xargo (rtp : list string) (build_args : list string) :
  tame (xargo env rtp build_args).
Proof.
  intros w w' r. unfold xargo.
  destruct (w_cwd w) as [d |]; [| intros [= <- <-]; done].
  destruct (run_xargo env _ _) as [ok f].
  destruct ok; intros [= <- <-]; simpl; (split; [by apply prefix_app_r | done]).
Qed.

Lemma tame_build_bootloader (args : Args) : tame (build_bootloader env args).
Proof.
  unfold build_bootloader. apply tame_bind; [apply tame_log | intros _].
  intros w w' r H. eapply (tame_with_cwd _ _ (tame_xargo _ _)), H.
Qed.

Lemma tame_build_kernel (args : Args) : tame (build_kernel env args).
Proof.
  unfold build_kernel. apply tame_bind; [apply tame_log | intros _].
  apply tame_with_cwd. intros w w' r H. eapply tame_xargo, H.
Qed.

Lemma tame_build_user_libraries (args : Args) : tame (build_user_libraries env args).
Proof.
  unfold build_user_libraries. apply tame_bind; [apply tame_log | intros _].
  intros w w' r H. eapply (tame_with_cwd _ _ (tame_xargo _ _)), H.
Qed.

Lemma tame_build_userspace (args : Args) : tame (build_userspace env args).
Proof.
  unfold build_userspace. intros w0 w0' r0 H0. revert H0.
  apply tame_for_each. intros module.
  unfold build_user_module. intros w1 w1' r1 H1. revert H1.
  destruct (negb _); [apply tame_log |].
  apply tame_with_cwd.
  destruct (add_ufeatures _ _ _) as [build_args | e] eqn:Hadd.
  - apply tame_bind; [apply tame_log | intros _; apply tame_xargo].
  - intros w w' r [= <- <-]. split; [done |]. intros code [= ->].
    clear -Hadd. revert Hadd. generalize (["build"; "--target"; USER_TARGET] ++ CARGO_DEFAULT_ARGS w0).
    induction (ufeatures args) as [| t l IH]; intros acc; simpl; [done |].
    destruct (feature_args module t) as [extra | e] eqn:Ht; [apply IH |].
    intros [= ->]. unfold feature_args in Ht.
    destruct (contains_char ":" t); [| done].
    destruct (split_char ":" t) as [| a [| b [| c l']]]; done.
Qed.

Lemma tame_deploy (args : Args) : tame (deploy env args).
Proof.
  unfold deploy, deploy_fixed.
  repeat (apply tame_bind; [| intros ?]);
    try apply tame_log; try apply tame_mkdir_parents; try apply tame_getcwd;
    try apply tame_copy2; try apply tame_write_file.
  - intros w0 w0' r0. destruct (_ && _); [apply tame_rmtree |].
    intros [= <- <-]. done.
  - apply tame_for_each. intros module. unfold deploy_module.
    intros w0 w0' r0.
    destruct (negb (is_file _ _)); [intros [= <- <-]; done |].
    destruct (negb (String.eqb _ _)); [apply tame_copy2 |].
    apply tame_for_each. intros app. apply tame_copy2.
Qed.

(** A bootloader build that returns has called the toolchain once. *)
Lemma build_bootloader_ok_calls (args : Args) (w w' : World) :
  build_bootloader env args w = (Ok tt, w') ->
  w_calls w'
  = w_calls w ++
    [{| inv_cwd := BOOTLOADER_PATH env;
        inv_rust_target_path := BOOTLOADER_PATH env;
        inv_args := ["build"; "--target"; UEFI_TARGET; "--package"; "bootloader"]
                    ++ CARGO_DEFAULT_ARGS w |}].
Proof.
  unfold build_bootloader, bind, log, print, with_cwd, chdir, xargo. simpl.
  destruct (stat (w_fs w) (BOOTLOADER_PATH env)) as [[| c] |]; [| done | done].
  simpl. destruct (run_xargo env _ _) as [ok f].
  destruct ok, (w_cwd w) as [d |]; simpl; try done;
    repeat case_match; intros; by simplify_eq.
Qed.

End Stages.

(* --------------------------------------------------------------------- *)
(** *** The configuration check and the unsupported machine *)
(* --------------------------------------------------------------------- *)

Lemma tame_build_and_deploy (env : Env) (args : Args) :
  tame (build_and_deploy env args).
Proof.
  unfold build_and_deploy.
  apply tame_bind; [apply tame_build_bootloader | intros _].
  apply tame_bind; [apply tame_build_kernel | intros _].
  apply tame_bind; [apply tame_build_user_libraries | intros _].
  apply tame_bind; [apply tame_build_userspace | intros _].
  apply tame_deploy.
Qed.

(** A pipeline that got through all stages started with the bootloader
    build. *)
Lemma build_and_deploy_ok_calls (env : Env) (args : Args) (w w' : World) :
  build_and_deploy env args w = (Ok tt, w') ->
  exists rest,
    w_calls w'
    = w_calls w ++
      {| inv_cwd := BOOTLOADER_PATH env;
         inv_rust_target_path := BOOTLOADER_PATH env;
         inv_args := ["build"; "--target"; UEFI_TARGET; "--package"; "bootloader"]
                     ++ CARGO_DEFAULT_ARGS w |} :: rest.
Proof.
  unfold build_and_deploy. unfold bind at 1.
  destruct (build_bootloader env args w) as [[[] | e] wb] eqn:Hb; [| done].
  intros Hrest. apply build_bootloader_ok_calls in Hb.
  assert (tame (build_kernel env args ;; build_user_libraries env args ;;
                build_userspace env args ;; deploy env args)%py) as Ht.
  { apply tame_bind; [apply tame_build_kernel | intros _].
    apply tame_bind; [apply tame_build_user_libraries | intros _].
    apply tame_bind; [apply tame_build_userspace | intros _].
    apply tame_deploy. }
  destruct (Ht _ _ _ Hrest) as [[k Hk] _].
  exists k. by rewrite Hk, Hb, <- app_assoc.
Qed.

(** C2 (as the script has it). With a machine other than qemu:
    - when a QEMU-specific option is set (a switch given, a settings
      string that is not empty, a core or node count that is not zero),
      the script exits with 99 at once: one line is printed, no stage
      runs, no file changes;
    - otherwise all build stages and the deployment run first, and only
      the launch stage reports the unsupported machine: an exit with a
      status code can then only be 99, needs [norun] off, and comes after
      a pipeline that completed and called the toolchain, the bootloader
      build first. *)
Theorem non_qemu_machine_exit_99 (env : Env) (args : Args) (w : World) :
  String.eqb (machine args) "qemu" = false ->
  if qemu_flag_given args then
    main env args w
    = (Raise (SystemExit 99),
       add_line ">>> Can't specify QEMU specific arguments for non-qemu hardware" w)
  else
    main env args w
    = (extend_cargo_default_args args ;;
       build_and_deploy env args ;;
       if norun args then ret tt
       else (log ("Machine " +:+ machine args +:+ " not supported") ;;
             raise (SystemExit 99)))%py w
    /\ forall (code : Z) (w' : World),
         main env args w = (Raise (SystemExit code), w') ->
         code = 99 /\ norun args = false
         /\ exists w0 w1 rest,
              extend_cargo_default_args args w = (Ok tt, w0)
              /\ build_and_deploy env args w0 = (Ok tt, w1)
              /\ w' = add_line (">>> " +:+ ("Machine " +:+ machine args +:+ " not supported")) w1
              /\ w_calls w1
                 = w_calls w ++
                   {| inv_cwd := BOOTLOADER_PATH env;
                      inv_rust_target_path := BOOTLOADER_PATH env;
                      inv_args :=
                        ["build"; "--target"; UEFI_TARGET; "--package"; "bootloader"]
                        ++ CARGO_DEFAULT_ARGS w0 |} :: rest.
Proof.
  intros Hm. destruct (qemu_flag_given args) eqn:Hflag.
  - unfold main. rewrite Hm, Hflag. reflexivity.
  - assert (main env args w
            = (extend_cargo_default_args args ;;
               build_and_deploy env args ;;
               if norun args then ret tt
               else (log ("Machine " +:+ machine args +:+ " not supported") ;;
                     raise (SystemExit 99)))%py w) as Hmain.
    { unfold main. rewrite Hm, Hflag. simpl. unfold run. rewrite Hm.
      unfold bind.
      destruct (extend_cargo_default_args args w) as [[[] | e] w0]; [| done].
      destruct (build_and_deploy env args w0) as [[[] | e] w1]; [| done].
      by destruct (norun args). }
    split; [exact Hmain |].
    intros code w'. rewrite Hmain. unfold bind.
    destruct (extend_cargo_default_args_ok args w) as (w0 & Hext & Hcalls0 & _).
    rewrite Hext.
    destruct (build_and_deploy env args w0) as [[[] | e] w1] eqn:Hbd.
    + destruct (norun args); [done |].
      unfold log, print, raise. intros [= <- <-].
      destruct (build_and_deploy_ok_calls _ _ _ _ Hbd) as [rest Hrest].
      repeat split. exists w0, w1, rest. repeat split; [done |].
      by rewrite Hrest, Hcalls0.
    + intros [= -> <-].
      by destruct (proj2 (tame_build_and_deploy env args _ _ _ Hbd) code).
Qed.

Lemma non_qemu_machine_exit_99_witness :
  main sample_env (sample_args "hw" None (Some 4)) sample_world
  = (Raise (SystemExit 99),
     add_line ">>> Can't specify QEMU specific arguments for non-qemu hardware"
       sample_world).
Proof.
  exact (non_qemu_machine_exit_99 sample_env (sample_args "hw" None (Some 4))
           sample_world eq_refl).
Defined.

(** C2, the case that fails: an unsupported machine without any QEMU
    option.  The script ends with 99 only after five toolchain
    invocations and a deployment that wrote the kernel into the ESP
    tree. *)
Lemma unsupported_machine_builds_before_exit_99 :
  (main sample_env (sample_args "hw" None None) sample_world).1 = Raise (SystemExit 99)
  /\ List.length (w_calls (main sample_env (sample_args "hw" None None) sample_world).2)
     = 5%nat
  /\ w_fs (main sample_env (sample_args "hw" None None) sample_world).2
       !! (esp_path sample_env (sample_args "hw" None None) ++ ["kernel"])
     = Some (File "elf")
  /\ w_fs sample_world !! (esp_path sample_env (sample_args "hw" None None) ++ ["kernel"])
     = None
  /\ ~ (forall (env : Env) (args : Args) (w : World),
          String.eqb (machine args) "qemu" = false ->
          exists w', main env args w = (Raise (SystemExit 99), w')
                     /\ w_calls w' = w_calls w /\ w_fs w' = w_fs w).
Proof.
  split; [by vm_compute |]. split; [by vm_compute |].
  split; [by vm_compute |]. split; [by vm_compute |].
  intros H.
  destruct (H sample_env (sample_args "hw" None None) sample_world eq_refl)
    as (w' & Hrun & Hcalls & _).
  assert (List.length
            (w_calls (main sample_env (sample_args "hw" None None) sample_world).2)
          = 5%nat) as Hlen by (by vm_compute).
  rewrite Hrun in Hlen. cbn [snd] in Hlen. rewrite Hcalls in Hlen.
  discriminate Hlen.
Qed.

(* --------------------------------------------------------------------- *)
(** *** The file system *)
(* --------------------------------------------------------------------- *)

Lemma stat_snoc (f : gmap (list string) node) (p : list string) (c : string) :
  stat f (p ++ [c]) = f !! (p ++ [c]).
Proof. unfold stat. by destruct p. Qed.

Lemma is_dir_snoc (f : gmap (list string) node) (p : list string) (c : string) :
  is_dir f (p ++ [c]) = true <-> f !! (p ++ [c]) = Some Dir.
Proof.
  unfold is_dir. rewrite stat_snoc.
  by destruct (f !! (p ++ [c])) as [[| content] |].
Qed.

Lemma is_file_snoc (f : gmap (list string) node) (p : list string) (c : string) :
  is_file f (p ++ [c]) = true <-> exists content, f !! (p ++ [c]) = Some (File content).
Proof.
  unfold is_file. rewrite stat_snoc.
  destruct (f !! (p ++ [c])) as [[| content] |].
  - split; [done | by intros [? ?]].
  - split; [intros _; by eexists | done].
  - split; [done | by intros [? ?]].
Qed.

Lemma snoc_neq_self (p : list string) (c : string) : p <> p ++ [c].
Proof.
  intros H. apply (f_equal List.length) in H. rewrite length_app in H. simpl in H. lia.
Qed.

Lemma is_dir_insert_other (f : gmap (list string) node) (p q : list string) (x : node) :
  p <> q -> is_dir (<[q := x]> f) p = is_dir f p.
Proof.
  intros Hne. unfold is_dir, stat. destruct p as [| c p]; [done |].
  by rewrite lookup_insert_ne.
Qed.

(** Adding an entry in an existing directory, not over a directory, keeps
    the tree shape. *)
Lemma tree_fs_insert (f : gmap (list string) node) (p : list string) (c : string)
    (x : node) :
  tree_fs f -> is_dir f p = true -> f !! (p ++ [c]) <> Some Dir ->
  tree_fs (<[p ++ [c] := x]> f).
Proof.
  intros Ht Hp Hq p' c' Hsome.
  destruct (decide (p' ++ [c'] = p ++ [c])) as [Heq | Hne].
  - apply app_inj_tail in Heq as [-> ->].
    rewrite is_dir_insert_other; [done | apply snoc_neq_self].
  - rewrite lookup_insert_ne in Hsome by done.
    pose proof (Ht _ _ Hsome) as Hd.
    destruct (decide (p' = p ++ [c])) as [-> | Hne'].
    + by apply is_dir_snoc in Hd.
    + by rewrite is_dir_insert_other.
Qed.

Lemma lookup_remove_tree (p q : list string) (f : gmap (list string) node) :
  remove_tree p f !! q = if decide (p `prefix_of` q) then None else f !! q.
Proof.
  unfold remove_tree. destruct (decide (p `prefix_of` q)) as [Hp | Hp].
  - apply map_lookup_filter_None. right. intros x _. simpl. by intros [].
  - destruct (f !! q) as [x |] eqn:Hq.
    + by apply map_lookup_filter_Some.
    + apply map_lookup_filter_None. by left.
Qed.

Lemma prefix_snoc_inv (p q : list string) (c : string) :
  p `prefix_of` q ++ [c] -> p `prefix_of` q \/ p = q ++ [c].
Proof.
  intros [k Hk]. destruct (decide (k = [])) as [-> | Hne].
  - right. by rewrite app_nil_r in Hk.
  - left. destruct (exists_last Hne) as (k' & c' & ->).
    rewrite app_assoc in Hk. apply app_inj_tail in Hk as [-> _].
    by apply prefix_app_r.
Qed.

Lemma tree_fs_remove_tree (p : list string) (f : gmap (list string) node) :
  tree_fs f -> tree_fs (remove_tree p f).
Proof.
  intros Ht q c Hsome. rewrite lookup_remove_tree in Hsome.
  destruct (decide (p `prefix_of` q ++ [c])) as [| Hnp]; [by destruct Hsome |].
  pose proof (Ht _ _ Hsome) as Hd.
  unfold is_dir, stat in *. destruct q as [| a q]; [done |].
  rewrite lookup_remove_tree.
  destruct (decide (p `prefix_of` a :: q)) as [Hpq |]; [| done].
  destruct Hnp. by apply prefix_app_r.
Qed.

(** Below something that is not a directory there is nothing. *)
Lemma tree_fs_no_children (f : gmap (list string) node) (p k : list string) :
  tree_fs f -> is_dir f p = false -> k <> [] -> f !! (p ++ k) = None.
Proof.
  intros Ht Hp. induction k as [| c k IH] using rev_ind; [done |]. intros _.
  destruct (f !! (p ++ k ++ [c])) as [x |] eqn:Hx; [| done].
  rewrite app_assoc in Hx.
  assert (is_dir f (p ++ k) = true) as Hd by (apply (Ht _ c); by rewrite Hx).
  destruct (decide (k = [])) as [-> | Hne].
  - rewrite app_nil_r in Hd. congruence.
  - specialize (IH Hne). destruct (exists_last Hne) as (k' & c' & ->).
    rewrite app_assoc in Hd, IH. apply is_dir_snoc in Hd. congruence.
Qed.

(** *** Making directories *)

Lemma mkdir_from_spec (base rest : list string) (f f' : gmap (list string) node) :
  mkdir_from base rest f = Ok f' ->
  (forall k, k <> [] -> k `prefix_of` rest -> f' !! (base ++ k) = Some Dir)
  /\ (forall q, (forall k, k <> [] -> k `prefix_of` rest -> q <> base ++ k) ->
        f' !! q = f !! q).
Proof.
  revert base f. induction rest as [| c rest IH]; intros base f Hm.
  { injection Hm as <-. split; [| done].
    intros k Hk Hpre. by apply prefix_nil_inv in Hpre. }
  simpl in Hm. rewrite stat_snoc in Hm.
  assert (exists f1, mkdir_from (base ++ [c]) rest f1 = Ok f'
            /\ f1 !! (base ++ [c]) = Some Dir
            /\ forall q, q <> base ++ [c] -> f1 !! q = f !! q) as (f1 & Hrec & H1 & Hf1).
  { destruct (f !! (base ++ [c])) as [[| content] |] eqn:Hst.
    - by exists f.
    - by destruct rest.
    - exists (<[base ++ [c] := Dir]> f). split; [done |].
      split; [apply lookup_insert_eq |]. intros q Hq. by apply lookup_insert_ne. }
  destruct (IH _ _ Hrec) as [IHa IHb].
  assert (f' !! (base ++ [c]) = Some Dir) as Hc.
  { rewrite IHb; [done |]. intros k Hk _ Heq.
    apply (f_equal List.length) in Heq. rewrite !length_app in Heq.
    destruct k; [done |]. simpl in Heq. lia. }
  split.
  - intros k Hk Hpre. destruct k as [| c' k]; [done |].
    pose proof (prefix_cons_inv_1 _ _ _ _ Hpre) as ->.
    apply prefix_cons_inv_2 in Hpre.
    destruct (decide (k = [])) as [-> | Hne]; [done |].
    specialize (IHa k Hne Hpre). by rewrite <- app_assoc in IHa.
  - intros q Hq. rewrite IHb, Hf1; [done | |].
    + apply (Hq [c]); [done |]. apply prefix_cons, prefix_nil.
    + intros k Hk Hpre. rewrite <- app_assoc. apply (Hq (c :: k)); [done |].
      by apply prefix_cons.
Qed.

Lemma mkdir_from_tree (base rest : list string) (f f' : gmap (list string) node) :
  tree_fs f -> is_dir f base = true ->
  mkdir_from base rest f = Ok f' ->
  tree_fs f' /\ (forall q, is_dir f q = true -> is_dir f' q = true).
Proof.
  revert base f. induction rest as [| c rest IH]; intros base f Ht Hb Hm.
  { by injection Hm as <-. }
  simpl in Hm. rewrite stat_snoc in Hm.
  destruct (f !! (base ++ [c])) as [[| content] |] eqn:Hst.
  - apply (IH (base ++ [c]) f Ht); [by apply is_dir_snoc | done].
  - by destruct rest.
  - assert (tree_fs (<[base ++ [c] := Dir]> f)) as Ht1.
    { apply tree_fs_insert; [done | done | by rewrite Hst]. }
    destruct (IH _ _ Ht1 (proj2 (is_dir_snoc _ _ _) (lookup_insert_eq _ _ _)) Hm)
      as [Ht' Hd'].
    split; [done |]. intros q Hq. apply Hd'.
    rewrite is_dir_insert_other; [done |]. intros ->.
    apply is_dir_snoc in Hq. congruence.
Qed.

(** *** Writing and copying files *)

Lemma parent_snoc (q : list string) (n : string) : parent (q ++ [n]) = q.
Proof. unfold parent. apply removelast_last. Qed.

Lemma basename_snoc (q : list string) (n : string) : basename (q ++ [n]) = n.
Proof. unfold basename. apply last_last. Qed.

Lemma set_fs_same (w : World) : set_fs (w_fs w) w = w.
Proof. by destruct w. Qed.

Lemma write_file_inv (p : list string) (content : string) (w w' : World)
    (r : Outcome unit) :
  write_file p content w = (r, w') ->
  (exists e, r = Raise e /\ w' = w)
  \/ (r = Ok tt /\ file_written w w' p content).
Proof.
  unfold write_file, write_node. destruct p as [| c p] using rev_ind.
  { intros [= <- <-]. left. by eexists. }
  clear IHp. rewrite parent_snoc, stat_snoc.
  destruct (p ++ [c]) as [| a l] eqn:Hp; [by destruct p |]. rewrite <- Hp. clear Hp.
  destruct (stat (w_fs w) p) as [[| ?] |] eqn:Hpar.
  - destruct (w_fs w !! (p ++ [c])) as [[| ?] |] eqn:Hst; intros [= <- <-].
    + left. by eexists.
    + right. split; [done |]. exists p, c. unfold is_dir. rewrite Hpar, Hst. done.
    + right. split; [done |]. exists p, c. unfold is_dir. rewrite Hpar, Hst. done.
  - intros [= <- <-]. left. by eexists.
  - intros [= <- <-]. left. by eexists.
Qed.

Lemma copy2_inv (src dst : list string) (w w' : World) (r : Outcome unit) :
  copy2 src dst w = (r, w') ->
  (exists e, r = Raise e /\ w' = w)
  \/ (r = Ok tt
      /\ exists content,
           stat (w_fs w) src = Some (File content)
           /\ file_written w w'
                (if is_dir (w_fs w) dst then dst ++ [basename src] else dst) content).
Proof.
  unfold copy2. destruct (_ && _).
  { intros [= <- <-]. left. by eexists. }
  destruct (stat (w_fs w) src) as [[| content] |] eqn:Hsrc.
  - intros [= <- <-]. left. by eexists.
  - intros H. apply write_file_inv in H as [H | [-> H]]; [by left |].
    right. split; [done |]. by exists content.
  - intros [= <- <-]. left. by eexists.
Qed.

Lemma file_written_lookup (w w' : World) (p : list string) (content : string)
    (q : list string) :
  file_written w w' p content ->
  w_fs w' !! q = if decide (q = p) then Some (File content) else w_fs w !! q.
Proof.
  intros (q0 & n & -> & _ & _ & ->). simpl.
  destruct (decide (q = q0 ++ [n])) as [-> | Hne].
  - apply lookup_insert_eq.
  - by apply lookup_insert_ne.
Qed.

Lemma file_written_is_dir (w w' : World) (p : list string) (content : string)
    (d : list string) :
  file_written w w' p content ->
  is_dir (w_fs w) d = true -> is_dir (w_fs w') d = true.
Proof.
  intros (q0 & n & -> & _ & Hnd & ->) Hd. simpl.
  rewrite is_dir_insert_other; [done |]. intros ->.
  by apply is_dir_snoc in Hd.
Qed.

Lemma file_written_tree (w w' : World) (p : list string) (content : string) :
  file_written w w' p content -> tree_fs (w_fs w) -> tree_fs (w_fs w').
Proof.
  intros (q0 & n & -> & Hq & Hnd & ->) Ht. simpl. by apply tree_fs_insert.
Qed.

Lemma file_written_cwd (w w' : World) (p : list string) (content : string) :
  file_written w w' p content -> w_cwd w' = w_cwd w.
Proof. by intros (q0 & n & -> & _ & _ & ->). Qed.

Lemma file_written_wf (w w' : World) (p : list string) (content : string) :
  file_written w w' p content -> wf_world w -> wf_world w'.
Proof.
  intros Hw [Ht Hc]. split; [by eapply file_written_tree |].
  intros d Hd. rewrite (file_written_cwd _ _ _ _ Hw) in Hd.
  eapply file_written_is_dir; [done |]. by apply Hc.
Qed.

Lemma bind_ok_inv {A B} (m : M A) (k : A -> M B) (w w' : World) (b : B) :
  bind m k w = (Ok b, w') ->
  exists a w1, m w = (Ok a, w1) /\ k a w1 = (Ok b, w').
Proof.
  unfold bind. destruct (m w) as [[a | e] w1]; [| done]. intros H. by exists a, w1.
Qed.

Lemma for_each_singleton {A} (x : A) (body : A -> M unit) (w : World) :
  for_each [x] body w = body x w.
Proof. simpl. unfold bind, ret. by destruct (body x w) as [[[] | e] w1]. Qed.

(** *** Listing a directory *)

Lemma strip_prefix_Some (dir p k : list string) :
  strip_prefix dir p = Some k <-> p = dir ++ k.
Proof.
  revert p. induction dir as [| d dir IH]; intros p; simpl.
  - split; congruence.
  - destruct p as [| c p]; [done |].
    destruct (String.eqb_spec d c) as [-> | Hne].
    + rewrite IH. split; congruence.
    + split; [done | congruence].
Qed.

Lemma elem_of_children (f : gmap (list string) node) (dir : list string) (n : string) :
  n ∈ children f dir <-> is_Some (f !! (dir ++ [n])).
Proof.
  unfold children. rewrite list_elem_of_omap. split.
  - intros ([p x] & Hin & Hg). simpl in Hg.
    apply elem_of_map_to_list in Hin.
    destruct (strip_prefix dir p) as [[| n' [| ? ?]] |] eqn:Hs; try done.
    injection Hg as ->. apply strip_prefix_Some in Hs as ->. by eexists.
  - intros [x Hx]. exists (dir ++ [n], x). split; [by apply elem_of_map_to_list |].
    simpl. by rewrite (proj2 (strip_prefix_Some dir (dir ++ [n]) [n]) eq_refl).
Qed.

Lemma filter_fmap {A B} (P : B -> bool) (g : A -> B) (l : list A) :
  List.filter P (g <$> l) = g <$> List.filter (fun x => P (g x)) l.
Proof.
  induction l as [| x l IH]; [done |].
  rewrite fmap_cons. cbn [List.filter]. destruct (P (g x)); [| done].
  rewrite fmap_cons. by f_equal.
Qed.

Lemma elem_of_List_filter {A} (P : A -> bool) (l : list A) (x : A) :
  x ∈ List.filter P l <-> x ∈ l /\ P x = true.
Proof. rewrite !list_elem_of_In. apply filter_In. Qed.

Lemma elem_of_module_names (ub : list string) (f : gmap (list string) node)
    (module n : string) :
  n ∈ module_names ub f module
  <-> is_file f (ub ++ [module]) = true
      /\ (module <> "rkapps" /\ n = module
          \/ module = "rkapps" /\ ends_with ".bin" n = true
             /\ is_file f (ub ++ [n]) = true).
Proof.
  unfold module_names.
  destruct (is_file f (ub ++ [module])) eqn:Hm; simpl.
  2:{ rewrite elem_of_nil. split; [done | by intros [? _]]. }
  destruct (String.eqb_spec module "rkapps") as [-> | Hne]; simpl.
  - rewrite !elem_of_List_filter, elem_of_children. split.
    + intros [[_ Hb] Hf]. split; [done |]. by right.
    + intros [_ [[? _] | (_ & Hb & Hf)]]; [done |].
      split; [| done]. split; [| done].
      apply is_file_snoc in Hf as [c Hc]. by eexists.
  - rewrite list_elem_of_singleton. split.
    + intros ->. split; [done |]. by left.
    + intros [_ [[_ ->] | [-> _]]]; done.
Qed.

Section DeployLoop.

Context (env : Env) (args : Args).

Lemma deploy_module_eq (module : string) (w : World) :
  deploy_module env args module w
  = for_each ((fun n => user_build_path env args ++ [n])
                <$> module_names (user_build_path env args) (w_fs w) module)
             (fun app => copy2 app (esp_path env args)) w.
Proof.
  unfold deploy_module, module_names.
  destruct (is_file (w_fs w) (user_build_path env args ++ [module])); cbn [negb]; [| done].
  destruct (String.eqb module "rkapps"); cbn [negb].
  - unfold glob_bin. cbv zeta. by rewrite filter_fmap.
  - symmetry. apply (for_each_singleton (user_build_path env args ++ [module])).
Qed.

End DeployLoop.

(** *** Copying a list of files into the ESP root *)

Lemma copy_names_spec (ub esp : list string) (names : list string)
    (w w' : World) (r : Outcome unit) :
  ub <> esp ->
  is_dir (w_fs w) esp = true ->
  for_each ((fun n => ub ++ [n]) <$> names) (fun app => copy2 app esp) w = (r, w') ->
  exists f',
    w' = set_fs f' w
    /\ (forall p, (forall n, n ∈ names -> p <> esp ++ [n]) -> f' !! p = w_fs w !! p)
    /\ (forall n, f' !! (esp ++ [n]) = w_fs w !! (esp ++ [n])
                  \/ (n ∈ names /\ is_file (w_fs w) (ub ++ [n]) = true
                      /\ f' !! (esp ++ [n]) = w_fs w !! (ub ++ [n])))
    /\ (r = Ok tt -> forall n, n ∈ names -> f' !! (esp ++ [n]) = w_fs w !! (ub ++ [n]))
    /\ (tree_fs (w_fs w) -> tree_fs f')
    /\ (forall d, is_dir (w_fs w) d = true -> is_dir f' d = true).
Proof.
  intros Hne. revert w.
  induction names as [| n0 names IH]; intros w Hesp Hrun.
  { injection Hrun as <- <-. exists (w_fs w). rewrite set_fs_same.
    repeat split; try done; [by left | ].
    intros _ n Hn. by apply elem_of_nil in Hn. }
  rewrite fmap_cons in Hrun. cbn [for_each] in Hrun. unfold bind in Hrun.
  destruct (copy2 (ub ++ [n0]) esp w) as [[[] | e] w1] eqn:Hc.
  - apply copy2_inv in Hc as [(e & ? & _) | (_ & content & Hsrc & Hw)]; [done |].
    rewrite Hesp, basename_snoc in Hw. rewrite stat_snoc in Hsrc.
    assert (is_dir (w_fs w1) esp = true) as Hesp1
      by (by eapply file_written_is_dir).
    destruct (IH w1 Hesp1 Hrun) as (f' & -> & Hframe & Hroot & Hall & Htree & Hdirs).
    assert (forall p, p <> esp ++ [n0] -> w_fs w1 !! p = w_fs w !! p) as H1.
    { intros p Hp. rewrite (file_written_lookup _ _ _ _ p Hw).
      by destruct (decide (p = esp ++ [n0])). }
    assert (w_fs w1 !! (esp ++ [n0]) = w_fs w !! (ub ++ [n0])) as H0.
    { rewrite (file_written_lookup _ _ _ _ _ Hw).
      by destruct (decide (esp ++ [n0] = esp ++ [n0])). }
    assert (forall n, w_fs w1 !! (ub ++ [n]) = w_fs w !! (ub ++ [n])) as Hub.
    { intros n. apply H1. intros Heq. by apply app_inj_tail in Heq as [? _]. }
    assert (forall n, is_file (w_fs w1) (ub ++ [n]) = is_file (w_fs w) (ub ++ [n])) as Hubf.
    { intros n. unfold is_file. by rewrite !stat_snoc, Hub. }
    assert (is_file (w_fs w) (ub ++ [n0]) = true) as Hf0.
    { apply is_file_snoc. by exists content. }
    exists f'. split.
    { destruct Hw as (q & m & _ & _ & _ & ->). done. }
    split; [| split; [| split; [| split]]].
    + intros p Hp. rewrite Hframe.
      * apply H1. apply Hp, list_elem_of_here.
      * intros n Hn. apply Hp. by apply list_elem_of_further.
    + intros n. destruct (Hroot n) as [Hsame | (Hin & Hfile & Hcopy)].
      * destruct (decide (n = n0)) as [-> | Hn].
        -- right. split; [apply list_elem_of_here |]. split; [done |].
           by rewrite Hsame, H0.
        -- left. rewrite Hsame. apply H1. intros Heq.
           by apply app_inj_tail in Heq as [_ ?].
      * right. split; [by apply list_elem_of_further |].
        rewrite <- Hubf, <- Hub. done.
    + intros Hr n Hn. destruct (decide (n ∈ names)) as [Hin | Hnin].
      * rewrite (Hall Hr n Hin). apply Hub.
      * apply elem_of_cons in Hn as [-> | Hn]; [| done].
        rewrite Hframe; [done |]. intros n Hn Heq.
        apply app_inj_tail in Heq as [_ ->]. done.
    + intros Ht. apply Htree. by eapply file_written_tree.
    + intros d Hd. apply Hdirs. by eapply file_written_is_dir.
  - injection Hrun as <- <-.
    apply copy2_inv in Hc as [(e' & _ & ->) | (? & _)]; [| done].
    exists (w_fs w). rewrite set_fs_same.
    repeat split; try done. by left.
Qed.

Section DeployModules.

Context (env : Env) (args : Args).

Let ub := user_build_path env args.
Let esp := esp_path env args.

Lemma ub_neq_esp : ub <> esp.
Proof.
  unfold ub, esp, esp_path, user_build_path, uefi_build_path.
  rewrite <- !app_assoc. intros H. apply app_inv_head in H. discriminate H.
Qed.

Lemma ub_child_not_esp_child (n m : string) : ub ++ [n] <> esp ++ [m].
Proof. intros H. apply app_inj_tail in H as [H _]. by apply ub_neq_esp. Qed.

(** The names a round copies depend on the user build directory only. *)
Lemma module_names_agree (f f' : gmap (list string) node) (module n : string) :
  (forall m, f' !! (ub ++ [m]) = f !! (ub ++ [m])) ->
  n ∈ module_names ub f' module <-> n ∈ module_names ub f module.
Proof.
  intros Hag. rewrite !elem_of_module_names.
  assert (forall m, is_file f' (ub ++ [m]) = is_file f (ub ++ [m])) as Hf.
  { intros m. unfold is_file. by rewrite !stat_snoc, Hag. }
  by rewrite !Hf.
Qed.

Lemma deploy_modules_spec (ms : list string) (w w' : World) (r : Outcome unit) :
  is_dir (w_fs w) esp = true ->
  for_each ms (deploy_module env args) w = (r, w') ->
  exists f',
    w' = set_fs f' w
    /\ (forall p, (forall n, p <> esp ++ [n]) -> f' !! p = w_fs w !! p)
    /\ (forall n, f' !! (esp ++ [n]) = w_fs w !! (esp ++ [n])
                  \/ (Exists (fun m => n ∈ module_names ub (w_fs w) m) ms
                      /\ is_file (w_fs w) (ub ++ [n]) = true
                      /\ f' !! (esp ++ [n]) = w_fs w !! (ub ++ [n])))
    /\ (r = Ok tt -> forall m n, m ∈ ms -> n ∈ module_names ub (w_fs w) m ->
          f' !! (esp ++ [n]) = w_fs w !! (ub ++ [n]))
    /\ (tree_fs (w_fs w) -> tree_fs f')
    /\ (forall d, is_dir (w_fs w) d = true -> is_dir f' d = true).
Proof.
  revert w. induction ms as [| m0 ms IH]; intros w Hesp Hrun.
  { injection Hrun as <- <-. exists (w_fs w). rewrite set_fs_same.
    repeat split; try done; [by left |].
    intros _ m n Hm. by apply elem_of_nil in Hm. }
  cbn [for_each] in Hrun. unfold bind in Hrun.
  destruct (deploy_module env args m0 w) as [r1 w1] eqn:Hm0.
  rewrite deploy_module_eq in Hm0.
  destruct (copy_names_spec _ _ _ _ _ _ ub_neq_esp Hesp Hm0)
    as (f1 & -> & Hframe1 & Hroot1 & Hall1 & Htree1 & Hdirs1).
  assert (forall p, (forall n, p <> esp ++ [n]) -> f1 !! p = w_fs w !! p) as Hout1.
  { intros p Hp. apply Hframe1. intros n _. apply Hp. }
  assert (forall n, f1 !! (ub ++ [n]) = w_fs w !! (ub ++ [n])) as Hub1.
  { intros n. apply Hout1. intros n'. apply ub_child_not_esp_child. }
  destruct r1 as [[] | e].
  - assert (is_dir (w_fs (set_fs f1 w)) esp = true) as Hesp1 by (by apply Hdirs1).
    destruct (IH _ Hesp1 Hrun) as (f' & -> & Hframe & Hroot & Hall & Htree & Hdirs).
    simpl in *.
    exists f'. split; [done |].
    split; [| split; [| split; [| split]]].
    + intros p Hp. rewrite Hframe by done. by apply Hout1.
    + intros n. destruct (Hroot n) as [Hsame | (Hex & Hfile & Hcopy)].
      * destruct (Hroot1 n) as [Hsame1 | (Hin1 & Hfile1 & Hcopy1)].
        -- left. by rewrite Hsame.
        -- right. split; [by apply Exists_cons_hd |]. split; [done |].
           by rewrite Hsame.
      * right. split; [| split].
        -- apply Exists_cons_tl. eapply Exists_impl; [exact Hex |].
           intros m Hm. by apply (module_names_agree (w_fs w) f1).
        -- unfold is_file in *. by rewrite stat_snoc, <- Hub1, <- stat_snoc.
        -- by rewrite Hcopy, Hub1.
    + intros Hr m n Hm Hn. apply elem_of_cons in Hm as [-> | Hm].
      * destruct (Hroot n) as [Hsame | (_ & _ & Hcopy)].
        -- rewrite Hsame. by apply Hall1.
        -- by rewrite Hcopy, Hub1.
      * rewrite (Hall Hr m n Hm); [apply Hub1 |].
        by apply (module_names_agree (w_fs w) f1).
    + intros Ht. by apply Htree, Htree1.
    + intros d Hd. by apply Hdirs, Hdirs1.
  - injection Hrun as <- <-. exists f1. split; [done |].
    split; [done |]. split; [| by repeat split].
    intros n. destruct (Hroot1 n) as [Hsame1 | (Hin1 & Hfile1 & Hcopy1)]; [by left |].
    right. split; [by apply Exists_cons_hd | done].
Qed.

End DeployModules.

Ltac solve_skeleton :=
  unfold esp_skeleton;
  repeat first [apply list_elem_of_here | apply list_elem_of_further].

Section DeployFixed.

Context (env : Env) (args : Args).

Let ub := user_build_path env args.
Let esp := esp_path env args.

Lemma esp_not_prefix_ub_child (n : string) : ~ esp `prefix_of` ub ++ [n].
Proof.
  unfold ub, esp, esp_path, user_build_path, uefi_build_path.
  rewrite <- !app_assoc. intros H. apply prefix_app_inv in H.
  apply prefix_cons_inv_1 in H. discriminate H.
Qed.

Lemma ub_child_not_prefix_esp_boot (n : string) :
  ~ ub ++ [n] `prefix_of` esp_boot_path env args.
Proof.
  unfold ub, esp_boot_path, esp_path, user_build_path, uefi_build_path.
  rewrite <- !app_assoc. intros H. apply prefix_app_inv in H.
  apply prefix_cons_inv_1 in H. discriminate H.
Qed.

Lemma snoc_not_nil (p : list string) (c : string) : p ++ [c] <> [].
Proof. intros H. by apply app_eq_nil in H as [_ ?]. Qed.

Lemma esp_nonempty : esp <> [].
Proof. unfold esp, esp_path. intros H. by apply app_eq_nil in H as [_ ?]. Qed.

(** The state in which the module loop of [deploy] starts. *)
Lemma deploy_fixed_spec (w0 wA : World) :
  wf_world w0 ->
  deploy_fixed env args w0 = (Ok tt, wA) ->
  wf_world wA
  /\ is_dir (w_fs wA) esp = true
  /\ (exists kern, forall n,
        w_fs wA !! (esp ++ [n])
        = if decide (n = "cmdline.in")
          then Some (File ("./kernel " +:+ format_opt_str (cmd args)))
          else if decide (n = "kernel") then Some (File kern)
          else if decide (n = "EFI") then Some Dir else None)
  /\ (forall n, n <> "bespin" -> w_fs wA !! (ub ++ [n]) = w_fs w0 !! (ub ++ [n]))
  /\ (forall q, esp `prefix_of` q -> is_Some (w_fs wA !! q) -> q ∈ esp_skeleton esp).
Proof.
  intros [Ht0 Hc0] Hrun. unfold deploy_fixed in Hrun.
  apply bind_ok_inv in Hrun as ([] & wl & Hlog & Hrun).
  apply bind_ok_inv in Hrun as ([] & w2 & Hrm & Hrun).
  apply bind_ok_inv in Hrun as ([] & w3 & Hmk & Hrun).
  apply bind_ok_inv in Hrun as (d & w4 & Hcwd & Hrun).
  apply bind_ok_inv in Hrun as ([] & w5 & Hc1 & Hrun).
  apply bind_ok_inv in Hrun as ([] & w6 & Hc2 & Hrun).
  apply bind_ok_inv in Hrun as ([] & w7 & Hc3 & Hw).
  fold esp in Hrm, Hc2, Hw.
  injection Hlog as <-.
  (* after the reset *)
  assert (tree_fs (w_fs w2)
          /\ (forall d, w_cwd w2 = Some d ->
                is_dir (w_fs w2) d = true /\ ~ esp `prefix_of` d)
          /\ (forall k, k <> [] -> w_fs w2 !! (esp ++ k) = None)
          /\ (forall q, ~ esp `prefix_of` q -> w_fs w2 !! q = w_fs w0 !! q))
    as (Ht2 & Hc2' & He2 & Hu2).
  { cbn [w_fs add_line] in Hrm.
    destruct (is_dir (w_fs w0) esp) eqn:Hesp.
    - assert (path_exists (w_fs w0) esp = true) as Hex.
      { unfold path_exists, is_dir in *. by destruct (stat (w_fs w0) esp). }
      rewrite Hex in Hrm. simpl in Hrm. injection Hrm as <-. simpl.
      split; [by apply tree_fs_remove_tree |]. split; [| split].
      + intros d0 Hd0. destruct (w_cwd w0) as [d1 |] eqn:Hd1; [| done].
        destruct (decide (esp `prefix_of` d1)) as [| Hnp]; [done |].
        injection Hd0 as <-. split; [| done].
        pose proof (Hc0 _ eq_refl) as Hd. unfold is_dir, stat in *.
        destruct d1 as [| a d1]; [done |]. rewrite lookup_remove_tree.
        by destruct (decide (esp `prefix_of` a :: d1)).
      + intros k _. rewrite lookup_remove_tree.
        destruct (decide (esp `prefix_of` esp ++ k)) as [| Hnp]; [done |].
        destruct Hnp. by apply prefix_app_r.
      + intros q Hq. rewrite lookup_remove_tree.
        by destruct (decide (esp `prefix_of` q)).
    - rewrite andb_false_r in Hrm. injection Hrm as <-. simpl.
      split; [done |]. split; [| split; [| done]].
      + intros d0 Hd0. split; [by apply Hc0 |].
        intros [k ->]. pose proof (Hc0 _ Hd0) as Hd.
        destruct (decide (k = [])) as [-> | Hk].
        * rewrite app_nil_r in Hd. congruence.
        * pose proof (tree_fs_no_children _ _ _ Ht0 Hesp Hk) as Hn.
          unfold is_dir, stat in Hd.
          destruct (esp ++ k) as [| a l] eqn:Hek.
          -- apply app_eq_nil in Hek as [? _]. by apply esp_nonempty.
          -- by rewrite Hn in Hd.
      + intros k Hk. by apply tree_fs_no_children. }
  (* after the directories are made *)
  unfold mkdir_parents in Hmk.
  destruct (mkdir_from [] (esp_boot_path env args) (w_fs w2)) as [f3 |] eqn:Hmkd; [| done].
  injection Hmk as <-.
  destruct (mkdir_from_spec _ _ _ _ Hmkd) as [Hmade Hkept]. simpl in Hmade.
  destruct (mkdir_from_tree [] _ _ _ Ht2 eq_refl Hmkd) as [Ht3 Hd3].
  assert (esp_boot_path env args = esp ++ ["EFI"; "Boot"]) as Hboot by done.
  assert (forall n, f3 !! (esp ++ [n]) = if decide (n = "EFI") then Some Dir else None) as Hs3.
  { intros n. destruct (decide (n = "EFI")) as [-> | Hn].
    - apply Hmade; [apply snoc_not_nil |]. rewrite Hboot.
      apply prefix_app, prefix_cons, prefix_nil.
    - rewrite Hkept; [by apply He2 |]. intros k _ Hk. simpl. intros <-.
      rewrite Hboot in Hk. apply prefix_app_inv, prefix_cons_inv_1 in Hk. done. }
  assert (f3 !! (esp ++ ["EFI"; "Boot"; "BootX64.efi"]) = None) as Hefi3.
  { rewrite Hkept; [by apply He2 |]. intros k _ Hk. simpl. intros <-.
    rewrite Hboot in Hk. apply prefix_app_inv, prefix_length in Hk. simpl in Hk. lia. }
  assert (is_dir f3 esp = true) as Hesp3.
  { change esp with (uefi_build_path env args ++ ["esp"]). apply is_dir_snoc.
    apply Hmade; [apply snoc_not_nil |]. rewrite Hboot. by apply prefix_app_r. }
  assert (is_dir f3 (esp ++ ["EFI"; "Boot"]) = true) as Hboot3.
  { change (esp ++ ["EFI"; "Boot"]) with (esp ++ ["EFI"] ++ ["Boot"]).
    rewrite app_assoc. apply is_dir_snoc. rewrite <- app_assoc.
    apply Hmade; [| by rewrite Hboot].
    change (esp ++ ["EFI"] ++ ["Boot"]) with (esp ++ ["EFI"; "Boot"]).
    rewrite (app_assoc esp ["EFI"] ["Boot"]) || idtac.
    intros H. by apply app_eq_nil in H as [_ ?]. }
  assert (forall n, f3 !! (ub ++ [n]) = w_fs w0 !! (ub ++ [n])) as Hu3.
  { intros n. rewrite Hkept.
    - apply Hu2, esp_not_prefix_ub_child.
    - intros k _ Hk. simpl. intros <-. by apply ub_child_not_prefix_esp_boot in Hk. }
  assert (wf_world (set_fs f3 w2)) as Hwf3.
  { split; [done |]. simpl. intros d1 Hd1. apply Hd3. by destruct (Hc2' _ Hd1). }
  (* the working directory *)
  unfold getcwd in Hcwd. simpl in Hcwd.
  destruct (w_cwd w2) as [d0 |] eqn:Hd0; [| done].
  destruct (is_dir f3 d0) eqn:Hdd; [| done].
  injection Hcwd as -> <-.
  destruct (Hc2' _ eq_refl) as [_ Hnp].
  (* the kernel next to the caller *)
  apply copy2_inv in Hc1 as [(e & ? & _) | (_ & k1 & _ & Hw5)]; [done |].
  simpl in Hw5. rewrite Hdd, basename_snoc in Hw5.
  assert (forall q, q <> d ++ ["bespin"] -> w_fs w5 !! q = f3 !! q) as H5.
  { intros q Hq. rewrite (file_written_lookup _ _ _ _ q Hw5).
    by destruct (decide (q = d ++ ["bespin"])). }
  assert (forall n, esp ++ [n] <> d ++ ["bespin"]) as Hne5.
  { intros n Heq. apply app_inj_tail in Heq as [<- _]. by apply Hnp. }
  (* the kernel in the ESP *)
  apply copy2_inv in Hc2 as [(e & ? & _) | (_ & kern & _ & Hw6)]; [done |].
  assert (is_dir (w_fs w5) (esp ++ ["kernel"]) = false) as Hk5.
  { unfold is_dir. rewrite stat_snoc, H5, Hs3 by apply Hne5. done. }
  rewrite Hk5 in Hw6.
  (* the bootloader *)
  apply copy2_inv in Hc3 as [(e & ? & _) | (_ & boot & _ & Hw7)]; [done |].
  assert (esp_boot_path env args ++ ["BootX64.efi"]
          = (esp ++ ["EFI"; "Boot"]) ++ ["BootX64.efi"]) as Hefi by done.
  assert (is_dir (w_fs w6) (esp_boot_path env args ++ ["BootX64.efi"]) = false) as Hb6.
  { rewrite Hefi. unfold is_dir. rewrite stat_snoc.
    rewrite (file_written_lookup _ _ _ _ _ Hw6).
    destruct (decide (_ = esp ++ ["kernel"])) as [Heq | _].
    { apply (f_equal List.length) in Heq. rewrite !length_app in Heq. simpl in Heq. lia. }
    rewrite H5.
    - rewrite <- app_assoc. simpl. by rewrite Hefi3.
    - intros Heq. apply app_inj_tail in Heq as [_ ?]. done. }
  rewrite Hb6 in Hw7.
  (* the command line *)
  apply write_file_inv in Hw as [(e & ? & _) | (_ & HwA)]; [done |].
  split; [| split; [| split; [| split]]].
  - eapply file_written_wf; [exact HwA |]. eapply file_written_wf; [exact Hw7 |].
    eapply file_written_wf; [exact Hw6 |]. by eapply file_written_wf.
  - eapply file_written_is_dir; [exact HwA |]. eapply file_written_is_dir; [exact Hw7 |].
    eapply file_written_is_dir; [exact Hw6 |]. by eapply file_written_is_dir.
  - exists kern. intros n.
    rewrite (file_written_lookup _ _ _ _ _ HwA).
    destruct (decide (esp ++ [n] = esp ++ ["cmdline.in"])) as [Heq | Hne];
      destruct (decide (n = "cmdline.in")) as [-> | Hn]; try done.
    { by apply app_inj_tail in Heq as [_ ?]. }
    rewrite (file_written_lookup _ _ _ _ _ Hw7).
    destruct (decide (esp ++ [n] = esp_boot_path env args ++ ["BootX64.efi"])) as [Heq | _].
    { rewrite Hefi in Heq. apply (f_equal List.length) in Heq.
      rewrite !length_app in Heq. simpl in Heq. lia. }
    rewrite (file_written_lookup _ _ _ _ _ Hw6).
    destruct (decide (esp ++ [n] = esp ++ ["kernel"])) as [Heq | Hne'];
      destruct (decide (n = "kernel")) as [-> | Hn']; try done.
    { by apply app_inj_tail in Heq as [_ ?]. }
    rewrite H5 by apply Hne5. apply Hs3.
  - intros n Hn.
    rewrite (file_written_lookup _ _ _ _ _ HwA).
    destruct (decide (ub ++ [n] = esp ++ ["cmdline.in"])) as [Heq | _].
    { by apply ub_child_not_esp_child in Heq. }
    rewrite (file_written_lookup _ _ _ _ _ Hw7).
    destruct (decide (ub ++ [n] = esp_boot_path env args ++ ["BootX64.efi"])) as [Heq | _].
    { rewrite Hefi in Heq. apply app_inj_tail in Heq as [Heq _].
      unfold ub, esp, esp_path, user_build_path, uefi_build_path in Heq.
      rewrite <- !app_assoc in Heq. apply app_inv_head in Heq. discriminate Heq. }
    rewrite (file_written_lookup _ _ _ _ _ Hw6).
    destruct (decide (ub ++ [n] = esp ++ ["kernel"])) as [Heq | _].
    { by apply ub_child_not_esp_child in Heq. }
    rewrite H5; [apply Hu3 |]. intros Heq. by apply app_inj_tail in Heq as [_ ?].
  - intros q [k ->] Hq.
    rewrite (file_written_lookup _ _ _ _ _ HwA) in Hq.
    destruct (decide (esp ++ k = esp ++ ["cmdline.in"])) as [-> | _]; [solve_skeleton |].
    rewrite (file_written_lookup _ _ _ _ _ Hw7) in Hq.
    destruct (decide (esp ++ k = esp_boot_path env args ++ ["BootX64.efi"])) as [-> | _].
    { rewrite Hefi, <- app_assoc. solve_skeleton. }
    rewrite (file_written_lookup _ _ _ _ _ Hw6) in Hq.
    destruct (decide (esp ++ k = esp ++ ["kernel"])) as [-> | _]; [solve_skeleton |].
    rewrite H5 in Hq.
    2:{ intros Heq. destruct (decide (k = [])) as [-> | Hk].
        - rewrite app_nil_r in Heq. unfold esp, esp_path in Heq.
          by apply app_inj_tail in Heq as [_ ?].
        - destruct (exists_last Hk) as (k' & c & ->). rewrite app_assoc in Heq.
          apply app_inj_tail in Heq as [<- _]. apply Hnp. by apply prefix_app_r. }
    destruct (decide (esp ++ k `prefix_of` esp_boot_path env args)) as [Hpre | Hnpre].
    + rewrite Hboot in Hpre. apply prefix_app_inv in Hpre.
      destruct k as [| a [| b [| c k]]].
      * rewrite app_nil_r. solve_skeleton.
      * apply prefix_cons_inv_1 in Hpre as ->. solve_skeleton.
      * pose proof (prefix_cons_inv_1 _ _ _ _ Hpre) as ->.
        apply prefix_cons_inv_2, prefix_cons_inv_1 in Hpre as ->. solve_skeleton.
      * apply prefix_length in Hpre. simpl in Hpre. lia.
    + rewrite Hkept in Hq.
      2:{ intros k' _ Hk'. simpl. by intros <-. }
      destruct (decide (k = [])) as [-> | Hk].
      * destruct Hnpre. rewrite app_nil_r, Hboot. by apply prefix_app_r.
      * rewrite He2 in Hq by done. by destruct Hq.
Qed.

End DeployFixed.

Lemma tree_fs_check_sound (f : gmap (list string) node) :
  tree_fs_check f = true -> tree_fs f.
Proof.
  intros H p c [x Hx]. unfold tree_fs_check in H. rewrite forallb_forall in H.
  specialize (H (p ++ [c], x)). simpl in H. rewrite parent_snoc in H.
  apply H. apply list_elem_of_In. by apply elem_of_map_to_list.
Qed.

Section Deploy.

Context (env : Env) (args : Args).

Let ub := user_build_path env args.
Let esp := esp_path env args.


Lemma module_names_deployed_by (f : gmap (list string) node) (n : string) :
  Exists (fun m => n ∈ module_names ub f m) (mods args) -> deployed_by args n.
Proof.
  intros Hex. apply Exists_exists in Hex as (m & Hm & Hn).
  apply elem_of_module_names in Hn as [_ [[Hne ->] | (-> & Hbin & _)]].
  - by left.
  - by right.
Qed.

(** The result of a deployment that went through. *)
Lemma deploy_spec (w0 w' : World) :
  wf_world w0 ->
  deploy env args w0 = (Ok tt, w') ->
  wf_world w'
  /\ (forall q, esp `prefix_of` q -> is_Some (w_fs w' !! q) ->
        q ∈ esp_skeleton esp
        \/ exists n, q = esp ++ [n] /\ deployed_by args n
                     /\ is_file (w_fs w') (ub ++ [n]) = true
                     /\ w_fs w' !! q = w_fs w' !! (ub ++ [n]))
  /\ (forall m n, m ∈ mods args -> n ∈ module_names ub (w_fs w') m ->
        w_fs w' !! (esp ++ [n]) = w_fs w' !! (ub ++ [n]))
  /\ (forall n, n <> "bespin" -> w_fs w' !! (ub ++ [n]) = w_fs w0 !! (ub ++ [n])).
Proof.
  intros Hwf Hrun. unfold deploy in Hrun.
  apply bind_ok_inv in Hrun as ([] & wA & Hfix & Hloop).
  destruct (deploy_fixed_spec _ _ _ _ Hwf Hfix) as (HwfA & HespA & _ & HubA & HskA).
  fold esp ub in HespA, HubA, HskA.
  destruct (deploy_modules_spec _ _ _ _ _ _ HespA Hloop)
    as (f' & -> & Hframe & Hroot & Hall & Htree & Hdirs).
  fold esp ub in Hframe, Hroot, Hall. simpl.
  assert (forall n, f' !! (ub ++ [n]) = w_fs wA !! (ub ++ [n])) as Hub.
  { intros n. apply Hframe. intros n'. apply ub_child_not_esp_child. }
  assert (forall n, is_file f' (ub ++ [n]) = is_file (w_fs wA) (ub ++ [n])) as Hubf.
  { intros n. unfold is_file. by rewrite !stat_snoc, Hub. }
  split; [| split; [| split]].
  - destruct HwfA as [HtA HcA]. split; [by apply Htree |].
    simpl. intros d Hd. by apply Hdirs, HcA.
  - intros q Hpre Hq.
    assert ((exists n, q = esp ++ [n]) \/ (forall n, q <> esp ++ [n])) as [[n ->] | Hnot].
    { destruct Hpre as [k ->]. destruct k as [| n [| c k]].
      - right. intros n Heq. rewrite app_nil_r in Heq. by apply snoc_neq_self in Heq.
      - left. by exists n.
      - right. intros n' Heq. apply app_inv_head in Heq. discriminate Heq. }
    + destruct (Hroot n) as [Hsame | (Hex & Hfile & Hcopy)].
      * left. apply HskA; [done |]. by rewrite <- Hsame.
      * right. exists n. split; [done |].
        split; [by eapply module_names_deployed_by |].
        split; [by rewrite Hubf |]. by rewrite Hcopy, Hub.
    + left. apply HskA; [done |]. by rewrite <- Hframe.
  - intros m n Hm Hn. rewrite (Hall eq_refl m n Hm), Hub; [done |].
    by apply (module_names_agree env args (w_fs wA) f').
  - intros n Hn. rewrite Hub. by apply HubA.
Qed.

End Deploy.


(* --------------------------------------------------------------------- *)
(** *** Deployment *)
(* --------------------------------------------------------------------- *)

Lemma run_ok {A} (m : M A) (w : World) (a : A) :
  (m w).1 = Ok a -> m w = (Ok a, (m w).2).
Proof. destruct (m w) as [r w']. simpl. by intros ->. Qed.

Lemma sample_world_wf : wf_world sample_world.
Proof.
  split.
  - apply tree_fs_check_sound. vm_compute. reflexivity.
  - intros d [= <-]. vm_compute. reflexivity.
Qed.



(** C6 (as the script has it). For module names that are single plain
    path components: when rkapps is selected and the user build
    directory holds a regular file named [rkapps], a deployment that
    goes through leaves in the ESP root, under every name with the
    extension [.bin], exactly the regular file of that name in the user
    build directory, and nothing where there is no such file, however
    many there are; and it copies nothing else for rkapps: a name
    without the extension that is not another selected module (the name
    [rkapps] itself included) and not one of the three fixed names has
    no entry in the ESP root. *)
Theorem rkapps_binaries_deployed (env : Env) (args : Args) (w w' : World) (n : string) :
  Forall plain_name (mods args) ->
  wf_world w ->
  "rkapps" ∈ mods args ->
  is_file (w_fs w) (user_build_path env args ++ ["rkapps"]) = true ->
  deploy env args w = (Ok tt, w') ->
  (ends_with ".bin" n = true ->
   w_fs w' !! (esp_path env args ++ [n])
   = file_only (w_fs w !! (user_build_path env args ++ [n])))
  /\ (ends_with ".bin" n = false ->
      n ∉ mods args \/ n = "rkapps" ->
      n <> "EFI" -> n <> "kernel" -> n <> "cmdline.in" ->
      w_fs w' !! (esp_path env args ++ [n]) = None).
Proof.
  intros _ Hwf Hsel Hrk Hrun.
  destruct (deploy_spec _ _ _ _ Hwf Hrun) as (_ & Htree & Hall & Hub).
  split.
  - intros Hbin.
    assert (n <> "bespin") as Hn by (by intros ->).
    assert (is_file (w_fs w') (user_build_path env args ++ ["rkapps"]) = true) as Hrk'.
    { unfold is_file in *. rewrite stat_snoc, Hub by done. by rewrite <- stat_snoc. }
    destruct (is_file (w_fs w) (user_build_path env args ++ [n])) eqn:Hfile.
    + assert (is_file (w_fs w') (user_build_path env args ++ [n]) = true) as Hfile'.
      { unfold is_file in *. rewrite stat_snoc, Hub by done. by rewrite <- stat_snoc. }
      rewrite (Hall "rkapps" n Hsel).
      * rewrite Hub by done. apply is_file_snoc in Hfile as [c ->]. done.
      * apply elem_of_module_names. split; [done |]. by right.
    + assert (file_only (w_fs w !! (user_build_path env args ++ [n])) = None) as ->.
      { unfold is_file in Hfile. rewrite stat_snoc in Hfile.
        by destruct (w_fs w !! (user_build_path env args ++ [n])) as [[| c] |]. }
      destruct (w_fs w' !! (esp_path env args ++ [n])) as [x |] eqn:Hx; [| done].
      destruct (Htree (esp_path env args ++ [n])) as [Hsk | (n' & Heq & _ & Hf' & _)].
      * by apply prefix_app_r.
      * by rewrite Hx.
      * exfalso. unfold esp_skeleton in Hsk.
        apply elem_of_cons in Hsk as [Hsk | Hsk];
          [symmetry in Hsk; by apply snoc_neq_self in Hsk |].
        repeat (apply elem_of_cons in Hsk as [Hsk | Hsk];
                [ apply app_inv_head in Hsk;
                  first [ discriminate Hsk
                        | injection Hsk as ->; vm_compute in Hbin; discriminate Hbin ] |]).
        by apply elem_of_nil in Hsk.
      * apply app_inj_tail in Heq as [_ <-].
        unfold is_file in *. rewrite stat_snoc, Hub in Hf' by done.
        rewrite stat_snoc in Hfile. by rewrite Hf' in Hfile.
  - intros Hbin Hother H1 H2 H3.
    destruct (w_fs w' !! (esp_path env args ++ [n])) as [x |] eqn:Hx; [| done].
    destruct (Htree (esp_path env args ++ [n])) as [Hsk | (n' & Heq & Hdep & _)].
    + by apply prefix_app_r.
    + by rewrite Hx.
    + exfalso. unfold esp_skeleton in Hsk. rewrite !elem_of_cons, elem_of_nil in Hsk.
      destruct Hsk as [H | [H | [H | [H | [H | [H | []]]]]]].
      * symmetry in H. by apply snoc_neq_self in H.
      * apply app_inv_head in H. congruence.
      * apply app_inv_head in H. discriminate H.
      * apply app_inv_head in H. discriminate H.
      * apply app_inv_head in H. congruence.
      * apply app_inv_head in H. congruence.
    + exfalso. apply app_inj_tail in Heq as [_ <-].
      destruct Hdep as [[Hin Hne] | [_ Hb]]; [| congruence].
      by destruct Hother.
Qed.

Lemma rkapps_binaries_deployed_witness :
  w_fs (deploy sample_env (sample_args "qemu" None None) sample_world).2
    !! (esp_path sample_env (sample_args "qemu" None None) ++ ["redis.bin"])
  = file_only (w_fs sample_world
                 !! (user_build_path sample_env (sample_args "qemu" None None)
                       ++ ["redis.bin"]))
  /\ w_fs (deploy sample_env (sample_args "qemu" None None) sample_world).2
       !! (esp_path sample_env (sample_args "qemu" None None) ++ ["rkapps"])
     = None.
Proof.
  assert (wf_world sample_world) as Hwf.
  { split.
    - apply tree_fs_check_sound. vm_compute. reflexivity.
    - intros d [= <-]. vm_compute. reflexivity. }
  assert ("rkapps" ∈ mods (sample_args "qemu" None None)) as Hsel.
  { apply (bool_decide_unpack _). vm_compute. exact I. }
  assert (deploy sample_env (sample_args "qemu" None None) sample_world
          = (Ok tt, (deploy sample_env (sample_args "qemu" None None) sample_world).2))
    as Hrun.
  { apply run_ok. vm_compute. reflexivity. }
  split.
  - apply (rkapps_binaries_deployed sample_env (sample_args "qemu" None None)
             sample_world
             (deploy sample_env (sample_args "qemu" None None) sample_world).2
             "redis.bin" (sample_mods_plain _ _ _) Hwf Hsel eq_refl Hrun).
    reflexivity.
  - apply (rkapps_binaries_deployed sample_env (sample_args "qemu" None None)
             sample_world
             (deploy sample_env (sample_args "qemu" None None) sample_world).2
             "rkapps" (sample_mods_plain _ _ _) Hwf Hsel eq_refl Hrun).
    + reflexivity.
    + right. reflexivity.
    + discriminate.
    + discriminate.
    + discriminate.
Defined.

(** The rkapps binary itself and a file without the extension are not
    copied by the sample deployment. *)
Example rkapps_copies_binaries_only :
  w_fs (deploy sample_env (sample_args "qemu" None None) sample_world).2
    !! (esp_path sample_env (sample_args "qemu" None None) ++ ["rkapps"]) = None
  /\ w_fs (deploy sample_env (sample_args "qemu" None None) sample_world).2
       !! (esp_path sample_env (sample_args "qemu" None None) ++ ["redis.bin"])
     = Some (File "redis")
  /\ w_fs (deploy sample_env (sample_args "qemu" None None) sample_world).2
       !! (esp_path sample_env (sample_args "qemu" None None) ++ ["nginx.bin"])
     = Some (File "nginx").
Proof. by vm_compute. Qed.

(** C6, the case that fails: rkapps is selected and the user build
    directory holds [redis.bin] and [nginx.bin] but no file named
    [rkapps]; the deployment goes through and copies neither. *)
Lemma rkapps_without_own_binary_copies_nothing :
  "rkapps" ∈ mods (sample_args "qemu" None None)
  /\ (deploy sample_env (sample_args "qemu" None None) sample_world_no_rkapps).1 = Ok tt
  /\ w_fs sample_world_no_rkapps
       !! (user_build_path sample_env (sample_args "qemu" None None) ++ ["redis.bin"])
     = Some (File "redis")
  /\ w_fs (deploy sample_env (sample_args "qemu" None None) sample_world_no_rkapps).2
       !! (esp_path sample_env (sample_args "qemu" None None) ++ ["redis.bin"])
     = None
  /\ ~ (forall (env : Env) (args : Args) (w w' : World) (n : string),
          "rkapps" ∈ mods args ->
          deploy env args w = (Ok tt, w') ->
          ends_with ".bin" n = true ->
          w_fs w' !! (esp_path env args ++ [n])
          = file_only (w_fs w !! (user_build_path env args ++ [n]))).
Proof.
  assert ("rkapps" ∈ mods (sample_args "qemu" None None)) as Hsel.
  { apply (bool_decide_unpack _). vm_compute. exact I. }
  split; [exact Hsel |]. split; [by vm_compute |].
  split; [by vm_compute |]. split; [by vm_compute |].
  intros H.
  specialize (H sample_env (sample_args "qemu" None None) sample_world_no_rkapps
                (deploy sample_env (sample_args "qemu" None None) sample_world_no_rkapps).2
                "redis.bin" Hsel).
  assert (deploy sample_env (sample_args "qemu" None None) sample_world_no_rkapps
          = (Ok tt,
             (deploy sample_env (sample_args "qemu" None None) sample_world_no_rkapps).2))
    as Hrun by (apply run_ok; by vm_compute).
  specialize (H Hrun eq_refl). vm_compute in H. discriminate H.
Qed.




(* --------------------------------------------------------------------- *)
(** *** The diagnostic line names the exit code *)
(* --------------------------------------------------------------------- *)

Lemma list_ascii_of_string_app (s1 s2 : string) :
  list_ascii_of_string (s1 +:+ s2) = list_ascii_of_string s1 ++ list_ascii_of_string s2.
Proof.
  induction s1 as [| a s1 IH]; [done |].
  change (String a s1 +:+ s2) with (String a (s1 +:+ s2)). simpl. by rewrite IH.
Qed.

Lemma string_app_inv_tail (s1 s2 t : string) : s1 +:+ t = s2 +:+ t -> s1 = s2.
Proof.
  intros H. apply (f_equal list_ascii_of_string) in H.
  rewrite !list_ascii_of_string_app in H. apply app_inv_tail in H.
  apply (f_equal string_of_list_ascii) in H.
  by rewrite !string_of_list_ascii_of_string in H.
Qed.

Lemma unknown_status_line_inj (c1 c2 : Z) :
  unknown_status_line c1 = unknown_status_line c2 -> c1 = c2.
Proof.
  unfold unknown_status_line, format_int. intros H.
  apply (f_equal list_ascii_of_string) in H.
  rewrite !list_ascii_of_string_app in H. apply app_inv_head in H.
  rewrite <- !list_ascii_of_string_app in H.
  apply (f_equal string_of_list_ascii) in H.
  rewrite !string_of_list_ascii_of_string in H.
  apply string_app_inv_tail in H. by apply (inj pretty).
Qed.

Lemma unknown_status_line_head (c : Z) :
  exists rest, unknown_status_line c = "[FAIL] K" +:+ rest.
Proof. unfold unknown_status_line. by eexists. Qed.

Lemma outcome_line_inj (o1 o2 : ExitOutcome) :
  outcome_line o1 = outcome_line o2 -> o1 = o2.
Proof.
  destruct o1, o2; simpl; intros H; try reflexivity; try discriminate H.
  all: try (destruct (unknown_status_line_head code) as [rest Hr];
            rewrite Hr in H; discriminate H).
  f_equal. by apply unknown_status_line_inj.
Qed.

Lemma spec_outcome_of_code_inj (c1 c2 : Z) :
  spec_outcome_of_code c1 = spec_outcome_of_code c2 -> c1 = c2.
Proof.
  assert (forall c, 0 <= c <= 9 ->
            c = 0 \/ c = 1 \/ c = 2 \/ c = 3 \/ c = 4 \/ c = 5 \/ c = 6 \/ c = 7
            \/ c = 8 \/ c = 9) as Hcases by (intros; lia).
  destruct (decide (0 <= c1 <= 9)) as [H1 | H1];
    destruct (decide (0 <= c2 <= 9)) as [H2 | H2].
  - apply Hcases in H1, H2.
    repeat (destruct H1 as [-> | H1]); try subst c1;
      repeat (destruct H2 as [-> | H2]); try subst c2; simpl; intros H;
      first [reflexivity | discriminate H].
  - rewrite (spec_outcome_outside c2 H2). apply Hcases in H1.
    repeat (destruct H1 as [-> | H1]); try subst c1; simpl; intros H; discriminate H.
  - rewrite (spec_outcome_outside c1 H1). apply Hcases in H2.
    repeat (destruct H2 as [-> | H2]); try subst c2; simpl; intros H; discriminate H.
  - rewrite (spec_outcome_outside c1 H1), (spec_outcome_outside c2 H2).
    by intros [= ->].
Qed.

(** X1. The line printed for a kernel exit code determines the code: two
    raw statuses whose translation prints the same line give the same
    code. *)
Theorem exit_line_determines_code (returncode1 returncode2 : Z) :
  snd (translate_exit_status returncode1) = snd (translate_exit_status returncode2) ->
  fst (translate_exit_status returncode1) = fst (translate_exit_status returncode2).
Proof.
  unfold translate_exit_status. simpl. rewrite !exit_code_line_spec. intros H.
  by apply spec_outcome_of_code_inj, outcome_line_inj.
Qed.

Lemma exit_line_determines_code_witness :
  fst (translate_exit_status 4) = fst (translate_exit_status 5).
Proof. apply (exit_line_determines_code 4 5). vm_compute. reflexivity. Defined.


(* --------------------------------------------------------------------- *)
(** *** The command string of the emulator *)
(* --------------------------------------------------------------------- *)

Lemma py_split_aux_token_prefix (cur : list ascii) (t s : string) :
  forallb nonspace (list_ascii_of_string t) = true ->
  py_split_aux cur (t +:+ s) = py_split_aux (rev (list_ascii_of_string t) ++ cur) s.
Proof.
  revert cur. induction t as [| a t IH]; intros cur Ht; [done |].
  change (String a t +:+ s) with (String a (t +:+ s)).
  simpl in Ht. apply andb_true_iff in Ht as [Ha Ht].
  cbn [py_split_aux]. unfold nonspace in Ha.
  destruct (py_isspace a); [done |].
  rewrite IH by done. simpl. by rewrite <- app_assoc.
Qed.

Lemma py_split_aux_token_end (t : string) :
  is_token t -> py_split_aux (rev (list_ascii_of_string t)) "" = [t].
Proof.
  intros [Hne _]. simpl.
  destruct (rev (list_ascii_of_string t)) as [| c l] eqn:Hr.
  - apply (f_equal (@rev ascii)) in Hr. rewrite rev_involutive in Hr. simpl in Hr.
    apply (f_equal string_of_list_ascii) in Hr.
    rewrite string_of_list_ascii_of_string in Hr. done.
  - rewrite <- Hr, rev_involutive. by rewrite string_of_list_ascii_of_string.
Qed.

(** Tokens joined by single blanks split back into the same tokens. *)
Lemma py_split_join (l : list string) :
  Forall is_token l -> py_split (join " " l) = l.
Proof.
  unfold py_split. induction l as [| x l IH]; intros Hl; [done |].
  apply Forall_cons in Hl as [Hx Hl].
  destruct l as [| y l].
  - simpl. replace x with (x +:+ "") at 1.
    + rewrite py_split_aux_token_prefix by apply Hx. rewrite app_nil_r.
      by apply py_split_aux_token_end.
    + clear. induction x as [| a x IHx]; [done |].
      change (String a x +:+ "") with (String a (x +:+ "")). by rewrite IHx.
  - change (join " " (x :: y :: l)) with (x +:+ " " +:+ join " " (y :: l)).
    rewrite py_split_aux_token_prefix by apply Hx. rewrite app_nil_r.
    change (" " +:+ join " " (y :: l)) with (String " " (join " " (y :: l))).
    cbn [py_split_aux]. change (py_isspace " ") with true. cbn iota.
    destruct (rev (list_ascii_of_string x)) as [| c r] eqn:Hr.
    + destruct Hx as [Hne _]. apply (f_equal (@rev ascii)) in Hr.
      rewrite rev_involutive in Hr. simpl in Hr.
      apply (f_equal string_of_list_ascii) in Hr.
      rewrite string_of_list_ascii_of_string in Hr. done.
    + rewrite <- Hr, rev_involutive, string_of_list_ascii_of_string.
      by rewrite IH.
Qed.

Lemma is_token_app (s1 s2 : string) :
  is_token s1 -> forallb nonspace (list_ascii_of_string s2) = true ->
  is_token (s1 +:+ s2).
Proof.
  intros [Hne H1] H2. split.
  - destruct s1 as [| a s1]; [done |]. discriminate.
  - rewrite list_ascii_of_string_app, forallb_app. by rewrite H1, H2.
Qed.

Lemma is_token_app_l (s1 s2 : string) :
  is_token s1 -> is_token s2 -> is_token (s1 +:+ s2).
Proof. intros H1 [_ H2]. by apply is_token_app. Qed.

Lemma is_token_literal (s : string) :
  negb (String.eqb s "") && forallb nonspace (list_ascii_of_string s) = true ->
  is_token s.
Proof.
  intros H. apply andb_true_iff in H as [Hne Hs]. split; [| done].
  intros ->. discriminate Hne.
Qed.

Ltac solve_token :=
  first [ assumption
        | apply is_token_literal; reflexivity
        | apply is_token_app_l; solve_token ].

Ltac solve_tokens :=
  repeat match goal with
         | |- Forall is_token (_ ++ _) => apply Forall_app; split
         | |- Forall is_token (_ :: _) => apply Forall_cons; split; [solve_token |]
         | |- Forall is_token [] => apply Forall_nil_2
         end.

Lemma qemu_args_tokens (env : Env) (args : Args) :
  is_token (path_str (BOOTLOADER_PATH env)) ->
  is_token (path_str (esp_path env args)) ->
  Forall is_token (qemu_args env args).
Proof.
  intros Hb He.
  assert (Forall is_token (qemu_base_args env args)) as Hbase.
  { unfold qemu_base_args. cbv zeta.
    destruct (qemu_debug_cpu args), (qemu_monitor args); solve_tokens. }
  unfold qemu_args, qemu_default_args, truthy_opt_str.
  destruct (qemu_settings args) as [settings |]; cbv zeta.
  - destruct (truthy_str settings); cbn [negb].
    + apply Forall_app. split; [done |]. by apply py_split_aux_tokens.
    + solve_tokens. done.
  - cbn [negb]. solve_tokens. done.
Qed.

(** X2. The command string the launch stage builds (the program name
    and the arguments joined by single blanks) is unambiguous as a
    blank-separated list: when the bootloader and ESP paths hold no
    whitespace, splitting it at whitespace, as [str.split] does, gives
    exactly the program name followed by the argument vector, the tokens
    of a settings string included.  This is a statement about the string
    only: the shell that is given it reads quotes, dollar signs and
    patterns in its own way, which is not covered. *)
Theorem qemu_command_splits_back (env : Env) (args : Args) :
  is_token (path_str (BOOTLOADER_PATH env)) ->
  is_token (path_str (esp_path env args)) ->
  py_split (join " " ("qemu-system-x86_64" :: qemu_args env args))
  = "qemu-system-x86_64" :: qemu_args env args.
Proof.
  intros Hb He. apply py_split_join. apply Forall_cons.
  split; [apply is_token_literal; reflexivity |]. by apply qemu_args_tokens.
Qed.

Lemma qemu_command_splits_back_witness :
  py_split (join " " ("qemu-system-x86_64"
                        :: qemu_args sample_env
                             (sample_args "qemu" (Some " -m  2048 -smp 2 ") None)))
  = "qemu-system-x86_64"
    :: qemu_args sample_env (sample_args "qemu" (Some " -m  2048 -smp 2 ") None).
Proof.
  apply (qemu_command_splits_back sample_env
           (sample_args "qemu" (Some " -m  2048 -smp 2 ") None)).
  - apply is_token_literal. vm_compute. reflexivity.
  - apply is_token_literal. vm_compute. reflexivity.
Defined.

Example qemu_settings_tokens_sample :
  qemu_args sample_env (sample_args "qemu" (Some " -m  2048 -smp 2 ") None)
  = qemu_base_args sample_env (sample_args "qemu" (Some " -m  2048 -smp 2 ") None)
    ++ ["-m"; "2048"; "-smp"; "2"].
Proof. vm_compute. reflexivity. Qed.


(* --------------------------------------------------------------------- *)
(** *** What the stages leave alone *)
(* --------------------------------------------------------------------- *)

Lemma quiet_steady {A} (m : M A) : quiet m -> steady m.
Proof. intros H w w' r Hm. by destruct (H _ _ _ Hm). Qed.

Lemma quiet_ret {A} (a : A) : quiet (ret a).
Proof. by intros w w' r [= <- <-]. Qed.

Lemma quiet_raise {A} (e : exn) : quiet (@raise A e).
Proof. by intros w w' r [= <- <-]. Qed.

Lemma quiet_bind {A B} (m : M A) (k : A -> M B) :
  quiet m -> (forall a, quiet (k a)) -> quiet (bind m k).
Proof.
  intros Hm Hk w w' r. unfold bind.
  destruct (m w) as [[a | e] w1] eqn:Hmw.
  - intros Hkw. destruct (Hm _ _ _ Hmw) as [H1 H2].
    destruct (Hk a _ _ _ Hkw) as [H3 H4]. split; congruence.
  - intros [= <- <-]. by apply (Hm _ _ _ Hmw).
Qed.

Lemma quiet_for_each {A} (l : list A) (body : A -> M unit) :
  (forall x, quiet (body x)) -> quiet (for_each l body).
Proof.
  intros Hb. induction l as [| x l IH]; simpl; [apply quiet_ret |].
  apply quiet_bind; [apply Hb | done].
Qed.

Lemma quiet_print (line : string) : quiet (print line).
Proof. by intros w w' r [= <- <-]. Qed.

Lemma quiet_log (msg : string) : quiet (log msg).
Proof. apply quiet_print. Qed.

Lemma quiet_rmtree (p : list string) : quiet (rmtree p).
Proof. by intros w w' r [= <- <-]. Qed.

Lemma quiet_mkdir_parents (p : list string) : quiet (mkdir_parents p).
Proof.
  intros w w' r. unfold mkdir_parents.
  by destruct (mkdir_from [] p (w_fs w)); intros [= <- <-].
Qed.

Lemma quiet_write_file (p : list string) (content : string) :
  quiet (write_file p content).
Proof.
  intros w w' r. unfold write_file.
  by destruct (write_node p content (w_fs w)); intros [= <- <-].
Qed.

Lemma quiet_copy2 (src dst : list string) : quiet (copy2 src dst).
Proof.
  intros w w' r. unfold copy2.
  destruct (_ && _); [by intros [= <- <-] |].
  destruct (stat (w_fs w) src) as [[| content] |];
    [by intros [= <- <-] | apply quiet_write_file | by intros [= <- <-]].
Qed.

Lemma quiet_getcwd : quiet getcwd.
Proof.
  intros w w' r. unfold getcwd.
  destruct (w_cwd w) as [d |]; [| by intros [= <- <-]].
  by destruct (is_dir (w_fs w) d); intros [= <- <-].
Qed.

Lemma quiet_chdir (p : list string) : quiet (chdir p).
Proof.
  intros w w' r. unfold chdir.
  by destruct (stat (w_fs w) p) as [[| c] |]; intros [= <- <-].
Qed.

Lemma steady_bind {A B} (m : M A) (k : A -> M B) :
  steady m -> (forall a, steady (k a)) -> steady (bind m k).
Proof.
  intros Hm Hk w w' r. unfold bind.
  destruct (m w) as [[a | e] w1] eqn:Hmw.
  - intros Hkw. rewrite (Hk a _ _ _ Hkw). by apply (Hm _ _ _ Hmw).
  - intros [= <- <-]. by apply (Hm _ _ _ Hmw).
Qed.

Lemma steady_for_each {A} (l : list A) (body : A -> M unit) :
  (forall x, steady (body x)) -> steady (for_each l body).
Proof.
  intros Hb. induction l as [| x l IH]; simpl; [apply quiet_steady, quiet_ret |].
  apply steady_bind; [apply Hb | done].
Qed.

Lemma steady_with_cwd {A} (p : list string) (body : M A) :
  steady body -> steady (with_cwd p body).
Proof.
  intros Hb w w' r. unfold with_cwd.
  destruct (chdir p w) as [[[] | e] w1] eqn:Hc.
  - destruct (quiet_chdir _ _ _ _ Hc) as [_ H1].
    destruct (body w1) as [r2 w2] eqn:Hbody. pose proof (Hb _ _ _ Hbody) as H2.
    destruct (w_cwd w) as [d |].
    + destruct (chdir d w2) as [[[] | e] w3] eqn:Hc3;
        destruct (quiet_chdir _ _ _ _ Hc3) as [_ H3]; intros [= <- <-]; congruence.
    + intros [= <- <-]. congruence.
  - intros [= <- <-]. by destruct (quiet_chdir _ _ _ _ Hc).
Qed.

Section StagesExtra.

Context (env : Env).

Lemma steady_xargo (rtp : list string) (build_args : list string) :
  steady (xargo env rtp build_args).
Proof.
  intros w w' r. unfold xargo.
  destruct (w_cwd w) as [d |]; [| by intros [= <- <-]].
  destruct (run_xargo env _ _) as [ok f]. by destruct ok; intros [= <- <-].
Qed.

Lemma steady_build_bootloader (args : Args) : steady (build_bootloader env args).
Proof.
  unfold build_bootloader.
  apply steady_bind; [apply quiet_steady, quiet_log | intros _].
  intros w w' r H. eapply (steady_with_cwd _ _ (steady_xargo _ _)), H.
Qed.

Lemma steady_build_kernel (args : Args) : steady (build_kernel env args).
Proof.
  unfold build_kernel.
  apply steady_bind; [apply quiet_steady, quiet_log | intros _].
  apply steady_with_cwd. intros w w' r H. eapply steady_xargo, H.
Qed.

Lemma steady_build_user_libraries (args : Args) :
  steady (build_user_libraries env args).
Proof.
  unfold build_user_libraries.
  apply steady_bind; [apply quiet_steady, quiet_log | intros _].
  intros w w' r H. eapply (steady_with_cwd _ _ (steady_xargo _ _)), H.
Qed.

Lemma steady_build_userspace (args : Args) : steady (build_userspace env args).
Proof.
  unfold build_userspace. intros w0 w0' r0 H0. revert H0.
  apply steady_for_each. intros module.
  unfold build_user_module. intros w1 w1' r1 H1. revert H1.
  destruct (negb _); [apply quiet_steady, quiet_log |].
  apply steady_with_cwd.
  destruct (add_ufeatures _ _ _) as [build_args | e].
  - apply steady_bind; [apply quiet_steady, quiet_log | intros _; apply steady_xargo].
  - apply quiet_steady, quiet_raise.
Qed.

(** [deploy] never calls the toolchain. *)
Lemma quiet_deploy (args : Args) : quiet (deploy env args).
Proof.
  unfold deploy, deploy_fixed.
  repeat (apply quiet_bind; [| intros ?]);
    try apply quiet_log; try apply quiet_mkdir_parents; try apply quiet_getcwd;
    try apply quiet_copy2; try apply quiet_write_file.
  - intros w0 w0' r0. destruct (_ && _); [apply quiet_rmtree |].
    by intros [= <- <-].
  - apply quiet_for_each. intros module. unfold deploy_module.
    intros w0 w0' r0.
    destruct (negb (is_file _ _)); [by intros [= <- <-] |].
    destruct (negb (String.eqb _ _)); [apply quiet_copy2 |].
    apply quiet_for_each. intros app. apply quiet_copy2.
Qed.

(** Neither does the launch stage. *)
Lemma quiet_run (args : Args) : quiet (run env args).
Proof.
  unfold run. destruct (String.eqb (machine args) "qemu").
  - unfold run_qemu.
    apply quiet_bind; [apply quiet_log | intros _].
    apply quiet_bind; [destruct (run_tap_setup env); [apply quiet_ret | apply quiet_raise] |
                       intros _].
    apply quiet_bind.
    { intros w w' r. destruct (run_shell env _ _) as [[rc err] f]. by intros [= <- <-]. }
    intros [rc err]. destruct (translate_exit_status rc) as [code line].
    apply quiet_bind; [apply quiet_print | intros _].
    apply quiet_bind; [| intros _; apply quiet_ret].
    destruct (negb _); [| apply quiet_ret].
    apply quiet_bind; [apply quiet_log | intros _].
    destruct (truthy_str err); [| apply quiet_ret].
    destruct (decode_utf8 env err); [apply quiet_print | apply quiet_raise].
  - apply quiet_bind; [apply quiet_log | intros _; apply quiet_ret].
Qed.

End StagesExtra.


(* --------------------------------------------------------------------- *)
(** *** The toolchain calls of the build stages *)
(* --------------------------------------------------------------------- *)

Lemma add_kfeatures_flat_map (features : list string) (build_args : list string) :
  add_kfeatures features build_args
  = build_args ++ flat_map (fun feature => ["--features"; feature]) features.
Proof.
  unfold add_kfeatures. revert build_args.
  induction features as [| f l IH]; intros acc; simpl; [by rewrite app_nil_r |].
  rewrite IH. by rewrite <- app_assoc.
Qed.

Section StageCalls.

Context (env : Env).

(** A toolchain run inside [local.cwd]: one call is recorded, whatever
    its exit status, unless changing directory failed. *)
Lemma with_cwd_xargo_calls (p rtp : list string) (f : World -> list string)
    (w w' : World) (r : Outcome unit) :
  (forall w0 c, f (set_cwd c w0) = f w0) ->
  with_cwd p (fun w1 => xargo env rtp (f w1) w1) w = (r, w') ->
  (w_calls w' = w_calls w /\ exists e, r = Raise e)
  \/ w_calls w' = w_calls w ++
       [{| inv_cwd := p; inv_rust_target_path := rtp; inv_args := f w |}].
Proof.
  intros Hf. unfold with_cwd, chdir, xargo.
  destruct (stat (w_fs w) p) as [[| c] |];
    [| intros [= <- <-]; left; by eauto | intros [= <- <-]; left; by eauto].
  simpl. rewrite Hf. destruct (run_xargo env _ _) as [ok fs'].
  destruct ok, (w_cwd w) as [d |]; simpl;
    repeat case_match; intros; simplify_eq; simpl; by right.
Qed.

Lemma with_cwd_xargo_ok (p rtp : list string) (f : World -> list string)
    (w w' : World) :
  (forall w0 c, f (set_cwd c w0) = f w0) ->
  with_cwd p (fun w1 => xargo env rtp (f w1) w1) w = (Ok tt, w') ->
  w_calls w' = w_calls w ++
    [{| inv_cwd := p; inv_rust_target_path := rtp; inv_args := f w |}].
Proof.
  intros Hf H. by destruct (with_cwd_xargo_calls _ _ _ _ _ _ Hf H) as [[_ [e ?]] | ?].
Qed.

Lemma build_bootloader_calls (args : Args) (w w' : World) (r : Outcome unit) :
  build_bootloader env args w = (r, w') ->
  (w_calls w' = w_calls w /\ exists e, r = Raise e)
  \/ w_calls w' = w_calls w ++ [bootloader_invocation env (CARGO_DEFAULT_ARGS w)].
Proof.
  unfold build_bootloader, bind, log, print. simpl. intros H.
  by apply (with_cwd_xargo_calls _ _
              (fun _ => ["build"; "--target"; UEFI_TARGET] ++
                        ["--package"; "bootloader"] ++ CARGO_DEFAULT_ARGS w)) in H.
Qed.

Lemma build_kernel_calls (args : Args) (w w' : World) (r : Outcome unit) :
  build_kernel env args w = (r, w') ->
  (w_calls w' = w_calls w /\ exists e, r = Raise e)
  \/ w_calls w' = w_calls w ++ [kernel_invocation env args (CARGO_DEFAULT_ARGS w)].
Proof.
  unfold build_kernel, bind, log, print. simpl. intros H.
  apply (with_cwd_xargo_calls _ _
           (fun w1 => add_kfeatures (kfeatures args) ["build"; "--target"; KERNEL_TARGET]
                      ++ CARGO_DEFAULT_ARGS w1)) in H; [| done].
  simpl in H. rewrite add_kfeatures_flat_map, <- app_assoc in H. done.
Qed.

Lemma build_user_libraries_calls (args : Args) (w w' : World) (r : Outcome unit) :
  build_user_libraries env args w = (r, w') ->
  (w_calls w' = w_calls w /\ exists e, r = Raise e)
  \/ w_calls w' = w_calls w ++ [vibrio_invocation env (CARGO_DEFAULT_ARGS w)].
Proof.
  unfold build_user_libraries, bind, log, print. simpl. intros H.
  by apply (with_cwd_xargo_calls _ _
              (fun _ => ["build"; "--target"; USER_TARGET] ++
                        ["--features"; "rumprt"] ++ CARGO_DEFAULT_ARGS w)) in H.
Qed.

(** X3. A pipeline whose four build stages and deployment all went
    through called the toolchain for the bootloader, the kernel and the
    runtime library, in this order and each in its own directory with its
    own target path, and after that only for selected user modules, each
    in its directory below the user directory; the kernel features are
    passed as given, one [--features] pair each, before the default
    arguments; the deployment made no call. *)
Theorem pipeline_toolchain_calls (args : Args) (w w' : World) :
  build_and_deploy env args w = (Ok tt, w') ->
  exists cs,
    w_calls w'
    = w_calls w
      ++ [ bootloader_invocation env (CARGO_DEFAULT_ARGS w);
           kernel_invocation env args (CARGO_DEFAULT_ARGS w);
           vibrio_invocation env (CARGO_DEFAULT_ARGS w) ]
      ++ cs
    /\ Forall (fun inv =>
         exists module,
           module ∈ mods args
           /\ inv_cwd inv = USR_PATH env ++ [module]
           /\ add_ufeatures module (ufeatures args)
                (["build"; "--target"; USER_TARGET] ++ CARGO_DEFAULT_ARGS w)
              = Ok (inv_args inv)) cs.
Proof.
  unfold build_and_deploy. intros H.
  apply bind_ok_inv in H as ([] & w1 & H1 & H).
  apply bind_ok_inv in H as ([] & w2 & H2 & H).
  apply bind_ok_inv in H as ([] & w3 & H3 & H).
  apply bind_ok_inv in H as ([] & w4 & H4 & H5).
  pose proof (steady_build_bootloader env _ _ _ _ H1) as S1.
  pose proof (steady_build_kernel env _ _ _ _ H2) as S2.
  pose proof (steady_build_user_libraries env _ _ _ _ H3) as S3.
  apply build_bootloader_calls in H1 as [[_ [e ?]] | C1]; [done |].
  apply build_kernel_calls in H2 as [[_ [e ?]] | C2]; [done |].
  apply build_user_libraries_calls in H3 as [[_ [e ?]] | C3]; [done |].
  unfold build_userspace in H4.
  destruct (for_each_build_calls _ _ _ _ _ _ _ H4) as (cs & C4 & Hall).
  destruct (quiet_deploy env _ _ _ _ H5) as [C5 _].
  exists cs. split.
  - rewrite C5, C4, C3, C2, C1, S2, S1. by rewrite <- !app_assoc.
  - by rewrite S3, S2, S1 in Hall.
Qed.

Lemma carry_quiet {A} (a : string) (m : M A) : quiet m -> calls_carry a m.
Proof.
  intros Hq w w' r Ha Hm. destruct (Hq _ _ _ Hm) as [Hc Hd].
  split; [by rewrite Hd |]. exists []. by rewrite app_nil_r.
Qed.

Lemma carry_bind {A B} (a : string) (m : M A) (k : A -> M B) :
  calls_carry a m -> (forall x, calls_carry a (k x)) -> calls_carry a (bind m k).
Proof.
  intros Hm Hk w w' r Ha. unfold bind.
  destruct (m w) as [[x | e] w1] eqn:Hmw.
  - intros Hkw. destruct (Hm _ _ _ Ha Hmw) as (Ha1 & cs1 & Hc1 & Hf1).
    destruct (Hk x _ _ _ Ha1 Hkw) as (Ha2 & cs2 & Hc2 & Hf2).
    split; [done |]. exists (cs1 ++ cs2).
    split; [by rewrite Hc2, Hc1, app_assoc | by apply Forall_app].
  - intros [= <- <-]. by apply (Hm _ _ _ Ha Hmw).
Qed.

Lemma carry_stage (a : string) (m : M unit) (inv : World -> Invocation) :
  steady m ->
  (forall w w' r, m w = (r, w') ->
     (w_calls w' = w_calls w /\ exists e, r = Raise e)
     \/ w_calls w' = w_calls w ++ [inv w]) ->
  (forall w, a ∈ CARGO_DEFAULT_ARGS w -> a ∈ inv_args (inv w)) ->
  calls_carry a m.
Proof.
  intros Hs Hc Ha w w' r Hin Hm. split; [by rewrite (Hs _ _ _ Hm) |].
  destruct (Hc _ _ _ Hm) as [[Hsame _] | Hone].
  - exists []. by rewrite app_nil_r.
  - exists [inv w]. split; [done |]. apply Forall_cons. split; [by apply Ha | done].
Qed.

Lemma add_ufeatures_keeps (module : string) (l acc res : list string) (a : string) :
  add_ufeatures module l acc = Ok res -> a ∈ acc -> a ∈ res.
Proof.
  rewrite add_ufeatures_acc.
  destruct (add_ufeatures module l []) as [extra |]; [| done].
  intros [= <-] Ha. apply elem_of_app. by left.
Qed.

Lemma carry_build_userspace (a : string) (args : Args) :
  calls_carry a (build_userspace env args).
Proof.
  intros w w' r Ha Hm. split; [by rewrite (steady_build_userspace env _ _ _ _ Hm) |].
  unfold build_userspace in Hm.
  destruct (for_each_build_calls _ _ _ _ _ _ _ Hm) as (cs & Hc & Hall).
  exists cs. split; [done |].
  eapply Forall_impl; [exact Hall |].
  intros inv (module & _ & _ & Hadd). eapply add_ufeatures_keeps; [exact Hadd |].
  apply elem_of_app. by right.
Qed.

Lemma carry_build_and_deploy (a : string) (args : Args) :
  calls_carry a (build_and_deploy env args).
Proof.
  unfold build_and_deploy.
  apply carry_bind; [| intros _].
  { apply (carry_stage a _ (fun w => bootloader_invocation env (CARGO_DEFAULT_ARGS w))).
    - apply steady_build_bootloader.
    - apply build_bootloader_calls.
    - intros w Ha. cbn [bootloader_invocation inv_args]. apply elem_of_app. by right. }
  apply carry_bind; [| intros _].
  { apply (carry_stage a _ (fun w => kernel_invocation env args (CARGO_DEFAULT_ARGS w))).
    - apply steady_build_kernel.
    - apply build_kernel_calls.
    - intros w Ha. cbn [kernel_invocation inv_args].
      apply elem_of_app. right. apply elem_of_app. by right. }
  apply carry_bind; [| intros _].
  { apply (carry_stage a _ (fun w => vibrio_invocation env (CARGO_DEFAULT_ARGS w))).
    - apply steady_build_user_libraries.
    - apply build_user_libraries_calls.
    - intros w Ha. cbn [vibrio_invocation inv_args]. apply elem_of_app. by right. }
  apply carry_bind; [apply carry_build_userspace | intros _].
  apply carry_quiet, quiet_deploy.
Qed.

(** X4. The release and verbose switches reach every toolchain call of a
    run: with [--release] (or [--verbose]) given, each call the main
    routine makes, whatever the outcome of the run, has [--release] (or
    [--verbose]) among its arguments. *)
Theorem release_and_verbose_in_every_call (args : Args) (w : World) (flag : string) :
  (flag = "--release" /\ release args = true)
  \/ (flag = "--verbose" /\ verbose args = true) ->
  w_calls (main env args w).2 = w_calls w ++ new_calls w (main env args w).2
  /\ Forall (fun inv => flag ∈ inv_args inv) (new_calls w (main env args w).2).
Proof.
  intros Hflag.
  assert (exists cs, w_calls (main env args w).2 = w_calls w ++ cs
                     /\ Forall (fun inv => flag ∈ inv_args inv) cs) as (cs & Hc & Hall).
  { unfold main. destruct (_ && _).
    { exists []. by rewrite app_nil_r. }
    unfold bind at 1.
    destruct (extend_cargo_default_args_ok args w)
      as (w0 & -> & Hc0 & _ & _ & _ & Hcargo).
    assert (flag ∈ CARGO_DEFAULT_ARGS w0) as Hin.
    { rewrite Hcargo. destruct Hflag as [[-> ->] | [-> ->]].
      - apply elem_of_app. right. apply elem_of_app. left. apply list_elem_of_here.
      - apply elem_of_app. right. apply elem_of_app. right. apply list_elem_of_here. }
    unfold bind.
    destruct (build_and_deploy env args w0) as [[[] | e] w1] eqn:Hbd;
      destruct (carry_build_and_deploy flag args _ _ _ Hin Hbd) as (_ & cs & Hc & Hall).
    - exists cs. split; [| done].
      destruct (norun args); simpl.
      + by rewrite Hc, Hc0.
      + destruct (run env args w1) as [[code | e] w2] eqn:Hrun;
          destruct (quiet_run env _ _ _ _ Hrun) as [Hq _]; simpl;
          by rewrite Hq, Hc, Hc0.
    - exists cs. simpl. by rewrite Hc, Hc0. }
  rewrite (new_calls_app _ _ _ Hc). done.
Qed.

End StageCalls.

Lemma release_and_verbose_in_every_call_witness :
  w_calls (main sample_env (with_release (sample_args "qemu" None None)) sample_world).2
  = w_calls sample_world
    ++ new_calls sample_world
         (main sample_env (with_release (sample_args "qemu" None None)) sample_world).2
  /\ Forall (fun inv => "--release" ∈ inv_args inv)
       (new_calls sample_world
          (main sample_env (with_release (sample_args "qemu" None None)) sample_world).2).
Proof.
  apply (release_and_verbose_in_every_call sample_env
           (with_release (sample_args "qemu" None None)) sample_world "--release").
  left. split; reflexivity.
Defined.


Lemma pipeline_toolchain_calls_witness :
  exists cs,
    w_calls (build_and_deploy sample_env (sample_args "qemu" None None) sample_world).2
    = w_calls sample_world
      ++ [ bootloader_invocation sample_env (CARGO_DEFAULT_ARGS sample_world);
           kernel_invocation sample_env (sample_args "qemu" None None)
             (CARGO_DEFAULT_ARGS sample_world);
           vibrio_invocation sample_env (CARGO_DEFAULT_ARGS sample_world) ]
      ++ cs
    /\ Forall (fun inv =>
         exists module,
           module ∈ mods (sample_args "qemu" None None)
           /\ inv_cwd inv = USR_PATH sample_env ++ [module]
           /\ add_ufeatures module (ufeatures (sample_args "qemu" None None))
                (["build"; "--target"; USER_TARGET] ++ CARGO_DEFAULT_ARGS sample_world)
              = Ok (inv_args inv)) cs.
Proof.
  apply (pipeline_toolchain_calls sample_env (sample_args "qemu" None None) sample_world
           (build_and_deploy sample_env (sample_args "qemu" None None) sample_world).2).
  apply run_ok. vm_compute. reflexivity.
Defined.

(* --------------------------------------------------------------------- *)
(** *** The working directory of the build stages *)
(* --------------------------------------------------------------------- *)

Lemma scoped_bind {A B} (d : list string) (m : M A) (k : A -> M B) :
  scoped d m -> (forall a, scoped d (k a)) -> scoped d (bind m k).
Proof.
  intros Hm Hk w w' r Hd. unfold bind.
  destruct (m w) as [[a | e] w1] eqn:Hmw.
  - intros Hkw. destruct (Hm _ _ _ Hd Hmw) as [Hd1 | [_ [e ?]]]; [| done].
    by apply (Hk a _ _ _ Hd1 Hkw).
  - intros [= <- <-]. destruct (Hm _ _ _ Hd Hmw) as [? | [? _]]; [by left |].
    right. split; [done | by eexists].
Qed.

Lemma scoped_for_each {A} (d : list string) (l : list A) (body : A -> M unit) :
  (forall x, scoped d (body x)) -> scoped d (for_each l body).
Proof.
  intros Hb. induction l as [| x l IH]; simpl.
  - intros w w' r Hd [= <- <-]. by left.
  - apply scoped_bind; [apply Hb | done].
Qed.

Lemma scoped_log (d : list string) (msg : string) : scoped d (log msg).
Proof. intros w w' r Hd [= <- <-]. by left. Qed.

(** [local.cwd] puts the working directory back, whatever the body did. *)
Lemma scoped_with_cwd {A} (d p : list string) (body : M A) :
  scoped d (with_cwd p body).
Proof.
  intros w w' r Hd. unfold with_cwd, chdir. rewrite Hd.
  destruct (stat (w_fs w) p) as [[| c] |];
    [| intros [= <- <-]; by left | intros [= <- <-]; by left].
  destruct (body _) as [r2 w2].
  unfold is_dir. destruct (stat (w_fs w2) d) as [[| c] |] eqn:Hst; intros [= <- <-].
  - by left.
  - right. rewrite Hst. split; [done | by eexists].
  - right. rewrite Hst. split; [done | by eexists].
Qed.

(** X5. The build stages leave the working directory of the process
    where it was: after the four stages, run in directory [d], the
    process is in [d] again, or the stages ended in an exception and [d]
    is no longer a directory. *)
Theorem build_stages_restore_cwd (env : Env) (args : Args) (w : World)
    (d : list string) :
  w_cwd w = Some d ->
  w_cwd (build_stages env args w).2 = Some d
  \/ (is_dir (w_fs (build_stages env args w).2) d = false
      /\ exists e, (build_stages env args w).1 = Raise e).
Proof.
  intros Hd. destruct (build_stages env args w) as [r w'] eqn:Hrun. simpl.
  revert Hrun. revert w w' r Hd. change (scoped d (build_stages env args)).
  unfold build_stages.
  apply scoped_bind; [| intros _].
  { unfold build_bootloader. apply scoped_bind; [apply scoped_log | intros _].
    intros w w' r Hd H. by eapply scoped_with_cwd. }
  apply scoped_bind; [| intros _].
  { unfold build_kernel. apply scoped_bind; [apply scoped_log | intros _].
    apply scoped_with_cwd. }
  apply scoped_bind; [| intros _].
  { unfold build_user_libraries. apply scoped_bind; [apply scoped_log | intros _].
    intros w w' r Hd H. by eapply scoped_with_cwd. }
  intros w w' r Hd H. unfold build_userspace in H.
  eapply (scoped_for_each d _ (build_user_module env args _)); [| exact Hd | exact H].
  intros module w1 w1' r1 Hd1. unfold build_user_module.
  destruct (negb _); [by apply scoped_log | by apply scoped_with_cwd].
Qed.

Lemma build_stages_restore_cwd_witness :
  w_cwd (build_stages sample_env (sample_args "qemu" None None) sample_world).2
    = Some ["repo"; "kernel"]
  \/ (is_dir (w_fs (build_stages sample_env (sample_args "qemu" None None)
                      sample_world).2) ["repo"; "kernel"] = false
      /\ exists e,
           (build_stages sample_env (sample_args "qemu" None None) sample_world).1
           = Raise e).
Proof.
  apply (build_stages_restore_cwd sample_env (sample_args "qemu" None None) sample_world
           ["repo"; "kernel"]).
  reflexivity.
Defined.


(* --------------------------------------------------------------------- *)
(** *** More on the user-space build *)
(* --------------------------------------------------------------------- *)

Section UserspaceExtra.

Context (env : Env).

(** X6. A token [module:feature] reaches the build of the named module
    and no other: the arguments of every user-module invocation are the
    defaults, what the tokens before it add, the pair
    [--features feature] when the invocation builds that module (matched
    by equality of the names) and nothing otherwise, and what the tokens
    after it add. *)
Theorem scoped_feature_only_in_its_module (args : Args) (w : World)
    (l1 l2 : list string) (mod_part feature_part : string) :
  contains_char ":" mod_part = false ->
  contains_char ":" feature_part = false ->
  ufeatures args = l1 ++ (mod_part +:+ ":" +:+ feature_part) :: l2 ->
  Forall (fun inv =>
       exists module before after,
         module ∈ mods args
         /\ inv_cwd inv = USR_PATH env ++ [module]
         /\ add_ufeatures module l1 [] = Ok before
         /\ add_ufeatures module l2 [] = Ok after
         /\ inv_args inv
            = (["build"; "--target"; USER_TARGET] ++ CARGO_DEFAULT_ARGS w)
              ++ before
              ++ (if String.eqb module mod_part then ["--features"; feature_part] else [])
              ++ after)
       (new_calls w (build_userspace env args w).2).
Proof.
  intros Hm Hf Hu.
  destruct (build_userspace env args w) as [r w'] eqn:Hrun. simpl.
  unfold build_userspace in Hrun.
  destruct (for_each_build_calls _ _ _ _ _ _ _ Hrun) as (cs & Hcs & Hall).
  rewrite (new_calls_app _ _ _ Hcs).
  eapply Forall_impl; [exact Hall |].
  intros inv (module & Hin & Hcwd & Hadd). simpl in Hadd.
  rewrite Hu, add_ufeatures_acc, add_ufeatures_app in Hadd.
  destruct (add_ufeatures module l1 []) as [before |] eqn:H1; [| done].
  simpl in Hadd. rewrite (feature_args_scoped _ _ _ Hm Hf) in Hadd.
  rewrite add_ufeatures_acc in Hadd.
  destruct (add_ufeatures module l2 []) as [after |] eqn:H2; [| done].
  exists module, before, after. repeat split; try done.
  injection Hadd as <-. by rewrite <- !app_assoc.
Qed.







End UserspaceExtra.

Lemma scoped_feature_only_in_its_module_witness :
  Forall (fun inv =>
       exists module before after,
         module ∈ mods (sample_args "qemu" None None)
         /\ inv_cwd inv = USR_PATH sample_env ++ [module]
         /\ add_ufeatures module ["f"] [] = Ok before
         /\ add_ufeatures module ["zz:h"] [] = Ok after
         /\ inv_args inv
            = (["build"; "--target"; USER_TARGET] ++ CARGO_DEFAULT_ARGS sample_world)
              ++ before
              ++ (if String.eqb module "init" then ["--features"; "g"] else [])
              ++ after)
       (new_calls sample_world
          (build_userspace sample_env (sample_args "qemu" None None) sample_world).2).
Proof.
  apply (scoped_feature_only_in_its_module sample_env (sample_args "qemu" None None)
           sample_world ["f"] ["zz:h"] "init" "g").
  - reflexivity.
  - reflexivity.
  - reflexivity.
Defined.



(* --------------------------------------------------------------------- *)
(** *** Bare feature tokens, counted *)
(* --------------------------------------------------------------------- *)















(* --------------------------------------------------------------------- *)
(** *** The launch stage and the exit status of the script *)
(* --------------------------------------------------------------------- *)

Section Launch.

Context (env : Env).

Lemma main_after_pipeline (args : Args) (w w1 : World) :
  String.eqb (machine args) "qemu" = true ->
  norun args = false ->
  (extend_cargo_default_args args ;; build_and_deploy env args)%py w = (Ok tt, w1) ->
  main env args w = (r <- run env args ;; raise (SystemExit r))%py w1.
Proof.
  intros Hm Hn Hpipe. unfold main. rewrite Hm, Hn. cbn [negb andb].
  unfold bind in Hpipe. unfold bind at 1. unfold bind at 1.
  destruct (extend_cargo_default_args args w) as [[[] | e] w0]; [| done].
  by rewrite Hpipe.
Qed.

(** What [run_qemu] returns and leaves, by cases. *)
Lemma run_qemu_closed (args : Args) (w1 : World) (returncode : Z) (stderr : string)
    (f : gmap (list string) node) :
  String.eqb (machine args) "qemu" = true ->
  run_tap_setup env = true ->
  run_shell env (qemu_command env args) (w_fs w1) = (returncode, stderr, f) ->
  run env args w1
  = let code := Z.shiftr returncode 1 in
    let w2 := add_line (exit_code_line code)
                (set_fs f (add_line ">>> Starting QEMU" w1)) in
    if Z.eqb code 0 then (Ok code, w2)
    else
      let w3 := add_line (">>> Invocation was: " +:+ qemu_command env args) w2 in
      if String.eqb stderr "" then (Ok code, w3)
      else match decode_utf8 env stderr with
           | Some text => (Ok code, add_line ("STDERR: " +:+ text) w3)
           | None => (Raise UnicodeDecodeError, w3)
           end.
Proof.
  intros Hm Htap Hshell.
  unfold run. rewrite Hm. unfold run_qemu, bind, log, print, ret, raise.
  rewrite Htap. fold (qemu_command env args). cbn [w_fs add_line].
  rewrite Hshell. unfold translate_exit_status, bespin_exit_code_of. cbv zeta.
  destruct (Z.eqb (Z.shiftr returncode 1) 0); cbn [negb]; [done |].
  unfold truthy_str. destruct (String.eqb stderr ""); cbn [negb]; [done |].
  by destruct (decode_utf8 env stderr).
Qed.

(** X8. With the emulator selected and launching not switched off, a
    run whose build and deployment went through and whose tap set-up
    succeeded ends with the kernel's code (the emulator's return code
    shifted right by one) as its exit status, and prints the start line,
    the line of that code and, for a code other than zero only, the
    command and the captured standard error: on success the captured
    standard error is not shown.  This needs the standard error to be
    empty or decodable when the code is not zero. *)
Theorem main_exits_with_kernel_code (args : Args) (w w1 : World)
    (returncode : Z) (stderr text : string) (f : gmap (list string) node) :
  String.eqb (machine args) "qemu" = true ->
  norun args = false ->
  (extend_cargo_default_args args ;; build_and_deploy env args)%py w = (Ok tt, w1) ->
  run_tap_setup env = true ->
  run_shell env (qemu_command env args) (w_fs w1) = (returncode, stderr, f) ->
  Z.shiftr returncode 1 = 0 \/ stderr = "" \/ decode_utf8 env stderr = Some text ->
  (main env args w).1 = Raise (SystemExit (Z.shiftr returncode 1))
  /\ w_stdout (main env args w).2
     = w_stdout w1 ++ qemu_report env args returncode stderr text
  /\ w_fs (main env args w).2 = f.
Proof.
  intros Hm Hn Hpipe Htap Hshell Hdec.
  rewrite (main_after_pipeline _ _ _ Hm Hn Hpipe). unfold bind.
  rewrite (run_qemu_closed _ _ _ _ _ Hm Htap Hshell). cbv zeta. unfold qemu_report.
  destruct (Z.eqb_spec (Z.shiftr returncode 1) 0) as [H0 | Hne].
  { cbn [fst snd raise w_stdout add_line set_fs w_fs]. by rewrite <- !app_assoc. }
  destruct (String.eqb_spec stderr "") as [-> | Herr].
  { cbn [fst snd raise w_stdout add_line set_fs w_fs]. by rewrite <- !app_assoc. }
  destruct Hdec as [? | [? | ->]]; [done | done |].
  cbn [fst snd raise w_stdout add_line set_fs w_fs]. by rewrite <- !app_assoc.
Qed.

(** X9. The same run when the kernel's code is not zero and the
    captured standard error is not empty and cannot be decoded: the
    script ends with [UnicodeDecodeError] instead of the kernel's code,
    after printing the line of the code and the command.  Without
    [--verbose] the installed hook then prints one more line on standard
    output, the name of the exception and its text; with [--verbose]
    nothing more goes to standard output. *)
Theorem main_loses_code_on_undecodable_stderr (message : exn -> string)
    (args : Args) (w w1 : World)
    (returncode : Z) (stderr : string) (f : gmap (list string) node) :
  String.eqb (machine args) "qemu" = true ->
  norun args = false ->
  (extend_cargo_default_args args ;; build_and_deploy env args)%py w = (Ok tt, w1) ->
  run_tap_setup env = true ->
  run_shell env (qemu_command env args) (w_fs w1) = (returncode, stderr, f) ->
  Z.shiftr returncode 1 <> 0 ->
  stderr <> "" ->
  decode_utf8 env stderr = None ->
  (run_script env message args w).1 = Raise UnicodeDecodeError
  /\ w_stdout (run_script env message args w).2
     = w_stdout w1
       ++ [">>> Starting QEMU"; exit_code_line (Z.shiftr returncode 1);
           ">>> Invocation was: " +:+ qemu_command env args]
       ++ (if verbose args then []
           else ["UnicodeDecodeError: " +:+ message UnicodeDecodeError]).
Proof.
  intros Hm Hn Hpipe Htap Hshell Hne Herr Hdec. unfold run_script.
  rewrite (main_after_pipeline _ _ _ Hm Hn Hpipe). unfold bind.
  rewrite (run_qemu_closed _ _ _ _ _ Hm Htap Hshell). cbv zeta.
  destruct (Z.eqb_spec (Z.shiftr returncode 1) 0) as [? | _]; [done |].
  destruct (String.eqb_spec stderr "") as [? | _]; [done |].
  rewrite Hdec.
  destruct (verbose args);
    cbn [fst snd raise w_stdout add_line set_fs w_fs exception_handler print
           exception_name];
    rewrite <- ?app_assoc; [by rewrite app_nil_r | done].
Qed.

(** X10. When the tap set-up fails, the launch raises before the
    emulator is started: the script ends with [ProcessExecutionError],
    the file system is the one the deployment left, and after the start
    line nothing is printed but, without [--verbose], the hook's line
    with the name of the exception and its text. *)
Theorem main_stops_when_tap_setup_fails (message : exn -> string)
    (args : Args) (w w1 : World) :
  String.eqb (machine args) "qemu" = true ->
  norun args = false ->
  (extend_cargo_default_args args ;; build_and_deploy env args)%py w = (Ok tt, w1) ->
  run_tap_setup env = false ->
  run_script env message args w
  = (Raise ProcessExecutionError,
     if verbose args then add_line ">>> Starting QEMU" w1
     else add_line ("ProcessExecutionError: " +:+ message ProcessExecutionError)
            (add_line ">>> Starting QEMU" w1)).
Proof.
  intros Hm Hn Hpipe Htap. unfold run_script.
  rewrite (main_after_pipeline _ _ _ Hm Hn Hpipe). unfold bind.
  unfold run. rewrite Hm. unfold run_qemu, bind, log, print, ret, raise.
  rewrite Htap. by destruct (verbose args).
Qed.

End Launch.

Lemma main_exits_with_kernel_code_witness :
  (main sample_env (sample_args "qemu" None None) sample_world).1
  = Raise (SystemExit (Z.shiftr 0 1))
  /\ w_stdout (main sample_env (sample_args "qemu" None None) sample_world).2
     = w_stdout ((extend_cargo_default_args (sample_args "qemu" None None) ;;
                  build_and_deploy sample_env (sample_args "qemu" None None))%py
                   sample_world).2
       ++ qemu_report sample_env (sample_args "qemu" None None) 0 "" ""
  /\ w_fs (main sample_env (sample_args "qemu" None None) sample_world).2
     = w_fs ((extend_cargo_default_args (sample_args "qemu" None None) ;;
              build_and_deploy sample_env (sample_args "qemu" None None))%py
               sample_world).2.
Proof.
  apply (main_exits_with_kernel_code sample_env (sample_args "qemu" None None)
           sample_world
           ((extend_cargo_default_args (sample_args "qemu" None None) ;;
             build_and_deploy sample_env (sample_args "qemu" None None))%py
              sample_world).2
           0 "" "").
  - reflexivity.
  - reflexivity.
  - apply run_ok. vm_compute. reflexivity.
  - reflexivity.
  - reflexivity.
  - left. reflexivity.
Defined.

Lemma main_loses_code_on_undecodable_stderr_witness :
  (run_script sample_env_panic sample_message (sample_args "qemu" None None)
     sample_world).1
  = Raise UnicodeDecodeError
  /\ w_stdout (run_script sample_env_panic sample_message
                 (sample_args "qemu" None None) sample_world).2
     = w_stdout ((extend_cargo_default_args (sample_args "qemu" None None) ;;
                  build_and_deploy sample_env_panic (sample_args "qemu" None None))%py
                   sample_world).2
       ++ [">>> Starting QEMU"; exit_code_line (Z.shiftr 5 1);
           ">>> Invocation was: "
           +:+ qemu_command sample_env_panic (sample_args "qemu" None None)]
       ++ ["UnicodeDecodeError: 'utf-8' codec can't decode byte 0xff"].
Proof.
  apply (main_loses_code_on_undecodable_stderr sample_env_panic sample_message
           (sample_args "qemu" None None) sample_world
           ((extend_cargo_default_args (sample_args "qemu" None None) ;;
             build_and_deploy sample_env_panic (sample_args "qemu" None None))%py
              sample_world).2
           5 bad_utf8
           (w_fs ((extend_cargo_default_args (sample_args "qemu" None None) ;;
                   build_and_deploy sample_env_panic (sample_args "qemu" None None))%py
                    sample_world).2)).
  - reflexivity.
  - reflexivity.
  - apply run_ok. vm_compute. reflexivity.
  - reflexivity.
  - reflexivity.
  - vm_compute. discriminate.
  - discriminate.
  - reflexivity.
Defined.

Lemma main_stops_when_tap_setup_fails_witness :
  run_script sample_env_no_tap sample_message (sample_args "qemu" None None) sample_world
  = (Raise ProcessExecutionError,
     add_line "ProcessExecutionError: Unexpected exit code: 1"
       (add_line ">>> Starting QEMU"
          ((extend_cargo_default_args (sample_args "qemu" None None) ;;
            build_and_deploy sample_env_no_tap (sample_args "qemu" None None))%py
             sample_world).2)).
Proof.
  apply (main_stops_when_tap_setup_fails sample_env_no_tap sample_message
           (sample_args "qemu" None None) sample_world).
  - reflexivity.
  - reflexivity.
  - apply run_ok. vm_compute. reflexivity.
  - reflexivity.
Defined.


(* --------------------------------------------------------------------- *)
(** *** Where the deployment writes *)
(* --------------------------------------------------------------------- *)

Lemma confined_ret {A} (c : option (list string)) (P : list string -> Prop) (a : A) :
  confined c P (ret a).
Proof. by intros w w' r Hc [= <- <-]. Qed.

Lemma confined_bind {A B} (c : option (list string)) (P : list string -> Prop)
    (m : M A) (k : A -> M B) :
  confined c P m -> (forall a, confined c P (k a)) -> confined c P (bind m k).
Proof.
  intros Hm Hk w w' r Hc. unfold bind.
  destruct (m w) as [[a | e] w1] eqn:Hmw.
  - intros Hkw. destruct (Hm _ _ _ Hc Hmw) as [H1 H2].
    destruct (Hk a _ _ _ H2 Hkw) as [H3 H4]. split; [| done].
    intros q Hq. by rewrite H3, H1.
  - intros [= <- <-]. by apply (Hm _ _ _ Hc Hmw).
Qed.

Lemma confined_for_each {A} (c : option (list string)) (P : list string -> Prop)
    (l : list A) (body : A -> M unit) :
  (forall x, confined c P (body x)) -> confined c P (for_each l body).
Proof.
  intros Hb. induction l as [| x l IH]; simpl; [apply confined_ret |].
  apply confined_bind; [apply Hb | done].
Qed.

Lemma confined_log (c : option (list string)) (P : list string -> Prop) (msg : string) :
  confined c P (log msg).
Proof. by intros w w' r Hc [= <- <-]. Qed.

(** The removal of an existing directory tree. *)
Lemma confined_reset (c : option (list string)) (P : list string -> Prop)
    (p : list string) :
  (forall q, p `prefix_of` q -> P q) ->
  confined c P (fun w => if path_exists (w_fs w) p && is_dir (w_fs w) p
                         then rmtree p w else (Ok tt, w)).
Proof.
  intros HP w w' r Hc. destruct (_ && _); [| by intros [= <- <-]].
  unfold rmtree. intros [= <- <-]. simpl. split.
  - intros q Hq. rewrite lookup_remove_tree.
    destruct (decide (p `prefix_of` q)) as [Hpre |]; [| done].
    destruct Hq. by apply HP.
  - destruct (w_cwd w) as [d |]; [| by right].
    destruct (decide (p `prefix_of` d)); [by right | done].
Qed.

Lemma confined_mkdir_parents (c : option (list string)) (P : list string -> Prop)
    (p : list string) :
  (forall q, q `prefix_of` p -> P q) -> confined c P (mkdir_parents p).
Proof.
  intros HP w w' r Hc. unfold mkdir_parents.
  destruct (mkdir_from [] p (w_fs w)) as [f |] eqn:Hm; intros [= <- <-]; [| done].
  split; [| done]. intros q Hq. simpl.
  apply (mkdir_from_spec _ _ _ _ Hm). intros k _ Hk. simpl. intros ->. by apply Hq, HP.
Qed.

Lemma confined_write_file (c : option (list string)) (P : list string -> Prop)
    (p : list string) (content : string) :
  P p -> confined c P (write_file p content).
Proof.
  intros HP w w' r Hc Hw.
  apply write_file_inv in Hw as [(e & _ & ->) | (_ & Hw)]; [done |].
  split.
  - intros q Hq. rewrite (file_written_lookup _ _ _ _ q Hw).
    by destruct (decide (q = p)) as [-> |].
  - by rewrite (file_written_cwd _ _ _ _ Hw).
Qed.

(** What one copy changes: the target, which lies in [dst] when [dst] is
    a directory. *)
Lemma copy2_frame (src dst : list string) (w w' : World) (r : Outcome unit) :
  copy2 src dst w = (r, w') ->
  w_cwd w' = w_cwd w
  /\ forall q, q <> (if is_dir (w_fs w) dst then dst ++ [basename src] else dst) ->
               w_fs w' !! q = w_fs w !! q.
Proof.
  intros Hw. apply copy2_inv in Hw as [(e & _ & ->) | (_ & content & _ & Hw)]; [done |].
  split; [by rewrite (file_written_cwd _ _ _ _ Hw) |].
  intros q Hq. rewrite (file_written_lookup _ _ _ _ q Hw).
  by destruct (decide _).
Qed.

Lemma confined_copy2 (c : option (list string)) (P : list string -> Prop)
    (src dst : list string) :
  (forall q, dst `prefix_of` q -> P q) -> confined c P (copy2 src dst).
Proof.
  intros HP w w' r Hc Hw. destruct (copy2_frame _ _ _ _ _ Hw) as [Hcwd Hfs].
  split; [| by rewrite Hcwd].
  intros q Hq. apply Hfs. intros ->. apply Hq, HP.
  destruct (is_dir _ _); [by apply prefix_app_r | done].
Qed.

Section DeployFootprint.

Context (env : Env) (args : Args).

Lemma esp_boot_prefix_area (c : option (list string)) (q : list string) :
  q `prefix_of` esp_boot_path env args -> deploy_area env args c q.
Proof.
  unfold esp_boot_path.
  replace (esp_path env args ++ ["EFI"; "Boot"])
    with ((esp_path env args ++ ["EFI"]) ++ ["Boot"]) by (by rewrite <- app_assoc).
  intros H. apply prefix_snoc_inv in H as [H | ->].
  - apply prefix_snoc_inv in H as [H | ->]; [by right; left |].
    left. by apply prefix_app_r.
  - left. rewrite <- app_assoc. by apply prefix_app_r.
Qed.

Lemma below_esp_area (c : option (list string)) (k q : list string) :
  esp_path env args ++ k `prefix_of` q -> deploy_area env args c q.
Proof. intros H. left. etrans; [| exact H]. by apply prefix_app_r. Qed.

Lemma confined_deploy_module (c : option (list string)) (module : string) :
  confined c (deploy_area env args c) (deploy_module env args module).
Proof.
  intros w w' r Hc. unfold deploy_module.
  destruct (negb (is_file _ _)); [by intros [= <- <-] |].
  destruct (negb (String.eqb _ _)).
  - apply confined_copy2; [| done]. intros q Hq. by left.
  - apply confined_for_each; [| done]. intros app.
    apply confined_copy2. intros q Hq. by left.
Qed.

(** [deploy] after the copy next to the caller. *)
Lemma confined_deploy_copies (d : list string) :
  confined (Some d) (deploy_area env args (Some d))
    (copy2 (kernel_build_path env args ++ ["bespin"]) (esp_path env args ++ ["kernel"]) ;;
     copy2 (uefi_build_path env args ++ ["bootloader.efi"])
           (esp_boot_path env args ++ ["BootX64.efi"]) ;;
     write_file (esp_path env args ++ ["cmdline.in"])
                ("./kernel " +:+ format_opt_str (cmd args)))%py.
Proof.
  apply confined_bind; [apply confined_copy2; apply below_esp_area | intros _].
  apply confined_bind; [apply confined_copy2 | intros _].
  - intros q. unfold esp_boot_path. rewrite <- app_assoc. apply below_esp_area.
  - apply confined_write_file. left. by apply prefix_app_r.
Qed.

Lemma confined_deploy (c : option (list string)) :
  confined c (deploy_area env args c) (deploy env args).
Proof.
  unfold deploy, deploy_fixed.
  apply confined_bind;
    [| intros _; apply confined_for_each; intros m; apply confined_deploy_module].
  apply confined_bind; [apply confined_log | intros _].
  apply confined_bind; [apply confined_reset; intros q Hq; by left | intros _].
  apply confined_bind;
    [apply confined_mkdir_parents; intros q; apply esp_boot_prefix_area | intros _].
  (* the copy next to the caller goes into the directory [getcwd] returned *)
  intros w w' r Hc. unfold bind at 1, getcwd.
  destruct (w_cwd w) as [d |] eqn:Hd; [| intros [= <- <-]; by rewrite Hd].
  destruct (is_dir (w_fs w) d) eqn:Hdir; [| intros [= <- <-]; by rewrite Hd].
  assert (c = Some d) as -> by (by destruct Hc as [<- | ?]).
  unfold bind at 1.
  destruct (copy2 _ d w) as [[[] | e] w1] eqn:Hcp;
    destruct (copy2_frame _ _ _ _ _ Hcp) as [Hcwd Hfs];
    rewrite Hdir, basename_snoc in Hfs.
  - intros Hrest.
    assert (w_cwd w1 = Some d \/ w_cwd w1 = None) as Hc1 by (left; congruence).
    destruct (confined_deploy_copies d _ _ _ Hc1 Hrest) as [H3 H4].
    split; [| done]. intros q Hq. rewrite H3 by done. apply Hfs.
    intros ->. apply Hq. right. right. by exists d.
  - intros [= <- <-]. split; [| left; congruence].
    intros q Hq. apply Hfs. intros ->. apply Hq. right. right. by exists d.
Qed.

(** X11. Whatever its outcome, a deployment changes no file-system entry
    other than those at and below the ESP directory, the ancestors of the
    ESP directory and the file [bespin] in the working directory of the
    process; it makes no toolchain call. *)
Theorem deploy_footprint (w : World) (q : list string) :
  ~ esp_path env args `prefix_of` q ->
  ~ q `prefix_of` esp_path env args ->
  (forall d, w_cwd w = Some d -> q <> d ++ ["bespin"]) ->
  w_fs (deploy env args w).2 !! q = w_fs w !! q
  /\ w_calls (deploy env args w).2 = w_calls w.
Proof.
  intros H1 H2 H3. destruct (deploy env args w) as [r w'] eqn:Hrun. simpl. split.
  - assert (w_cwd w = w_cwd w \/ w_cwd w = None) as Hc by (by left).
    destruct (confined_deploy _ _ _ _ Hc Hrun) as [Hfs _]. apply Hfs.
    intros [? | [? | (d & Hd & ->)]]; [done | done |]. by apply (H3 d).
  - by destruct (quiet_deploy env args _ _ _ Hrun).
Qed.

End DeployFootprint.

Lemma deploy_footprint_witness :
  w_fs (deploy sample_env (sample_args "qemu" None None) sample_world).2
    !! ["repo"; "usr"; "init"]
  = w_fs sample_world !! ["repo"; "usr"; "init"]
  /\ w_calls (deploy sample_env (sample_args "qemu" None None) sample_world).2
     = w_calls sample_world.
Proof.
  apply (deploy_footprint sample_env (sample_args "qemu" None None) sample_world
           ["repo"; "usr"; "init"]).
  - intros H. apply prefix_cons_inv_2, prefix_cons_inv_1 in H. discriminate H.
  - intros H. apply prefix_cons_inv_2, prefix_cons_inv_1 in H. discriminate H.
  - intros d Hd Heq. vm_compute in Hd. injection Hd as <-. discriminate Heq.
Defined.


(* --------------------------------------------------------------------- *)
(** *** What the deployment puts in place *)
(* --------------------------------------------------------------------- *)

Lemma deploy_fixed_split (env : Env) (args : Args) (w : World) :
  deploy_fixed env args w = (deploy_reset env args ;; deploy_copies env args)%py w.
Proof.
  unfold deploy_fixed, deploy_reset, deploy_copies, bind, log, print.
  destruct (if _ && _ then _ else _) as [[[] | e] w2]; [| done].
  by destruct (mkdir_parents _ w2) as [[[] | e] w3].
Qed.

(** In a tree, the ancestors of a directory are directories. *)
Lemma tree_fs_ancestors (f : gmap (list string) node) (p k : list string) :
  tree_fs f -> is_dir f (p ++ k) = true -> is_dir f p = true.
Proof.
  intros Ht. induction k as [| c k IH] using rev_ind.
  - by rewrite app_nil_r.
  - rewrite app_assoc. intros H. apply is_dir_snoc in H.
    apply IH, (Ht _ c). by rewrite H.
Qed.

(** Making directories goes through when no regular file is in the way. *)
Lemma mkdir_from_ok (base rest : list string) (f : gmap (list string) node) :
  (forall k content, k <> [] -> k `prefix_of` rest ->
     f !! (base ++ k) <> Some (File content)) ->
  exists f', mkdir_from base rest f = Ok f'.
Proof.
  revert base f. induction rest as [| c rest IH]; intros base f Hno; [by eexists |].
  simpl. rewrite stat_snoc.
  destruct (f !! (base ++ [c])) as [[| content] |] eqn:Hst.
  - apply IH. intros k content Hk Hpre. rewrite <- app_assoc.
    apply Hno; [done |]. by apply prefix_cons.
  - destruct (Hno [c] content); [done | apply prefix_cons, prefix_nil | done].
  - apply IH. intros k content Hk Hpre. rewrite lookup_insert_ne.
    + rewrite <- app_assoc. apply Hno; [done |]. by apply prefix_cons.
    + intros Heq. apply (f_equal List.length) in Heq. rewrite !length_app in Heq.
      destruct k; [done | simpl in Heq; lia].
Qed.

Section DeployContents.

Context (env : Env) (args : Args).

Let ub := user_build_path env args.
Let esp := esp_path env args.
Let esp_boot := esp_boot_path env args.

Lemma esp_prefix_boot : esp `prefix_of` esp_boot.
Proof. by apply prefix_app_r. Qed.

(** The state in which the copying starts. *)
Lemma deploy_reset_spec (w0 w3 : World) :
  wf_world w0 ->
  deploy_reset env args w0 = (Ok tt, w3) ->
  wf_world w3
  /\ (forall d, w_cwd w3 = Some d -> w_cwd w0 = Some d /\ ~ esp `prefix_of` d)
  /\ (forall q, esp `prefix_of` q ->
        w_fs w3 !! q = if decide (q `prefix_of` esp_boot) then Some Dir else None)
  /\ (forall q, ~ esp `prefix_of` q -> ~ q `prefix_of` esp ->
        w_fs w3 !! q = w_fs w0 !! q).
Proof.
  intros [Ht0 Hc0] Hrun. unfold deploy_reset in Hrun.
  apply bind_ok_inv in Hrun as ([] & wl & Hlog & Hrun).
  apply bind_ok_inv in Hrun as ([] & w2 & Hrm & Hmk).
  fold esp in Hrm. injection Hlog as <-.
  assert (tree_fs (w_fs w2)
          /\ (forall d, w_cwd w2 = Some d ->
                w_cwd w0 = Some d /\ is_dir (w_fs w2) d = true /\ ~ esp `prefix_of` d)
          /\ (forall k, k <> [] -> w_fs w2 !! (esp ++ k) = None)
          /\ (forall q, ~ esp `prefix_of` q -> w_fs w2 !! q = w_fs w0 !! q))
    as (Ht2 & Hc2 & He2 & Hu2).
  { cbn [w_fs add_line] in Hrm.
    destruct (is_dir (w_fs w0) esp) eqn:Hesp.
    - assert (path_exists (w_fs w0) esp = true) as Hex.
      { unfold path_exists, is_dir in *. by destruct (stat (w_fs w0) esp). }
      rewrite Hex in Hrm. simpl in Hrm. injection Hrm as <-. simpl.
      split; [by apply tree_fs_remove_tree |]. split; [| split].
      + intros d0 Hd0. destruct (w_cwd w0) as [d1 |] eqn:Hd1; [| done].
        destruct (decide (esp `prefix_of` d1)) as [| Hnp]; [done |].
        injection Hd0 as <-. split; [done |]. split; [| done].
        pose proof (Hc0 _ eq_refl) as Hd. unfold is_dir, stat in *.
        destruct d1 as [| a d1]; [done |]. rewrite lookup_remove_tree.
        by destruct (decide (esp `prefix_of` a :: d1)).
      + intros k _. rewrite lookup_remove_tree.
        destruct (decide (esp `prefix_of` esp ++ k)) as [| Hnp]; [done |].
        destruct Hnp. by apply prefix_app_r.
      + intros q Hq. rewrite lookup_remove_tree.
        by destruct (decide (esp `prefix_of` q)).
    - rewrite andb_false_r in Hrm. injection Hrm as <-. simpl.
      split; [done |]. split; [| split; [| done]].
      + intros d0 Hd0. split; [done |]. split; [by apply Hc0 |].
        intros [k ->]. pose proof (Hc0 _ Hd0) as Hd.
        apply tree_fs_ancestors in Hd; [congruence | done].
      + intros k Hk. by apply tree_fs_no_children. }
  unfold mkdir_parents in Hmk. fold esp_boot in Hmk.
  destruct (mkdir_from [] esp_boot (w_fs w2)) as [f3 |] eqn:Hmkd; [| done].
  injection Hmk as <-.
  destruct (mkdir_from_spec _ _ _ _ Hmkd) as [Hmade Hkept]. simpl in Hmade, Hkept.
  destruct (mkdir_from_tree [] _ _ _ Ht2 eq_refl Hmkd) as [Ht3 Hd3].
  split; [| split; [| split]].
  - split; [done |]. simpl. intros d Hd. apply Hd3. by apply (Hc2 d).
  - simpl. intros d Hd. by destruct (Hc2 d Hd) as (? & _ & ?).
  - simpl. intros q Hq. destruct (decide (q `prefix_of` esp_boot)) as [Hpre | Hnpre].
    + apply Hmade; [| done]. intros ->. apply prefix_nil_inv in Hq.
      unfold esp, esp_path in Hq. by apply app_eq_nil in Hq as [_ ?].
    + rewrite Hkept by (by intros k _ Hk ->). destruct Hq as [k ->].
      apply He2. intros ->. rewrite app_nil_r in Hnpre. by apply Hnpre, esp_prefix_boot.
  - simpl. intros q Hq1 Hq2. rewrite Hkept; [by apply Hu2 |].
    intros k _ Hk ->.
    destruct (esp_boot_prefix_area env args None _ Hk) as [? | [? | (d & [=] & _)]]; done.
Qed.

Lemma kernel_binary_outside_esp :
  ~ esp `prefix_of` kernel_build_path env args ++ ["bespin"]
  /\ ~ kernel_build_path env args ++ ["bespin"] `prefix_of` esp.
Proof.
  unfold esp, esp_path, kernel_build_path, uefi_build_path.
  rewrite <- !app_assoc. split; intros H; apply prefix_app_inv in H;
    apply prefix_cons_inv_1 in H; discriminate H.
Qed.

Lemma bootloader_binary_outside_esp :
  ~ esp `prefix_of` uefi_build_path env args ++ ["bootloader.efi"]
  /\ ~ uefi_build_path env args ++ ["bootloader.efi"] `prefix_of` esp.
Proof.
  unfold esp, esp_path. split; intros H; apply prefix_app_inv in H;
    apply prefix_cons_inv_1 in H; discriminate H.
Qed.

(** Where the kernel and the bootloader come from and where they are
    after the fixed part of a deployment that went through. *)
Lemma deploy_fixed_sources (w0 wA : World) :
  wf_world w0 ->
  deploy_fixed env args w0 = (Ok tt, wA) ->
  exists d kern boot,
    w_cwd w0 = Some d /\ w_cwd wA = Some d /\ ~ esp `prefix_of` d
    /\ w_fs w0 !! (kernel_build_path env args ++ ["bespin"]) = Some (File kern)
    /\ w_fs w0 !! (uefi_build_path env args ++ ["bootloader.efi"]) = Some (File boot)
    /\ w_fs wA !! (d ++ ["bespin"]) = Some (File kern)
    /\ w_fs wA !! (esp ++ ["kernel"]) = Some (File kern)
    /\ w_fs wA !! (esp_boot ++ ["BootX64.efi"]) = Some (File boot).
Proof.
  intros Hwf Hrun. rewrite deploy_fixed_split in Hrun.
  apply bind_ok_inv in Hrun as ([] & w3 & Hreset & Hrun).
  destruct (deploy_reset_spec _ _ Hwf Hreset) as (Hwf3 & Hcwd3 & Hesp3 & Hout3).
  unfold deploy_copies in Hrun.
  apply bind_ok_inv in Hrun as (d & w4 & Hcwd & Hrun).
  apply bind_ok_inv in Hrun as ([] & w5 & Hc1 & Hrun).
  apply bind_ok_inv in Hrun as ([] & w6 & Hc2 & Hrun).
  apply bind_ok_inv in Hrun as ([] & w7 & Hc3 & Hw).
  fold esp in Hc2, Hw. fold esp_boot in Hc3.
  unfold getcwd in Hcwd.
  destruct (w_cwd w3) as [d0 |] eqn:Hd0; [| done].
  destruct (is_dir (w_fs w3) d0) eqn:Hdd; [| done].
  injection Hcwd as -> <-.
  destruct (Hcwd3 _ eq_refl) as [Hcwd0 Hnp].
  destruct kernel_binary_outside_esp as [Hk1 Hk2].
  destruct bootloader_binary_outside_esp as [Hb1 Hb2].
  (* the kernel next to the caller *)
  apply copy2_inv in Hc1 as [(e & ? & _) | (_ & k1 & Hsrc1 & Hw5)]; [done |].
  rewrite Hdd, basename_snoc in Hw5.
  rewrite stat_snoc, Hout3 in Hsrc1 by done.
  (* the kernel in the ESP *)
  apply copy2_inv in Hc2 as [(e & ? & _) | (_ & kern & Hsrc2 & Hw6)]; [done |].
  assert (kern = k1) as ->.
  { rewrite stat_snoc, (file_written_lookup _ _ _ _ _ Hw5) in Hsrc2.
    destruct (decide _); [congruence |]. rewrite Hout3 in Hsrc2 by done. congruence. }
  assert (forall n, n <> "bespin" -> w_fs w5 !! (esp ++ [n]) = w_fs w3 !! (esp ++ [n]))
    as Hroot5.
  { intros n Hn. rewrite (file_written_lookup _ _ _ _ _ Hw5).
    destruct (decide _) as [Heq |]; [| done]. by apply app_inj_tail in Heq as [_ ?]. }
  assert (is_dir (w_fs w5) (esp ++ ["kernel"]) = false) as Hk5.
  { unfold is_dir. rewrite stat_snoc, Hroot5 by done.
    rewrite Hesp3 by (by apply prefix_app_r).
    destruct (decide _) as [Hpre |]; [| done].
    unfold esp_boot, esp_boot_path in Hpre. fold esp in Hpre.
    apply prefix_app_inv, prefix_cons_inv_1 in Hpre. discriminate Hpre. }
  rewrite Hk5 in Hw6.
  (* the bootloader *)
  apply copy2_inv in Hc3 as [(e & ? & _) | (_ & boot & Hsrc3 & Hw7)]; [done |].
  rewrite stat_snoc, (file_written_lookup _ _ _ _ _ Hw6) in Hsrc3.
  destruct (decide _) as [Heq |] in Hsrc3.
  { apply app_inj_tail in Heq as [_ Heq]. discriminate Heq. }
  rewrite (file_written_lookup _ _ _ _ _ Hw5) in Hsrc3.
  destruct (decide _) as [Heq |] in Hsrc3.
  { apply app_inj_tail in Heq as [_ Heq]. discriminate Heq. }
  rewrite Hout3 in Hsrc3 by done.
  assert (is_dir (w_fs w6) (esp_boot ++ ["BootX64.efi"]) = false) as Hb6.
  { unfold is_dir. rewrite stat_snoc, (file_written_lookup _ _ _ _ _ Hw6).
    destruct (decide _) as [Heq |].
    { apply app_inj_tail in Heq as [_ Heq]. discriminate Heq. }
    rewrite (file_written_lookup _ _ _ _ _ Hw5).
    destruct (decide _) as [Heq |].
    { apply app_inj_tail in Heq as [_ Heq]. discriminate Heq. }
    rewrite Hesp3.
    - destruct (decide _) as [Hpre |]; [| done].
      apply prefix_length in Hpre. rewrite length_app in Hpre. simpl in Hpre. lia.
    - apply prefix_app_r, esp_prefix_boot. }
  rewrite Hb6 in Hw7.
  (* the command line *)
  apply write_file_inv in Hw as [(e & ? & _) | (_ & HwA)]; [done |].
  exists d, k1, boot.
  split; [done |]. split.
  { rewrite (file_written_cwd _ _ _ _ HwA), (file_written_cwd _ _ _ _ Hw7),
      (file_written_cwd _ _ _ _ Hw6), (file_written_cwd _ _ _ _ Hw5). done. }
  split; [done |]. split; [done |]. split; [done |].
  split; [| split].
  - rewrite (file_written_lookup _ _ _ _ _ HwA).
    destruct (decide _) as [Heq |].
    { apply app_inj_tail in Heq as [_ Heq]. discriminate Heq. }
    rewrite (file_written_lookup _ _ _ _ _ Hw7).
    destruct (decide _) as [Heq |].
    { apply app_inj_tail in Heq as [_ Heq]. discriminate Heq. }
    rewrite (file_written_lookup _ _ _ _ _ Hw6).
    destruct (decide _) as [Heq |].
    { apply app_inj_tail in Heq as [_ Heq]. discriminate Heq. }
    rewrite (file_written_lookup _ _ _ _ _ Hw5). by destruct (decide _).
  - rewrite (file_written_lookup _ _ _ _ _ HwA).
    destruct (decide _) as [Heq |].
    { apply app_inj_tail in Heq as [_ Heq]. discriminate Heq. }
    rewrite (file_written_lookup _ _ _ _ _ Hw7).
    destruct (decide _) as [Heq |].
    { apply app_inj_tail in Heq as [_ Heq]. discriminate Heq. }
    rewrite (file_written_lookup _ _ _ _ _ Hw6). by destruct (decide _).
  - rewrite (file_written_lookup _ _ _ _ _ HwA).
    destruct (decide _) as [Heq |].
    { apply app_inj_tail in Heq as [_ Heq]. discriminate Heq. }
    rewrite (file_written_lookup _ _ _ _ _ Hw7). by destruct (decide _).
Qed.

End DeployContents.


Section DeployResults.

Context (env : Env) (args : Args).

Let ub := user_build_path env args.
Let esp := esp_path env args.
Let esp_boot := esp_boot_path env args.

(** X12. For module names that are single plain path components:
    after a deployment that went through, a selected module other than
    rkapps whose binary is a regular file of the user build directory is
    in the ESP root with the content of that binary; and a name that is
    no regular file of the user build directory has no entry in the ESP
    root, whatever the ESP held before, unless it is one of the three
    fixed names. *)
Theorem module_binary_deployed_or_absent (w0 w' : World) (n : string) :
  Forall plain_name (mods args) ->
  wf_world w0 ->
  deploy env args w0 = (Ok tt, w') ->
  n <> "bespin" ->
  (n ∈ mods args -> n <> "rkapps" -> is_file (w_fs w0) (ub ++ [n]) = true ->
     w_fs w' !! (esp ++ [n]) = w_fs w0 !! (ub ++ [n]))
  /\ (is_file (w_fs w0) (ub ++ [n]) = false ->
      n <> "EFI" -> n <> "kernel" -> n <> "cmdline.in" ->
      w_fs w' !! (esp ++ [n]) = None).
Proof.
  intros _ Hwf Hrun Hn.
  destruct (deploy_spec env args _ _ Hwf Hrun) as (_ & Hunder & Hcopied & Hub).
  fold esp ub in Hunder, Hcopied, Hub.
  assert (is_file (w_fs w') (ub ++ [n]) = is_file (w_fs w0) (ub ++ [n])) as Hf.
  { unfold is_file. by rewrite !stat_snoc, Hub. }
  split.
  - intros Hin Hrk Hfile. rewrite <- Hub by done. apply (Hcopied n n Hin).
    apply elem_of_module_names. split; [by rewrite Hf |]. by left.
  - intros Hfile H1 H2 H3.
    destruct (w_fs w' !! (esp ++ [n])) as [x |] eqn:Hx; [| done].
    destruct (Hunder (esp ++ [n])) as [Hsk | (n' & Heq & _ & Hfile' & _)].
    + by apply prefix_app_r.
    + by rewrite Hx.
    + unfold esp_skeleton in Hsk. rewrite !elem_of_cons, elem_of_nil in Hsk.
      destruct Hsk as [H | [H | [H | [H | [H | [H | []]]]]]].
      * symmetry in H. by apply snoc_neq_self in H.
      * apply app_inv_head in H. congruence.
      * apply app_inv_head in H. discriminate H.
      * apply app_inv_head in H. discriminate H.
      * apply app_inv_head in H. congruence.
      * apply app_inv_head in H. congruence.
    + apply app_inj_tail in Heq as [_ <-]. congruence.
Qed.

(** X13. For module names that are single plain path components: a
    deployment that went through put the kernel binary of the kernel
    build directory into the working directory of the process (as
    [bespin]) and the bootloader binary into the ESP as
    [EFI/Boot/BootX64.efi]; the ESP entry [kernel] holds the kernel
    binary, unless a selected module named kernel was copied over it. *)
Theorem deploy_installs_kernel_and_bootloader (w0 w' : World) :
  Forall plain_name (mods args) ->
  wf_world w0 ->
  deploy env args w0 = (Ok tt, w') ->
  exists d kern boot,
    w_cwd w0 = Some d /\ w_cwd w' = Some d
    /\ w_fs w0 !! (kernel_build_path env args ++ ["bespin"]) = Some (File kern)
    /\ w_fs w0 !! (uefi_build_path env args ++ ["bootloader.efi"]) = Some (File boot)
    /\ w_fs w' !! (d ++ ["bespin"]) = Some (File kern)
    /\ w_fs w' !! (esp_boot ++ ["BootX64.efi"]) = Some (File boot)
    /\ (w_fs w' !! (esp ++ ["kernel"]) = Some (File kern)
        \/ ("kernel" ∈ mods args
            /\ is_file (w_fs w0) (ub ++ ["kernel"]) = true
            /\ w_fs w' !! (esp ++ ["kernel"]) = w_fs w0 !! (ub ++ ["kernel"]))).
Proof.
  intros _ Hwf Hrun. unfold deploy in Hrun.
  apply bind_ok_inv in Hrun as ([] & wA & Hfix & Hloop).
  destruct (deploy_fixed_sources env args _ _ Hwf Hfix)
    as (d & kern & boot & Hd0 & HdA & Hnp & Hk0 & Hb0 & HkA & HeA & HbA).
  destruct (deploy_fixed_spec env args _ _ Hwf Hfix) as (_ & HespA & _ & HubA & _).
  destruct (deploy_modules_spec env args _ _ _ _ HespA Hloop)
    as (f' & -> & Hframe & Hroot & _).
  fold esp ub in Hframe, Hroot, HubA, HeA, Hnp. fold esp_boot in HbA.
  exists d, kern, boot. simpl.
  split; [done |]. split; [done |]. split; [done |]. split; [done |].
  split; [| split].
  - rewrite Hframe; [done |]. intros n Heq. apply app_inj_tail in Heq as [-> _].
    by apply Hnp.
  - rewrite Hframe; [done |]. intros n Heq. apply app_inj_tail in Heq as [Heq _].
    apply (f_equal List.length) in Heq. unfold esp_boot, esp_boot_path, esp in Heq.
    rewrite length_app in Heq. simpl in Heq. lia.
  - destruct (Hroot "kernel") as [Hsame | (Hex & Hfile & Hcopy)].
    + left. by rewrite Hsame.
    + right. apply Exists_exists in Hex as (m & Hm & Hin).
      apply elem_of_module_names in Hin as [_ [[_ <-] | (_ & Hbin & _)]];
        [| discriminate Hbin].
      split; [done |].
      assert (w_fs wA !! (ub ++ ["kernel"]) = w_fs w0 !! (ub ++ ["kernel"])) as Hsame
        by (by apply HubA).
      split; [| by rewrite Hcopy].
      unfold is_file in *. by rewrite stat_snoc, <- Hsame, <- stat_snoc.
Qed.

(** The first part of a deployment goes through when the directory of the
    ESP directory exists in a tree, the ESP directory is not a regular
    file and the process is not inside it. *)
Lemma deploy_reset_ok (w0 : World) (d : list string) :
  tree_fs (w_fs w0) ->
  w_cwd w0 = Some d -> ~ esp `prefix_of` d ->
  is_dir (w_fs w0) (uefi_build_path env args) = true ->
  (forall content, w_fs w0 !! esp <> Some (File content)) ->
  exists w3, deploy_reset env args w0 = (Ok tt, w3) /\ w_cwd w3 = Some d.
Proof.
  intros Ht Hd Hnp Huefi Hesp.
  assert (forall k content, k <> [] -> k `prefix_of` esp ->
            w_fs w0 !! k <> Some (File content)) as Habove.
  { intros k content Hk Hpre. unfold esp, esp_path in Hpre.
    apply prefix_snoc_inv in Hpre as [[k' Hk'] | ->]; [| apply Hesp].
    rewrite Hk' in Huefi. apply tree_fs_ancestors in Huefi; [| done].
    unfold is_dir, stat in Huefi. destruct k as [| a k]; [done |].
    by destruct (w_fs w0 !! (a :: k)) as [[| ?] |]. }
  destruct (is_dir (w_fs w0) esp) eqn:Hdir.
  - assert (path_exists (w_fs w0) esp = true) as Hex.
    { unfold path_exists, is_dir in *. by destruct (stat (w_fs w0) esp). }
    destruct (mkdir_from_ok [] esp_boot (remove_tree esp (w_fs w0))) as [f3 Hf3].
    { intros k content Hk Hpre. simpl. rewrite lookup_remove_tree.
      destruct (decide (esp `prefix_of` k)) as [| Hnk]; [done |].
      destruct (esp_boot_prefix_area env args None _ Hpre)
        as [? | [? | (? & [=] & _)]]; [done |]. by apply Habove. }
    eexists. split.
    + unfold deploy_reset, bind, log, print. cbn [w_fs add_line]. fold esp.
      rewrite Hex, Hdir. cbn [andb]. unfold rmtree, mkdir_parents.
      cbn [w_fs w_cwd add_line set_fs set_cwd]. fold esp_boot. rewrite Hf3. reflexivity.
    + cbn [w_cwd add_line set_fs set_cwd]. rewrite Hd.
      by destruct (decide (esp `prefix_of` d)).
  - destruct (mkdir_from_ok [] esp_boot (w_fs w0)) as [f3 Hf3].
    { intros k content Hk Hpre. simpl.
      destruct (esp_boot_prefix_area env args None _ Hpre)
        as [[k' ->] | [? | (? & [=] & _)]]; [| by apply Habove].
      destruct (decide (k' = [])) as [-> | Hk'].
      - rewrite app_nil_r. apply Hesp.
      - fold esp. by rewrite (tree_fs_no_children _ _ _ Ht Hdir Hk'). }
    eexists. split.
    + unfold deploy_reset, bind, log, print. cbn [w_fs add_line]. fold esp.
      rewrite Hdir, andb_false_r. unfold mkdir_parents.
      cbn [w_fs w_cwd add_line set_fs set_cwd]. fold esp_boot. rewrite Hf3. reflexivity.
    + done.
Qed.

(** X14. A deployment is not atomic: when the ESP directory of an earlier
    deployment exists and the kernel binary is missing from the kernel
    build directory, the deployment ends with [FileNotFoundError] after
    having removed the old ESP tree, of which only the directories down
    to [EFI/Boot], made again, are left. *)
Theorem deploy_without_kernel_binary (w0 : World) (d : list string) :
  wf_world w0 ->
  w_cwd w0 = Some d -> ~ esp `prefix_of` d ->
  is_dir (w_fs w0) esp = true ->
  w_fs w0 !! (kernel_build_path env args ++ ["bespin"]) = None ->
  (deploy env args w0).1 = Raise FileNotFoundError
  /\ forall q, esp `prefix_of` q ->
       w_fs (deploy env args w0).2 !! q
       = if decide (q `prefix_of` esp_boot) then Some Dir else None.
Proof.
  intros Hwf Hd Hnp Hesp Hsrc.
  destruct (deploy_reset_ok w0 d) as (w3 & Hreset & Hcwd3);
    [by destruct Hwf | done | done | | |].
  { apply (tree_fs_ancestors _ _ ["esp"]); [by destruct Hwf | done]. }
  { intros content Hc. unfold is_dir in Hesp. unfold esp, esp_path in Hesp, Hc.
    by rewrite stat_snoc, Hc in Hesp. }
  destruct (deploy_reset_spec env args _ _ Hwf Hreset) as ([Ht3 Hc3] & _ & Hesp3 & Hout3).
  destruct (kernel_binary_outside_esp env args) as [Hk1 Hk2].
  assert (deploy env args w0 = (Raise FileNotFoundError, w3)) as ->; [| done].
  unfold deploy. unfold bind at 1. rewrite deploy_fixed_split.
  unfold bind at 1. rewrite Hreset.
  unfold deploy_copies. unfold bind at 1. unfold getcwd.
  rewrite Hcwd3, (Hc3 _ Hcwd3). unfold bind at 1. unfold copy2.
  assert (stat (w_fs w3) (kernel_build_path env args ++ ["bespin"]) = None) as Hst.
  { rewrite stat_snoc, Hout3 by done. done. }
  unfold path_exists. rewrite Hst. reflexivity.
Qed.

End DeployResults.

Lemma sample_world_no_kernel_wf : wf_world sample_world_no_kernel.
Proof.
  split.
  - apply tree_fs_check_sound. vm_compute. reflexivity.
  - intros d [= <-]. vm_compute. reflexivity.
Qed.

Lemma module_binary_deployed_or_absent_witness :
  (("init" : string) ∈ mods (sample_args "qemu" None None) -> "init" <> "rkapps" ->
   is_file (w_fs sample_world)
     (user_build_path sample_env (sample_args "qemu" None None) ++ ["init"]) = true ->
   w_fs (deploy sample_env (sample_args "qemu" None None) sample_world).2
     !! (esp_path sample_env (sample_args "qemu" None None) ++ ["init"])
   = w_fs sample_world
       !! (user_build_path sample_env (sample_args "qemu" None None) ++ ["init"]))
  /\ (is_file (w_fs sample_world)
        (user_build_path sample_env (sample_args "qemu" None None) ++ ["init"]) = false ->
      "init" <> "EFI" -> "init" <> "kernel" -> "init" <> "cmdline.in" ->
      w_fs (deploy sample_env (sample_args "qemu" None None) sample_world).2
        !! (esp_path sample_env (sample_args "qemu" None None) ++ ["init"]) = None).
Proof.
  apply (module_binary_deployed_or_absent sample_env (sample_args "qemu" None None)
           sample_world
           (deploy sample_env (sample_args "qemu" None None) sample_world).2 "init").
  - apply sample_mods_plain.
  - apply sample_world_wf.
  - apply run_ok. vm_compute. reflexivity.
  - discriminate.
Defined.

Lemma deploy_installs_kernel_and_bootloader_witness :
  exists d kern boot,
    w_cwd sample_world = Some d
    /\ w_cwd (deploy sample_env (sample_args "qemu" None None) sample_world).2 = Some d
    /\ w_fs sample_world
         !! (kernel_build_path sample_env (sample_args "qemu" None None) ++ ["bespin"])
       = Some (File kern)
    /\ w_fs sample_world
         !! (uefi_build_path sample_env (sample_args "qemu" None None)
               ++ ["bootloader.efi"])
       = Some (File boot)
    /\ w_fs (deploy sample_env (sample_args "qemu" None None) sample_world).2
         !! (d ++ ["bespin"]) = Some (File kern)
    /\ w_fs (deploy sample_env (sample_args "qemu" None None) sample_world).2
         !! (esp_boot_path sample_env (sample_args "qemu" None None) ++ ["BootX64.efi"])
       = Some (File boot)
    /\ (w_fs (deploy sample_env (sample_args "qemu" None None) sample_world).2
          !! (esp_path sample_env (sample_args "qemu" None None) ++ ["kernel"])
        = Some (File kern)
        \/ ("kernel" ∈ mods (sample_args "qemu" None None)
            /\ is_file (w_fs sample_world)
                 (user_build_path sample_env (sample_args "qemu" None None)
                    ++ ["kernel"]) = true
            /\ w_fs (deploy sample_env (sample_args "qemu" None None) sample_world).2
                 !! (esp_path sample_env (sample_args "qemu" None None) ++ ["kernel"])
               = w_fs sample_world
                   !! (user_build_path sample_env (sample_args "qemu" None None)
                         ++ ["kernel"]))).
Proof.
  apply (deploy_installs_kernel_and_bootloader sample_env (sample_args "qemu" None None)
           sample_world
           (deploy sample_env (sample_args "qemu" None None) sample_world).2).
  - apply sample_mods_plain.
  - apply sample_world_wf.
  - apply run_ok. vm_compute. reflexivity.
Defined.

Lemma deploy_without_kernel_binary_witness :
  (deploy sample_env (sample_args "qemu" None None) sample_world_no_kernel).1
  = Raise FileNotFoundError
  /\ forall q, esp_path sample_env (sample_args "qemu" None None) `prefix_of` q ->
       w_fs (deploy sample_env (sample_args "qemu" None None) sample_world_no_kernel).2
         !! q
       = if decide (q `prefix_of` esp_boot_path sample_env (sample_args "qemu" None None))
         then Some Dir else None.
Proof.
  apply (deploy_without_kernel_binary sample_env (sample_args "qemu" None None)
           sample_world_no_kernel ["repo"; "kernel"]).
  - apply sample_world_no_kernel_wf.
  - reflexivity.
  - intros H. apply prefix_cons_inv_2, prefix_cons_inv_1 in H. discriminate H.
  - vm_compute. reflexivity.
  - vm_compute. reflexivity.
Defined.


(* --------------------------------------------------------------------- *)
(** *** A failing build *)
(* --------------------------------------------------------------------- *)

Lemma run_calls_app (env : Env) (cs1 cs2 : list Invocation)
    (f : gmap (list string) node) :
  (run_calls env (cs1 ++ cs2) f).1
  = (run_calls env cs1 f).1 ++ (run_calls env cs2 (run_calls env cs1 f).2).1
  /\ (run_calls env (cs1 ++ cs2) f).2
     = (run_calls env cs2 (run_calls env cs1 f).2).2.
Proof.
  revert f. induction cs1 as [| inv cs1 IH]; intros f; simpl; [done |].
  destruct (run_xargo env inv f) as [ok f1].
  destruct (IH f1) as [IH1 IH2].
  destruct (run_calls env (cs1 ++ cs2) f1) as [oks f2].
  destruct (run_calls env cs1 f1) as [oks1 f3]. simpl in *.
  by rewrite IH1, IH2.
Qed.

Lemma run_calls_length (env : Env) (cs : list Invocation)
    (f : gmap (list string) node) :
  List.length (run_calls env cs f).1 = List.length cs.
Proof.
  revert f. induction cs as [| inv cs IH]; intros f; simpl; [done |].
  destruct (run_xargo env inv f) as [ok f1]. specialize (IH f1).
  destruct (run_calls env cs f1) as [oks f2]. simpl in *. by rewrite IH.
Qed.

(** A computation that makes no call and leaves the file system alone. *)
Lemma fail_fast_still (env : Env) {A} (m : M A) :
  (forall w w' r, m w = (r, w') -> w_calls w' = w_calls w /\ w_fs w' = w_fs w) ->
  fail_fast env m.
Proof.
  intros Hq w w' r Hm. destruct (Hq _ _ _ Hm) as [Hc Hf].
  exists []. split; [by rewrite app_nil_r |]. split; [done |].
  intros i Hi. simpl in Hi. by rewrite lookup_nil in Hi.
Qed.

Lemma fail_fast_log (env : Env) (msg : string) : fail_fast env (log msg).
Proof. apply fail_fast_still. by intros w w' r [= <- <-]. Qed.

Lemma fail_fast_ret (env : Env) {A} (a : A) : fail_fast env (ret a).
Proof. apply fail_fast_still. by intros w w' r [= <- <-]. Qed.

Lemma fail_fast_raise (env : Env) {A} (e : exn) : fail_fast env (@raise A e).
Proof. apply fail_fast_still. by intros w w' r [= <- <-]. Qed.

Lemma chdir_still (p : list string) (w w' : World) (r : Outcome unit) :
  chdir p w = (r, w') -> w_calls w' = w_calls w /\ w_fs w' = w_fs w.
Proof.
  unfold chdir. destruct (stat (w_fs w) p) as [[| c] |]; by intros [= <- <-].
Qed.

Lemma fail_fast_bind (env : Env) {A B} (m : M A) (k : A -> M B) :
  fail_fast env m -> (forall a, fail_fast env (k a)) -> fail_fast env (bind m k).
Proof.
  intros Hm Hk w w' r. unfold bind.
  destruct (m w) as [[a | e] w1] eqn:Hmw.
  - intros Hkw. destruct (Hm _ _ _ Hmw) as (cs1 & Hc1 & Hf1 & H1).
    destruct (Hk a _ _ _ Hkw) as (cs2 & Hc2 & Hf2 & H2).
    destruct (run_calls_app env cs1 cs2 (w_fs w)) as [Ho Hf].
    exists (cs1 ++ cs2). split; [by rewrite Hc2, Hc1, app_assoc |].
    split; [by rewrite Hf, <- Hf1 |].
    intros i Hi. rewrite Ho in Hi.
    destruct (decide (i < List.length (run_calls env cs1 (w_fs w)).1)%nat) as [Hlt | Hge].
    + rewrite lookup_app_l in Hi by done.
      by destruct (H1 i Hi) as (_ & e & ?).
    + rewrite lookup_app_r in Hi by lia. rewrite <- Hf1 in Hi.
      destruct (H2 _ Hi) as (Hlast & He). split; [| done].
      rewrite run_calls_length in Hlast, Hge. rewrite length_app. lia.
  - intros [= <- <-]. destruct (Hm _ _ _ Hmw) as (cs1 & Hc1 & Hf1 & H1).
    exists cs1. split; [done |]. split; [done |]. intros i Hi.
    destruct (H1 i Hi) as (Hlast & _). split; [done |]. by exists e.
Qed.

Lemma fail_fast_for_each (env : Env) {A} (l : list A) (body : A -> M unit) :
  (forall x, fail_fast env (body x)) -> fail_fast env (for_each l body).
Proof.
  intros Hb. induction l as [| x l IH]; simpl; [apply fail_fast_ret |].
  apply fail_fast_bind; [apply Hb | done].
Qed.

Lemma fail_fast_with_cwd (env : Env) {A} (p : list string) (body : M A) :
  fail_fast env body -> fail_fast env (with_cwd p body).
Proof.
  intros Hb w w' r. unfold with_cwd.
  destruct (chdir p w) as [[[] | e] w1] eqn:Hc;
    destruct (chdir_still _ _ _ _ Hc) as [Hc1 Hf1].
  - destruct (body w1) as [r2 w2] eqn:Hbody.
    destruct (Hb _ _ _ Hbody) as (cs & Hcs & Hfs & H). rewrite Hc1 in Hcs.
    rewrite Hf1 in Hfs, H.
    destruct (w_cwd w) as [d |].
    + destruct (chdir d w2) as [[[] | e] w3] eqn:Hc3;
        destruct (chdir_still _ _ _ _ Hc3) as [Hc3' Hf3]; intros [= <- <-];
        exists cs; (split; [congruence |]); (split; [congruence |]); intros i Hi;
        destruct (H i Hi) as (Hlast & e' & ?); (split; [done |]); by eexists.
    + intros [= <- <-]. exists cs. split; [done |]. split; [done |]. intros i Hi.
      destruct (H i Hi) as (Hlast & _). split; [done |]. by eexists.
  - intros [= <- <-]. exists []. split; [by rewrite app_nil_r |]. split; [done |].
    intros i Hi. simpl in Hi. by rewrite lookup_nil in Hi.
Qed.

Lemma ends_at_failure_quiet (env : Env) {A} (m : M A) :
  quiet m -> ends_at_failure env m.
Proof.
  intros Hq w w' r Hm. destruct (Hq _ _ _ Hm) as [Hc _].
  exists []. split; [by rewrite app_nil_r |].
  intros i Hi. simpl in Hi. by rewrite lookup_nil in Hi.
Qed.

Lemma ends_at_failure_bind (env : Env) {A B} (m : M A) (k : A -> M B) :
  fail_fast env m -> (forall a, ends_at_failure env (k a)) ->
  ends_at_failure env (bind m k).
Proof.
  intros Hm Hk w w' r. unfold bind.
  destruct (m w) as [[a | e] w1] eqn:Hmw.
  - intros Hkw. destruct (Hm _ _ _ Hmw) as (cs1 & Hc1 & Hf1 & H1).
    destruct (Hk a _ _ _ Hkw) as (cs2 & Hc2 & H2).
    destruct (run_calls_app env cs1 cs2 (w_fs w)) as [Ho Hf].
    exists (cs1 ++ cs2). split; [by rewrite Hc2, Hc1, app_assoc |].
    intros i Hi. rewrite Ho in Hi.
    destruct (decide (i < List.length (run_calls env cs1 (w_fs w)).1)%nat) as [Hlt | Hge].
    + rewrite lookup_app_l in Hi by done.
      by destruct (H1 i Hi) as (_ & e & ?).
    + rewrite lookup_app_r in Hi by lia. rewrite <- Hf1 in Hi.
      destruct (H2 _ Hi) as (Hlast & He & Hfs). split; [| split; [done |]].
      * rewrite run_calls_length in Hlast, Hge. rewrite length_app. lia.
      * by rewrite Hf, <- Hf1.
  - intros [= <- <-]. destruct (Hm _ _ _ Hmw) as (cs1 & Hc1 & Hf1 & H1).
    exists cs1. split; [done |]. intros i Hi.
    destruct (H1 i Hi) as (Hlast & _). split; [done |]. split; [by exists e | done].
Qed.

Section FailingBuild.

Context (env : Env).

Lemma fail_fast_xargo (rtp : list string) (build_args : list string) :
  fail_fast env (xargo env rtp build_args).
Proof.
  intros w w' r. unfold xargo.
  destruct (w_cwd w) as [d |].
  - destruct (run_xargo env _ _) as [ok f] eqn:Hrun.
    intros Hres. eexists [_]. simpl. rewrite Hrun. simpl.
    split; [by destruct ok; injection Hres as <- <- |].
    split; [by destruct ok; injection Hres as <- <- |].
    intros [| i] Hi; simpl in Hi; [| by rewrite lookup_nil in Hi].
    injection Hi as ->. split; [done |]. injection Hres as <- <-. by eexists.
  - intros [= <- <-]. exists []. split; [by rewrite app_nil_r |]. split; [done |].
    intros i Hi. simpl in Hi. by rewrite lookup_nil in Hi.
Qed.

Lemma fail_fast_build_bootloader (args : Args) :
  fail_fast env (build_bootloader env args).
Proof.
  unfold build_bootloader.
  apply fail_fast_bind; [apply fail_fast_log | intros _].
  intros w w' r H. eapply (fail_fast_with_cwd _ _ _ (fail_fast_xargo _ _)), H.
Qed.

Lemma fail_fast_build_kernel (args : Args) : fail_fast env (build_kernel env args).
Proof.
  unfold build_kernel.
  apply fail_fast_bind; [apply fail_fast_log | intros _].
  apply fail_fast_with_cwd. intros w w' r H. eapply fail_fast_xargo, H.
Qed.

Lemma fail_fast_build_user_libraries (args : Args) :
  fail_fast env (build_user_libraries env args).
Proof.
  unfold build_user_libraries.
  apply fail_fast_bind; [apply fail_fast_log | intros _].
  intros w w' r H. eapply (fail_fast_with_cwd _ _ _ (fail_fast_xargo _ _)), H.
Qed.

Lemma fail_fast_build_userspace (args : Args) :
  fail_fast env (build_userspace env args).
Proof.
  unfold build_userspace. intros w0 w0' r0 H0. revert H0.
  apply fail_fast_for_each. intros module.
  unfold build_user_module. intros w1 w1' r1 H1. revert H1.
  destruct (negb _); [apply fail_fast_log |].
  apply fail_fast_with_cwd.
  destruct (add_ufeatures _ _ _) as [build_args | e].
  - apply fail_fast_bind; [apply fail_fast_log | intros _].
    apply fail_fast_xargo.
  - apply fail_fast_raise.
Qed.

Lemma ends_at_failure_build_and_deploy (args : Args) :
  ends_at_failure env (build_and_deploy env args).
Proof.
  unfold build_and_deploy.
  apply ends_at_failure_bind; [apply fail_fast_build_bootloader | intros _].
  apply ends_at_failure_bind; [apply fail_fast_build_kernel | intros _].
  apply ends_at_failure_bind; [apply fail_fast_build_user_libraries | intros _].
  apply ends_at_failure_bind; [apply fail_fast_build_userspace | intros _].
  apply ends_at_failure_quiet, quiet_deploy.
Qed.

(** The hook changes neither the outcome nor the calls nor the file
    system. *)
Lemma run_script_main (message : exn -> string) (args : Args) (w : World) :
  (run_script env message args w).1 = (main env args w).1
  /\ w_calls (run_script env message args w).2 = w_calls (main env args w).2
  /\ w_fs (run_script env message args w).2 = w_fs (main env args w).2.
Proof.
  unfold run_script. destruct (main env args w) as [[a | e] w']; [done |].
  destruct e; destruct (verbose args); done.
Qed.

(** X15. A failing build ends the run.  Take the toolchain calls the
    script made and their exit statuses, each call finding the file
    system as the call before it left it, the first the file system of
    the start.  A call that exited with a non-zero status is the last
    call made; the run ends in an exception, not in an exit code of the
    script or of the kernel; and nothing is deployed or launched after
    it: the file system is as that call left it. *)
Theorem failed_build_ends_run (message : exn -> string) (args : Args) (w : World)
    (i : nat) :
  (run_calls env (new_calls w (run_script env message args w).2) (w_fs w)).1 !! i
  = Some false ->
  S i = List.length (new_calls w (run_script env message args w).2)
  /\ (exists e, (run_script env message args w).1 = Raise e
                /\ forall code, e <> SystemExit code)
  /\ w_fs (run_script env message args w).2
     = (run_calls env (new_calls w (run_script env message args w).2) (w_fs w)).2.
Proof.
  destruct (run_script_main message args w) as (-> & Hcalls & ->).
  unfold new_calls. rewrite Hcalls. fold (new_calls w (main env args w).2).
  destruct (main env args w) as [r w'] eqn:Hmain. simpl.
  unfold main in Hmain. destruct (_ && _) in Hmain.
  { injection Hmain as <- <-. simpl. unfold new_calls. rewrite drop_all.
    intros Hi. simpl in Hi. by rewrite lookup_nil in Hi. }
  unfold bind at 1 in Hmain.
  destruct (extend_cargo_default_args_ok args w) as (w0 & Hext & Hc0 & Hf0 & _).
  rewrite Hext in Hmain. unfold bind at 1 in Hmain.
  destruct (build_and_deploy env args w0) as [[[] | e] w1] eqn:Hbd;
    destruct (ends_at_failure_build_and_deploy _ _ _ _ Hbd) as (cs & Hcs & H);
    rewrite Hc0 in Hcs; rewrite Hf0 in H.
  - assert (w_calls w' = w_calls w ++ cs) as Hcs'.
    { destruct (norun args); simpl in Hmain; [by injection Hmain as <- <- |].
      unfold bind in Hmain.
      destruct (run env args w1) as [[code | e] w2] eqn:Hrun;
        destruct (quiet_run env _ _ _ _ Hrun) as [Hq _];
        injection Hmain as <- <-; congruence. }
    rewrite (new_calls_app _ _ _ Hcs'). intros Hi.
    by destruct (H i Hi) as (_ & (e & ?) & _).
  - injection Hmain as <- <-. rewrite (new_calls_app _ _ _ Hcs). intros Hi.
    destruct (H i Hi) as (Hlast & _ & Hfs). split; [done |]. split; [| done].
    exists e. split; [done |]. intros code ->.
    destruct (tame_build_and_deploy env args _ _ _ Hbd) as [_ Hne]. by eapply Hne.
Qed.

(** X16. The numbers of NUMA nodes and of cores given on the command line
    do not reach the emulator or any other stage: with the emulator
    selected, a run with other numbers is the same run. *)
Theorem qemu_nodes_and_cores_have_no_effect (args : Args) (nodes cores : option Z)
    (w : World) :
  String.eqb (machine args) "qemu" = true ->
  main env (with_topology nodes cores args) w = main env args w.
Proof.
  intros Hm. unfold main. cbn [machine with_topology]. rewrite Hm. reflexivity.
Qed.

End FailingBuild.

Lemma failed_build_ends_run_witness :
  S 1 = List.length
          (new_calls sample_world
             (run_script sample_env_kernel_fails sample_message
                (sample_args "qemu" None None) sample_world).2)
  /\ (exists e,
        (run_script sample_env_kernel_fails sample_message
           (sample_args "qemu" None None) sample_world).1 = Raise e
        /\ forall code, e <> SystemExit code)
  /\ w_fs (run_script sample_env_kernel_fails sample_message
             (sample_args "qemu" None None) sample_world).2
     = (run_calls sample_env_kernel_fails
          (new_calls sample_world
             (run_script sample_env_kernel_fails sample_message
                (sample_args "qemu" None None) sample_world).2)
          (w_fs sample_world)).2.
Proof.
  apply (failed_build_ends_run sample_env_kernel_fails sample_message
           (sample_args "qemu" None None) sample_world 1).
  vm_compute. reflexivity.
Defined.

Lemma qemu_nodes_and_cores_have_no_effect_witness :
  main sample_env (with_topology (Some 2) (Some 8) (sample_args "qemu" None None))
       sample_world
  = main sample_env (sample_args "qemu" None None) sample_world.
Proof.
  apply (qemu_nodes_and_cores_have_no_effect sample_env (sample_args "qemu" None None)
           (Some 2) (Some 8) sample_world).
  reflexivity.
Defined.


(* --------------------------------------------------------------------- *)
(** *** When the deployment goes through *)
(* --------------------------------------------------------------------- *)

Lemma is_dir_lookup (f : gmap (list string) node) (p : list string) :
  p <> [] -> f !! p = Some Dir -> is_dir f p = true.
Proof. intros Hp H. unfold is_dir, stat. destruct p; [done |]. by rewrite H. Qed.





Section DeployGoesThrough.

Context (env : Env) (args : Args).

Let ub := user_build_path env args.
Let esp := esp_path env args.
Let esp_boot := esp_boot_path env args.





End DeployGoesThrough.



(* --------------------------------------------------------------------- *)
(** *** What the ESP holds after a deployment *)
(* --------------------------------------------------------------------- *)

Section DeployExact.

Context (env : Env) (args : Args).

Let ub := user_build_path env args.
Let esp := esp_path env args.
Let esp_boot := esp_boot_path env args.

(** The ESP after the fixed part of a deployment that went through. *)
Lemma deploy_fixed_exact (w0 wA : World) (kern boot : string) :
  wf_world w0 ->
  deploy_fixed env args w0 = (Ok tt, wA) ->
  w_fs wA !! (esp ++ ["kernel"]) = Some (File kern) ->
  w_fs wA !! (esp_boot ++ ["BootX64.efi"]) = Some (File boot) ->
  forall k, w_fs wA !! (esp ++ k) = esp_fixed_entry args kern boot k.
Proof.
  intros Hwf Hfix Hkern Hboot k.
  destruct (deploy_fixed_spec env args _ _ Hwf Hfix)
    as ([HtA _] & HespA & (kern' & HrootA) & _ & HskA).
  fold esp in HespA, HrootA, HskA.
  unfold esp_fixed_entry.
  destruct (decide (k = [])) as [-> | Hk0].
  { rewrite app_nil_r. unfold esp, esp_path in *. by apply is_dir_snoc. }
  destruct (decide (k = ["EFI"])) as [-> | Hk1].
  { by rewrite HrootA. }
  destruct (decide (k = ["EFI"; "Boot"])) as [-> | Hk2].
  { change (esp ++ ["EFI"; "Boot"]) with (esp ++ ["EFI"] ++ ["Boot"]).
    rewrite app_assoc. apply is_dir_snoc. rewrite <- app_assoc.
    apply (HtA _ "BootX64.efi"). exists (File boot). exact Hboot. }
  destruct (decide (k = ["EFI"; "Boot"; "BootX64.efi"])) as [-> | Hk3].
  { unfold esp_boot, esp_boot_path in Hboot. fold esp in Hboot.
    by rewrite <- app_assoc in Hboot. }
  destruct (decide (k = ["kernel"])) as [-> | Hk4]; [done |].
  destruct (decide (k = ["cmdline.in"])) as [-> | Hk5].
  { by rewrite HrootA. }
  destruct (w_fs wA !! (esp ++ k)) as [x |] eqn:Hx; [| done].
  assert (esp ++ k ∈ esp_skeleton esp) as Hsk.
  { apply HskA; [by apply prefix_app_r | by rewrite Hx]. }
  unfold esp_skeleton in Hsk. rewrite !elem_of_cons, elem_of_nil in Hsk.
  rewrite <- (app_nil_r esp) in Hsk at 2.
  destruct Hsk as [H | [H | [H | [H | [H | [H | []]]]]]];
    apply app_inv_head in H; done.
Qed.

(** The file system after a deployment that went through. *)
Lemma deploy_exact (w0 w' : World) :
  wf_world w0 ->
  deploy env args w0 = (Ok tt, w') ->
  exists d kern boot,
    w_cwd w0 = Some d /\ w_cwd w' = Some d /\ ~ esp `prefix_of` d
    /\ w_fs w0 !! (kernel_build_path env args ++ ["bespin"]) = Some (File kern)
    /\ w_fs w0 !! (uefi_build_path env args ++ ["bootloader.efi"]) = Some (File boot)
    /\ w_fs w' !! (d ++ ["bespin"]) = Some (File kern)
    /\ (forall k, (forall n, k <> [n]) ->
          w_fs w' !! (esp ++ k) = esp_fixed_entry args kern boot k)
    /\ (forall n,
          Exists (fun m => n ∈ module_names ub (w_fs w') m) (mods args) ->
          w_fs w' !! (esp ++ [n]) = w_fs w' !! (ub ++ [n]))
    /\ (forall n,
          ~ Exists (fun m => n ∈ module_names ub (w_fs w') m) (mods args) ->
          w_fs w' !! (esp ++ [n]) = esp_fixed_entry args kern boot [n]).
Proof.
  intros Hwf Hrun. unfold deploy in Hrun.
  apply bind_ok_inv in Hrun as ([] & wA & Hfix & Hloop).
  destruct (deploy_fixed_sources env args _ _ Hwf Hfix)
    as (d & kern & boot & Hd0 & HdA & Hnp & Hk0 & Hb0 & HkA & HeA & HbA).
  fold esp in Hnp, HeA. fold esp_boot in HbA.
  pose proof (deploy_fixed_exact _ _ _ _ Hwf Hfix HeA HbA) as HfixedA.
  destruct (deploy_fixed_spec env args _ _ Hwf Hfix) as (_ & HespA & _).
  destruct (deploy_modules_spec env args _ _ _ _ HespA Hloop)
    as (f' & -> & Hframe & Hroot & Hall & _).
  fold esp ub in Hframe, Hroot, Hall.
  assert (forall n, f' !! (ub ++ [n]) = w_fs wA !! (ub ++ [n])) as Hub.
  { intros n. apply Hframe. intros n'. apply (ub_child_not_esp_child env args). }
  assert (forall n,
            Exists (fun m => n ∈ module_names ub f' m) (mods args)
            <-> Exists (fun m => n ∈ module_names ub (w_fs wA) m) (mods args)) as Hnames.
  { intros n. rewrite !Exists_exists.
    split; intros (m & Hm & Hin); exists m; (split; [done |]);
      by apply (module_names_agree env args (w_fs wA) f'). }
  exists d, kern, boot. simpl.
  split; [done |]. split; [done |]. split; [done |]. split; [done |]. split; [done |].
  split; [| split; [| split]].
  - rewrite Hframe; [done |]. intros n Heq. apply app_inj_tail in Heq as [-> _].
    by apply Hnp.
  - intros k Hk. rewrite Hframe; [apply HfixedA |].
    intros n Heq. apply app_inv_head in Heq. by apply (Hk n).
  - intros n Hex. apply Hnames, Exists_exists in Hex as (m & Hm & Hin).
    by rewrite (Hall eq_refl m n Hm Hin), Hub.
  - intros n Hnex. destruct (Hroot n) as [-> | (Hex & _)]; [apply HfixedA |].
    by apply Hnames in Hex.
Qed.

(** A deployment leaves the user build directory alone, unless it is the
    working directory of the process. *)
Lemma deploy_keeps_user_build_dir (w : World) (d : list string) (n : string) :
  w_cwd w = Some d -> ub ++ [n] <> d ++ ["bespin"] ->
  w_fs (deploy env args w).2 !! (ub ++ [n]) = w_fs w !! (ub ++ [n]).
Proof.
  intros Hd Hne. destruct (deploy env args w) as [r w'] eqn:Hrun. simpl.
  apply (confined_deploy env args (Some d) _ _ _ (or_introl Hd) Hrun).
  intros [Hpre | [Hpre | (d0 & [= <-] & ?)]]; [| | done].
  - by apply (esp_not_prefix_ub_child env args n).
  - apply (ub_child_not_prefix_esp_boot env args n).
    etrans; [exact Hpre | apply esp_prefix_boot].
Qed.

Lemma deploy_esp_agree (w0 w' v0 v' : World) :
  wf_world w0 -> wf_world v0 ->
  deploy env args w0 = (Ok tt, w') ->
  deploy env args v0 = (Ok tt, v') ->
  w_fs w0 !! (kernel_build_path env args ++ ["bespin"])
  = w_fs v0 !! (kernel_build_path env args ++ ["bespin"]) ->
  w_fs w0 !! (uefi_build_path env args ++ ["bootloader.efi"])
  = w_fs v0 !! (uefi_build_path env args ++ ["bootloader.efi"]) ->
  (forall n, w_fs w' !! (ub ++ [n]) = w_fs v' !! (ub ++ [n])) ->
  forall k, w_fs w' !! (esp ++ k) = w_fs v' !! (esp ++ k).
Proof.
  intros Hwfw Hwfv Hrunw Hrunv Hkern Hboot Hub k.
  destruct (deploy_exact _ _ Hwfw Hrunw)
    as (dw & kern & boot & _ & _ & _ & Hkw & Hbw & _ & Hdeepw & Hcopyw & Hkeepw).
  destruct (deploy_exact _ _ Hwfv Hrunv)
    as (dv & kern' & boot' & _ & _ & _ & Hkv & Hbv & _ & Hdeepv & Hcopyv & Hkeepv).
  assert (kern' = kern) as -> by congruence.
  assert (boot' = boot) as -> by congruence.
  assert (forall n,
            Exists (fun m => n ∈ module_names ub (w_fs w') m) (mods args)
            <-> Exists (fun m => n ∈ module_names ub (w_fs v') m) (mods args)) as Hnames.
  { intros n. rewrite !Exists_exists.
    split; intros (m & Hm & Hin); exists m; (split; [done |]).
    - by apply (module_names_agree env args (w_fs w') (w_fs v')).
    - by apply (module_names_agree env args (w_fs v') (w_fs w')). }
  assert ((exists n, k = [n]) \/ (forall n, k <> [n])) as [[n ->] | Hk].
  { destruct k as [| n [| c k]]; [by right | left; by exists n | by right]. }
  - destruct (decide (Exists (fun m => n ∈ module_names ub (w_fs w') m) (mods args)))
      as [Hex | Hnex].
    + rewrite (Hcopyw n Hex), (Hcopyv n); [apply Hub | by apply Hnames].
    + rewrite (Hkeepw n Hnex), (Hkeepv n); [done |]. intros Hex. by apply Hnex, Hnames.
  - by rewrite (Hdeepw k Hk), (Hdeepv k Hk).
Qed.

(** X18. For module names that are single plain path components: what
    a deployment that went through leaves at and below the ESP directory
    is determined by the kernel binary, the bootloader binary, the
    command line, the module selection and the entries of the user build
    directory: two such deployments with the same arguments, from file
    systems that agree on the two binaries and with the same entries in
    the user build directory afterwards, leave the same ESP, whatever
    else the file systems and the old ESP trees held. *)
Theorem esp_content_determined (w0 w' v0 v' : World) :
  Forall plain_name (mods args) ->
  wf_world w0 -> wf_world v0 ->
  deploy env args w0 = (Ok tt, w') ->
  deploy env args v0 = (Ok tt, v') ->
  w_fs w0 !! (kernel_build_path env args ++ ["bespin"])
  = w_fs v0 !! (kernel_build_path env args ++ ["bespin"]) ->
  w_fs w0 !! (uefi_build_path env args ++ ["bootloader.efi"])
  = w_fs v0 !! (uefi_build_path env args ++ ["bootloader.efi"]) ->
  (forall n, w_fs w' !! (ub ++ [n]) = w_fs v' !! (ub ++ [n])) ->
  forall q, esp `prefix_of` q -> w_fs w' !! q = w_fs v' !! q.
Proof.
  intros _ Hwfw Hwfv Hrunw Hrunv Hkern Hboot Hub q [k ->].
  by apply (deploy_esp_agree w0 w' v0 v').
Qed.

(** X19. Deploying again changes nothing: after a deployment that went
    through, a second deployment with the same arguments that goes
    through leaves every path of the file system as the first left it. *)
Theorem redeploy_changes_nothing (w0 w1 w2 : World) :
  wf_world w0 ->
  deploy env args w0 = (Ok tt, w1) ->
  deploy env args w1 = (Ok tt, w2) ->
  forall q, stat (w_fs w2) q = stat (w_fs w1) q.
Proof.
  intros Hwf0 Hrun1 Hrun2 q.
  assert (wf_world w1) as Hwf1 by (by destruct (deploy_spec env args _ _ Hwf0 Hrun1)).
  assert (wf_world w2) as Hwf2 by (by destruct (deploy_spec env args _ _ Hwf1 Hrun2)).
  destruct (deploy_exact _ _ Hwf0 Hrun1)
    as (d & kern & boot & Hd0 & Hd1 & Hnp & Hk0 & Hb0 & Hbespin1 & Hdeep1 & _).
  destruct (deploy_exact _ _ Hwf1 Hrun2)
    as (d' & kern' & boot' & Hd1' & _ & _ & Hk1 & Hb1 & Hbespin2 & Hdeep2 & _).
  assert (d' = d) as -> by congruence.
  assert (forall p, ~ deploy_area env args (Some d) p ->
            w_fs w1 !! p = w_fs w0 !! p) as Hout1.
  { apply (confined_deploy env args (Some d) _ _ _ (or_introl Hd0) Hrun1). }
  assert (forall p, ~ deploy_area env args (Some d) p ->
            w_fs w2 !! p = w_fs w1 !! p) as Hout2.
  { apply (confined_deploy env args (Some d) _ _ _ (or_introl Hd1) Hrun2). }
  destruct (kernel_binary_outside_esp env args) as [Hko1 Hko2].
  destruct (bootloader_binary_outside_esp env args) as [Hbo1 Hbo2].
  fold esp in Hko1, Hko2, Hbo1, Hbo2.
  (* the second deployment copies the same binaries *)
  assert (kern' = kern) as ->.
  { destruct (decide (kernel_build_path env args ++ ["bespin"] = d ++ ["bespin"]))
      as [Heq | Hne].
    - rewrite Heq in Hk1. congruence.
    - rewrite Hout1 in Hk1; [congruence |].
      intros [? | [? | (d0 & [= <-] & ?)]]; done. }
  assert (w_fs w1 !! (uefi_build_path env args ++ ["bootloader.efi"])
          = w_fs w0 !! (uefi_build_path env args ++ ["bootloader.efi"])) as Hboot.
  { apply Hout1. intros [? | [? | (d0 & _ & Heq)]]; [done | done |].
    apply app_inj_tail in Heq as [_ Heq]. discriminate Heq. }
  destruct q as [| c q0]; [done |]. unfold stat.
  destruct (decide (esp `prefix_of` c :: q0)) as [[k Hk] | Hnpre].
  { rewrite Hk. apply (deploy_esp_agree w1 w2 w0 w1); try done.
    - congruence.
    - intros n. destruct (decide (ub ++ [n] = d ++ ["bespin"])) as [-> | Hne];
        [congruence |].
      apply Hout2. intros [Hpre | [Hpre | (d0 & [= <-] & ?)]]; [| | done].
      + by apply (esp_not_prefix_ub_child env args n).
      + apply (ub_child_not_prefix_esp_boot env args n).
        etrans; [exact Hpre | apply esp_prefix_boot]. }
  destruct (decide (c :: q0 = d ++ ["bespin"])) as [-> | Hnb]; [congruence |].
  destruct (decide (c :: q0 `prefix_of` esp)) as [[k Hk] | Hnabove].
  { assert (forall w, tree_fs (w_fs w) -> w_fs w !! (esp ++ []) = Some Dir ->
              w_fs w !! (c :: q0) = Some Dir) as Habove.
    { intros w Ht He. rewrite app_nil_r in He.
      assert (is_dir (w_fs w) (c :: q0) = true) as Hdir.
      { apply (tree_fs_ancestors _ _ k); [done |]. rewrite <- Hk.
        apply is_dir_lookup; [apply esp_nonempty | done]. }
      unfold is_dir, stat in Hdir. by destruct (w_fs w !! (c :: q0)) as [[| ?] |]. }
    rewrite (Habove w2), (Habove w1); [done | by destruct Hwf1 | | by destruct Hwf2 |].
    - by rewrite Hdeep1.
    - by rewrite Hdeep2. }
  apply Hout2. intros [? | [? | (d0 & [= <-] & ?)]]; done.
Qed.

End DeployExact.

Lemma sample_world_stale_wf : wf_world sample_world_stale.
Proof.
  split.
  - apply tree_fs_check_sound. vm_compute. reflexivity.
  - intros d Hd. vm_compute in Hd. injection Hd as <-. vm_compute. reflexivity.
Qed.

Lemma esp_content_determined_witness :
  w_fs (deploy sample_env (sample_args "qemu" None None) sample_world).2
    !! (esp_path sample_env (sample_args "qemu" None None) ++ ["redis.bin"])
  = w_fs (deploy sample_env (sample_args "qemu" None None) sample_world_stale).2
      !! (esp_path sample_env (sample_args "qemu" None None) ++ ["redis.bin"]).
Proof.
  apply (esp_content_determined sample_env (sample_args "qemu" None None)
           sample_world
           (deploy sample_env (sample_args "qemu" None None) sample_world).2
           sample_world_stale
           (deploy sample_env (sample_args "qemu" None None) sample_world_stale).2).
  - apply sample_mods_plain.
  - apply sample_world_wf.
  - apply sample_world_stale_wf.
  - apply run_ok. vm_compute. reflexivity.
  - apply run_ok. vm_compute. reflexivity.
  - vm_compute. reflexivity.
  - vm_compute. reflexivity.
  - intros n.
    rewrite (deploy_keeps_user_build_dir sample_env (sample_args "qemu" None None)
               sample_world ["repo"; "kernel"] n); [| reflexivity | discriminate].
    rewrite (deploy_keeps_user_build_dir sample_env (sample_args "qemu" None None)
               sample_world_stale ["repo"; "kernel"] n);
      [| vm_compute; reflexivity | discriminate].
    symmetry.
    apply (deploy_keeps_user_build_dir sample_env
             (with_mods ["nope"] (sample_args "qemu" None None))
             sample_world ["repo"; "kernel"] n); [reflexivity | discriminate].
  - by apply prefix_app_r.
Defined.

Lemma redeploy_changes_nothing_witness :
  stat (w_fs (deploy sample_env (sample_args "qemu" None None)
                (deploy sample_env (sample_args "qemu" None None) sample_world).2).2)
       (esp_path sample_env (sample_args "qemu" None None) ++ ["kernel"])
  = stat (w_fs (deploy sample_env (sample_args "qemu" None None) sample_world).2)
         (esp_path sample_env (sample_args "qemu" None None) ++ ["kernel"]).
Proof.
  apply (redeploy_changes_nothing sample_env (sample_args "qemu" None None)
           sample_world
           (deploy sample_env (sample_args "qemu" None None) sample_world).2
           (deploy sample_env (sample_args "qemu" None None)
              (deploy sample_env (sample_args "qemu" None None) sample_world).2).2).
  - apply sample_world_wf.
  - apply run_ok. vm_compute. reflexivity.
  - apply run_ok. vm_compute. reflexivity.
Defined.
